(** * claude-memory: the scan / merge / persist core

    A shallow embedding of the Context Store (scanner/contextGenerator.ts),
    the Staleness Evaluator (scanner/stalenessDetector.ts), the Project
    Detector and tech-stack detector (scanner/projectScanner.ts) and the
    `scan` command of the CLI, followed by the properties of the
    specification that concern them.

    Conventions.
    - TypeScript interfaces are records; every interface lives in a module
      of its own so that the fields keep their source names.
    - The files of ~/.claude-memory are a finite map from file name to
      contents ([gmap string blob]); the code that touches them runs in a
      small exception/state monad [IO].
    - What the platform decides (the clock, Date parsing, git, stat, the
      fidelity of the disk) is a field of an explicit environment record.

    The development then goes on to the code around these places:
    writeGlobalContext on a disk whose renames and unlinks may fail, the
    exclusion list of the CLI, scanProjects and analyzeProject, the checks of
    the working directory and the record_insight tool of the MCP server
    (mcp/server.ts), and the license status (license/index.ts), with
    properties read off the code. *)

From stdpp Require Import gmap strings list pretty sorting.
From Stdlib Require Import QArith.
Local Open Scope Z_scope.
Local Open Scope string_scope.
Set Warnings "-register-all".

(** ** types/index.ts *)

Definition SCHEMA_VERSION : Z := 1.

Inductive Language := typescript | javascript | python | rust | go | other.

Inductive InsightType := pattern | convention | architecture | notable | todo.

Module ProjectInsight.
Record t := mk {
  type : InsightType;
  title : string;
  description : string;
  source : option string;
  discoveredAt : string }.
End ProjectInsight.

Module HasFiles.
Record t := mk {
  claudeMd : bool;
  readme : bool;
  packageJson : bool;
  gitignore : bool }.
End HasFiles.

Module ProjectInfo.
Record t := mk {
  path : string;
  name : string;
  description : string;
  techStack : list string;
  language : Language;
  lastActivity : string;
  currentBranch : string;
  isDirty : bool;
  hasFiles : HasFiles.t;
  insights : list ProjectInsight.t;
  lastScanned : string }.
End ProjectInfo.

Module GlobalInsight.
Record t := mk {
  content : string;
  relatedProjects : list string;
  discoveredAt : string }.
End GlobalInsight.

Module PatternExample.
Record t := mk {
  project : string;
  file : string;
  snippet : option string }.
End PatternExample.

Module UserPattern.
Record t := mk {
  name : string;
  description : string;
  examples : list PatternExample.t }.
End UserPattern.

(** [excludedProjects] is the one optional key of the interface. A document
    written before schema version 1 has no [schemaVersion] key; the code reads
    the key as [data.schemaVersion || 0], so such a document is the record
    whose [schemaVersion] is 0. *)
Module GlobalContext.
Record t := mk {
  schemaVersion : Z;
  lastUpdated : string;
  projects : list ProjectInfo.t;
  insights : list GlobalInsight.t;
  userPatterns : list UserPattern.t;
  excludedProjects : option (list string) }.

(** [context.excludedProjects || []], the way every reader takes the field. *)
Definition excluded (c : t) : list string := default [] (excludedProjects c).
End GlobalContext.

(** ** The platform *)

(** The clock and Date parsing. [Date_getTime s] is
    [new Date(s).getTime()], with [None] for NaN (an invalid date). One
    invocation is short: the clock is read as one instant. *)
Record Clock := {
  now_ms : Z;
  now_iso : string;
  Date_getTime : string -> option Z }.

(** Contents of a file, as [JSON.parse] sees them: [Doc c] is the JSON text
    of a value [c] of the GlobalContext interface (what
    [JSON.stringify (c, null, 2)] produces parses back to [c]); [Text s] is
    text that is not JSON, on which [JSON.parse] throws. JSON of another
    shape is not modelled. *)
Inductive blob :=
  | Doc (c : GlobalContext.t)
  | Text (s : string).

(** The files of MEMORY_DIR by name, and what was printed on the console. *)
Record World := {
  files : gmap string blob;
  console : list string }.

(** How the disk may misbehave. [medium p b] is what can be read back from
    [p] after [writeFileSync (p, b)]: [None] when the write throws, [Some b']
    when it returns ([b' <> b] is a corrupted write). [copy_ok] tells whether
    [copyFileSync] succeeds; [mkdir_ok] whether MEMORY_DIR exists or can be
    created. [renameSync] and [unlinkSync] fail on a missing file only. *)
Record Disk := {
  medium : string -> blob -> option blob;
  copy_ok : bool;
  mkdir_ok : bool }.

Definition faithful_disk : Disk :=
  {| medium := fun _ b => Some b; copy_ok := true; mkdir_ok := true |}.

(** ** The exception/state monad of the file operations *)

Inductive exn := Error (message : string).

Definition message_of (e : exn) : string := let 'Error m := e in m.

Inductive outcome (A : Type) :=
  | Returns (a : A)
  | Throws (e : exn).
Arguments Returns {A} a.
Arguments Throws {A} e.

Definition IO (A : Type) : Type := World -> outcome A * World.

Definition ret {A} (a : A) : IO A := fun w => (Returns a, w).

Definition throw {A} (e : exn) : IO A := fun w => (Throws e, w).

Definition bind {A B} (m : IO A) (k : A -> IO B) : IO B :=
  fun w =>
    match m w with
    | (Returns a, w') => k a w'
    | (Throws e, w') => (Throws e, w')
    end.

Definition try_catch {A} (body : IO A) (handler : exn -> IO A) : IO A :=
  fun w =>
    match body w with
    | (Returns a, w') => (Returns a, w')
    | (Throws e, w') => handler e w'
    end.

Declare Scope io_scope.
Delimit Scope io_scope with io.
Notation "x <- m ;; k" := (bind m (fun x => k))
  (at level 100, m at next level, right associativity) : io_scope.
Notation "m ;; k" := (bind m (fun _ => k))
  (at level 100, right associativity) : io_scope.

Definition when (b : bool) (m : IO unit) : IO unit := if b then m else ret tt.

Definition set_files (f : gmap string blob) (w : World) : World :=
  {| files := f; console := console w |}.

(** [console.log], [console.warn] and [console.error]; a message is kept
    without its leading and trailing line breaks. *)
Definition print (line : string) : IO unit :=
  fun w => (Returns tt, {| files := files w; console := (console w ++ [line])%list |}).

Definition existsSync (p : string) : IO bool :=
  fun w => (Returns (bool_decide (is_Some (files w !! p))), w).

Definition readFileSync (p : string) : IO blob :=
  fun w =>
    match files w !! p with
    | Some b => (Returns b, w)
    | None => (Throws (Error ("ENOENT: no such file or directory, open " +:+ p)), w)
    end.

Definition JSON_parse (b : blob) : IO GlobalContext.t :=
  match b with
  | Doc c => ret c
  | Text _ => throw (Error "SyntaxError: Unexpected token in JSON")
  end.

Definition writeFileSync (d : Disk) (p : string) (b : blob) : IO unit :=
  fun w =>
    match medium d p b with
    | Some b' => (Returns tt, set_files (<[p := b']> (files w)) w)
    | None => (Throws (Error ("EIO: i/o error, write " +:+ p)), w)
    end.

Definition copyFileSync (d : Disk) (src dst : string) : IO unit :=
  fun w =>
    match files w !! src with
    | Some b =>
        if copy_ok d
        then (Returns tt, set_files (<[dst := b]> (files w)) w)
        else (Throws (Error ("EACCES: permission denied, copyfile " +:+ src)), w)
    | None => (Throws (Error ("ENOENT: no such file or directory, copyfile " +:+ src)), w)
    end.

Definition renameSync (src dst : string) : IO unit :=
  fun w =>
    match files w !! src with
    | Some b => (Returns tt, set_files (<[dst := b]> (delete src (files w))) w)
    | None => (Throws (Error ("ENOENT: no such file or directory, rename " +:+ src)), w)
    end.

Definition unlinkSync (p : string) : IO unit :=
  fun w =>
    match files w !! p with
    | Some _ => (Returns tt, set_files (delete p (files w)) w)
    | None => (Throws (Error ("ENOENT: no such file or directory, unlink " +:+ p)), w)
    end.

(** [if (!existsSync(MEMORY_DIR)) mkdirSync(MEMORY_DIR, { recursive: true })] *)
Definition ensure_memory_dir (d : Disk) : IO unit :=
  if mkdir_ok d then ret tt
  else throw (Error "EACCES: permission denied, mkdir .claude-memory").

(** ** scanner/contextGenerator.ts *)

Module Store.
Import GlobalContext.

Definition jsonPath : string := "context.json".
Definition mdPath : string := "global-context.md".
Definition jsonTempPath : string := "context.json.tmp".
Definition mdTempPath : string := "global-context.md.tmp".
Definition jsonBackupPath : string := "context.json.bak".

(** [s || d] on strings: the empty string is falsy. *)
Definition or_string (s d : string) : string :=
  if String.eqb s "" then d else s.

(** [n || 0] on numbers. *)
Definition or_zero (n : Z) : Z := if (n =? 0)%Z then 0 else n.

Definition migrateContext (clk : Clock) (data : GlobalContext.t) : GlobalContext.t :=
  let version := or_zero (schemaVersion data) in
  if (version <? 1)%Z then
    {| schemaVersion := SCHEMA_VERSION;
       lastUpdated := or_string (lastUpdated data) (now_iso clk);
       projects := projects data;
       insights := insights data;
       userPatterns := userPatterns data;
       excludedProjects := Some [] |}
  else data.

Definition loadExistingContext (clk : Clock) (w : World) : option GlobalContext.t :=
  match files w !! jsonPath with
  | None => None
  | Some (Doc data) => Some (migrateContext clk data)
  | Some (Text _) => None
  end.

Definition generateGlobalContext (clk : Clock) (w : World)
    (scanned : list ProjectInfo.t) : GlobalContext.t :=
  let existing := loadExistingContext clk w in
  {| schemaVersion := SCHEMA_VERSION;
     lastUpdated := now_iso clk;
     projects := scanned;
     insights := from_option insights [] existing;
     userPatterns := from_option userPatterns [] existing;
     excludedProjects := Some (from_option excluded [] existing) |}.

Definition verification_failed (expected got : nat) : exn :=
  Error ("Write verification failed: expected " +:+ pretty expected
         +:+ " projects, got " +:+ pretty got).

(** The blocks of writeGlobalContext, named after their comments in the
    source. *)

(** "Create backup of existing context before overwriting" *)
Definition create_backup (d : Disk) : IO unit :=
  (has_prior <- existsSync jsonPath ;;
   when has_prior
     (try_catch (copyFileSync d jsonPath jsonBackupPath)
        (fun _ => print "   ⚠️  Could not create backup")))%io.

(** "Write to temp files first (atomic write pattern)"; [render] is
    formatGlobalContextMarkdown. *)
Definition write_temp_files (d : Disk) (render : GlobalContext.t -> string)
    (context : GlobalContext.t) : IO unit :=
  (writeFileSync d jsonTempPath (Doc context) ;;
   writeFileSync d mdTempPath (Text (render context)))%io.

(** "Verify JSON can be parsed back" *)
Definition verify_temp_file (context : GlobalContext.t) : IO unit :=
  (raw <- readFileSync jsonTempPath ;;
   verification <- JSON_parse raw ;;
   if bool_decide (length (projects verification) ≠ length (projects context))
   then throw (verification_failed (length (projects context))
                 (length (projects verification)))
   else ret tt)%io.

(** "Atomic rename (much safer than direct write)" *)
Definition atomic_rename : IO unit :=
  (renameSync jsonTempPath jsonPath ;;
   renameSync mdTempPath mdPath)%io.

(** "Clean up temp files if they exist", cleanup errors ignored. *)
Definition clean_up_temp_files : IO unit :=
  try_catch
    (has_json_tmp <- existsSync jsonTempPath ;;
     when has_json_tmp (unlinkSync jsonTempPath) ;;
     has_md_tmp <- existsSync mdTempPath ;;
     when has_md_tmp (unlinkSync mdTempPath))%io
    (fun _ => ret tt).

(** The [try] block. *)
Definition attempt_write (d : Disk) (render : GlobalContext.t -> string)
    (context : GlobalContext.t) : IO unit :=
  (create_backup d ;;
   write_temp_files d render context ;;
   verify_temp_file context ;;
   atomic_rename ;;
   print "📝 Written to:" ;;
   print ("   " +:+ jsonPath +:+ " (" +:+ pretty (length (projects context))
          +:+ " projects)") ;;
   print ("   " +:+ mdPath))%io.

(** The [catch (err)] block; it ends in "Re-throw so caller knows it
    failed". *)
Definition on_write_failure (err : exn) : IO unit :=
  (clean_up_temp_files ;;
   print "❌ Failed to write context:" ;;
   print ("   " +:+ message_of err) ;;
   has_backup <- existsSync jsonBackupPath ;;
   when has_backup (print ("   💾 Backup available at: " +:+ jsonBackupPath)) ;;
   throw err)%io.

Definition writeGlobalContext (d : Disk) (render : GlobalContext.t -> string)
    (context : GlobalContext.t) : IO unit :=
  (ensure_memory_dir d ;;
   try_catch (attempt_write d render context) on_write_failure)%io.
End Store.

(** ** Probing the project directories *)

(** [path.join (dir, entry)] for a normalised directory and a plain entry
    name. *)
Definition join (dir entry : string) : string := dir +:+ "/" +:+ entry.

(** A parsed JSON value (a project's package.json). Objects have one
    binding per key. *)
Inductive json :=
  | JNull
  | JBool (b : bool)
  | JNum (n : Z)
  | JStr (s : string)
  | JArr (items : list json)
  | JObj (fields : list (string * json)).

(** What the project directories answer. [fs_mtimeMs p] is
    [fs.statSync (p).mtimeMs] and [read_json p] is
    [JSON.parse (readFileSync (p, 'utf-8'))], each [None] when the call
    throws; [git_last_commit cwd] is the trimmed output of
    [git log -1 --format=%cI] run in [cwd], [None] when execSync throws or
    times out. *)
Record Probe := {
  fs_existsSync : string -> bool;
  fs_mtimeMs : string -> option Q;
  read_json : string -> option json;
  git_last_commit : string -> option string }.

(** ** scanner/stalenessDetector.ts *)

Inductive Reason := age | git_activity | file_changed | never_scanned.

(** [daysSinceScanned] is a JS number: [None] is NaN. *)
Module StaleProject.
Record t := mk {
  name : string;
  path : string;
  daysSinceScanned : option Z;
  reason : Reason;
  details : option string }.
End StaleProject.

Module StalenessReport.
Record t := mk {
  dataAgeHours : option Z;
  staleProjects : list StaleProject.t;
  freshCount : Z;
  summary : string;
  suggestion : option string }.
End StalenessReport.

Module Staleness.

Definition WARNING : Z := 3.
Definition STALE : Z := 7.
Definition CRITICAL : Z := 14.

(** [a > b] on numbers, false as soon as one side is NaN. *)
Definition num_gt (a b : option Z) : bool :=
  match a, b with
  | Some x, Some y => bool_decide (y < x)
  | _, _ => false
  end.

(** [a >= k] for a number [a] and a constant [k]. *)
Definition num_ge (a : option Z) (k : Z) : bool :=
  match a with
  | Some x => bool_decide (k <= x)
  | None => false
  end.

(** [stat.mtimeMs > lastScannedTime]; mtimeMs has a fractional part. *)
Definition mtime_gt (m : Q) (t : option Z) : bool :=
  match t with
  | Some y => negb (Qle_bool m (inject_Z y))
  | None => false
  end.

(** [Math.floor ((now.getTime () - t) / unit)] *)
Definition elapsed (clk : Clock) (unit : Z) (t : option Z) : option Z :=
  (fun x => (now_ms clk - x) `div` unit) <$> t.

Definition hasNewCommits (clk : Clock) (pr : Probe)
    (projectPath lastScanned : string) : bool :=
  let gitDir := join projectPath ".git" in
  if negb (fs_existsSync pr gitDir) then false
  else
    match git_last_commit pr projectPath with
    | None => false
    | Some result =>
        if String.eqb result "" then false
        else
          let lastCommitDate := Date_getTime clk result in
          let lastScannedDate := Date_getTime clk lastScanned in
          num_gt lastCommitDate lastScannedDate
    end.

Definition keyFiles : list string :=
  ["package.json"; "CLAUDE.md"; "README.md"; "Cargo.toml"; "pyproject.toml"; "go.mod"].

Definition hasModifiedFiles (clk : Clock) (pr : Probe)
    (projectPath lastScanned : string) : bool :=
  let lastScannedTime := Date_getTime clk lastScanned in
  existsb
    (fun file =>
       let filePath := join projectPath file in
       if fs_existsSync pr filePath then
         match fs_mtimeMs pr filePath with
         | Some mtimeMs => mtime_gt mtimeMs lastScannedTime
         | None => false
         end
       else false)
    keyFiles.

Definition analyzeProjectStaleness (clk : Clock) (pr : Probe)
    (project : ProjectInfo.t) : option StaleProject.t :=
  let lastScanned := Date_getTime clk (ProjectInfo.lastScanned project) in
  let daysSinceScanned := elapsed clk (1000 * 60 * 60 * 24) lastScanned in
  if hasNewCommits clk pr (ProjectInfo.path project) (ProjectInfo.lastScanned project) then
    Some {| StaleProject.name := ProjectInfo.name project;
            StaleProject.path := ProjectInfo.path project;
            StaleProject.daysSinceScanned := daysSinceScanned;
            StaleProject.reason := git_activity;
            StaleProject.details := Some "New commits since last scan" |}
  else if hasModifiedFiles clk pr (ProjectInfo.path project) (ProjectInfo.lastScanned project) then
    Some {| StaleProject.name := ProjectInfo.name project;
            StaleProject.path := ProjectInfo.path project;
            StaleProject.daysSinceScanned := daysSinceScanned;
            StaleProject.reason := file_changed;
            StaleProject.details := Some "Key files modified since last scan" |}
  else if num_ge daysSinceScanned STALE then
    Some {| StaleProject.name := ProjectInfo.name project;
            StaleProject.path := ProjectInfo.path project;
            StaleProject.daysSinceScanned := daysSinceScanned;
            StaleProject.reason := age;
            StaleProject.details :=
              Some ("Not scanned in " +:+ from_option pretty "NaN" daysSinceScanned
                    +:+ " days") |}
  else None.

(** The comparator [(a, b) => b.daysSinceScanned - a.daysSinceScanned] is
    positive exactly when [b] has strictly more days than [a]. *)
Definition comes_after (a b : StaleProject.t) : bool :=
  num_gt (StaleProject.daysSinceScanned b) (StaleProject.daysSinceScanned a).

(** [Array.prototype.sort] is stable: an element moves behind a later one
    only when the comparator is positive. *)
Fixpoint insert_sorted (a : StaleProject.t) (l : list StaleProject.t) : list StaleProject.t :=
  match l with
  | [] => [a]
  | b :: rest => if comes_after a b then b :: insert_sorted a rest else a :: l
  end.

Definition sort (l : list StaleProject.t) : list StaleProject.t :=
  foldr insert_sorted [] l.

Definition detectStaleProjects (clk : Clock) (pr : Probe)
    (context : GlobalContext.t) : StalenessReport.t :=
  let lastUpdated := Date_getTime clk (GlobalContext.lastUpdated context) in
  let dataAgeHours := elapsed clk (1000 * 60 * 60) lastUpdated in
  let staleProjects :=
    sort (omap (analyzeProjectStaleness clk pr) (GlobalContext.projects context)) in
  let total := length (GlobalContext.projects context) in
  let freshCount := Z.of_nat total - Z.of_nat (length staleProjects) in
  let '(summary, suggestion) :=
    match staleProjects with
    | [] => ("All " +:+ pretty total +:+ " projects are up to date.", None)
    | [p] =>
        ("1 project needs updating: " +:+ StaleProject.name p +:+ " ("
         +:+ default "undefined" (StaleProject.details p) +:+ ")",
         Some "claude-memory scan --quick")
    | _ =>
        let critical :=
          filter (fun p => num_ge (StaleProject.daysSinceScanned p) CRITICAL = true)
            staleProjects in
        (if bool_decide (0 < length critical)%nat
         then "âš ï¸ " +:+ pretty (length staleProjects) +:+ " projects need updating ("
              +:+ pretty (length critical) +:+ " critical)"
         else pretty (length staleProjects) +:+ " projects could use a refresh",
         Some "claude-memory scan --quick")
    end in
  {| StalenessReport.dataAgeHours := dataAgeHours;
     StalenessReport.staleProjects := staleProjects;
     StalenessReport.freshCount := freshCount;
     StalenessReport.summary := summary;
     StalenessReport.suggestion := suggestion |}.
End Staleness.

(** ** scanner/projectScanner.ts *)

(** A directory tree as the detector sees it. [Locked] is a directory that
    cannot be listed ([readdirSync] throws), [Broken] an entry on which
    [statSync] throws. *)
Inductive node :=
  | File
  | Dir (entries : list (string * node))
  | Locked
  | Broken.

Module Scanner.

(** [statSync (fullPath).isDirectory ()], [None] when statSync throws. *)
Definition isDirectory (n : node) : option bool :=
  match n with
  | File => Some false
  | Dir _ | Locked => Some true
  | Broken => None
  end.

(** [entries.includes (name)] *)
Definition includes (names : list string) (name : string) : bool :=
  bool_decide (name ∈ names).

Definition isProject (entries : list string) : bool :=
  includes entries "package.json"
  || includes entries "Cargo.toml"
  || includes entries "pyproject.toml"
  || includes entries "go.mod"
  || includes entries ".git".

(** The closure [walk]; the array [roots] it pushes to is the list it
    returns, in the order of the pushes. *)
Fixpoint walk (maxDepth : Z) (ignore : list string)
    (dir : string) (here : node) (depth : Z) {struct here} : list string :=
  if bool_decide (maxDepth < depth) then []
  else
    match here with
    | Dir children =>
        let entries := children.*1 in
        if isProject entries then [dir]
        else
          (fix each (cs : list (string * node)) : list string :=
             match cs with
             | [] => []
             | (entry, child) :: rest =>
                 ((if includes ignore entry then []
                   else
                     let fullPath := join dir entry in
                     match isDirectory child with
                     | Some true => walk maxDepth ignore fullPath child (depth + 1)
                     | Some false | None => []
                     end)
                  ++ each rest)%list
             end) children
    | File | Locked | Broken => []
    end.

Definition findProjectRoots (tree : node) (rootDir : string)
    (maxDepth : Z) (ignore : list string) : list string :=
  walk maxDepth ignore rootDir tree 0.

(** The value bound to [key] among the own properties [fields]. *)
Definition own (fields : list (string * json)) (key : string) : option json :=
  (fun found : nat * (string * json) => found.2.2)
    <$> list_find (fun kv : string * json => kv.1 = key) fields.

(** [obj.key] on a parsed value: [None] is a TypeError (property of null),
    [Some None] is undefined. *)
Definition property (obj : json) (key : string) : option (option json) :=
  match obj with
  | JNull => None
  | JObj fields => Some (own fields key)
  | _ => Some None
  end.

(** The own enumerable string keys that [{ ...v }] copies. An array or a
    string spreads index keys only, none of which is looked up below. *)
Definition spread (v : option json) : list (string * json) :=
  match v with
  | Some (JObj fields) => fields
  | _ => []
  end.

(** Truthiness of [deps.key] in [{ ...a, ...b }]: a key of [b] overrides
    the same key of [a]. *)
Definition truthy (v : json) : bool :=
  match v with
  | JNull => false
  | JBool b => b
  | JNum n => negb (n =? 0)%Z
  | JStr s => negb (String.eqb s "")
  | JArr _ | JObj _ => true
  end.

Definition has_dep (a b : list (string * json)) (key : string) : bool :=
  match own b key with
  | Some v => truthy v
  | None => from_option truthy false (own a key)
  end.

Definition frameworks : list (string * string) :=
  [("react", "React"); ("vue", "Vue"); ("next", "Next.js"); ("express", "Express");
   ("fastify", "Fastify"); ("@anthropic-ai/sdk", "Claude SDK");
   ("@modelcontextprotocol/sdk", "MCP")].

(** The body of the [try] of the package.json check: [None] when it throws
    (unreadable file, invalid JSON, [null] document) before having assigned
    anything. *)
Definition js_check (pr : Probe) (projectPath : string) : option (Language * list string) :=
  pkg ← read_json pr (join projectPath "package.json");
  dependencies ← property pkg "dependencies";
  devDependencies ← property pkg "devDependencies";
  let a := spread dependencies in
  let b := spread devDependencies in
  let '(language, first) :=
    if has_dep a b "typescript" || fs_existsSync pr (join projectPath "tsconfig.json")
    then (typescript, "TypeScript")
    else (javascript, "JavaScript") in
  Some (language,
        first :: (snd <$> filter (fun kf => has_dep a b kf.1 = true) frameworks)).

Definition detectTechStack (pr : Probe) (projectPath : string) : Language * list string :=
  let s0 : Language * list string := (other, []) in
  let s1 :=
    if fs_existsSync pr (join projectPath "package.json") then
      match js_check pr projectPath with
      | Some (language, pushed) => (language, (s0.2 ++ pushed)%list)
      | None => s0
      end
    else s0 in
  let s2 :=
    if fs_existsSync pr (join projectPath "Cargo.toml")
    then (rust, (s1.2 ++ ["Rust"])%list) else s1 in
  let s3 :=
    if fs_existsSync pr (join projectPath "pyproject.toml")
       || fs_existsSync pr (join projectPath "requirements.txt")
    then (python, (s2.2 ++ ["Python"])%list) else s2 in
  let s4 :=
    if fs_existsSync pr (join projectPath "go.mod")
    then (go, (s3.2 ++ ["Go"])%list) else s3 in
  s4.
End Scanner.

(** ** The command-line interface: the `scan` command *)

Module ExtendedScanOptions.
Record t := mk {
  rootDir : string;
  maxDepth : Z;
  generateClaudeMd : bool;
  onlyPaths : option (list string) }.
End ExtendedScanOptions.

(** The options of `scan`; [depth] is [parseInt (options.depth, 10)]. *)
Module ScanFlags.
Record t := mk {
  depth : Z;
  generateClaudeMd : bool;
  quick : bool;
  check : bool }.
End ScanFlags.

(** Everything the command depends on. [scanProjects] is the scanner run to
    completion: it reads the project directories and the files of the store,
    and writes neither. *)
Record Env := {
  clock : Clock;
  probe : Probe;
  disk : Disk;
  formatGlobalContextMarkdown : GlobalContext.t -> string;
  toLocaleString : string -> string;
  scanProjects : ExtendedScanOptions.t -> gmap string blob -> list ProjectInfo.t }.

Module Cli.
Import GlobalContext.

Definition loadContext : IO (option GlobalContext.t) :=
  fun w =>
    (Returns
       match files w !! Store.jsonPath with
       | Some (Doc c) => Some c
       | Some (Text _) | None => None
       end, w).

Definition no_projects_yet : IO unit :=
  (print "❌ No projects scanned yet." ;;
   print "Get started:" ;;
   print "  claude-memory setup           # Interactive wizard (recommended)" ;;
   print "  claude-memory scan ~/Projects # Scan a specific directory")%io.

Definition icon (r : Reason) : string :=
  match r with
  | git_activity => "📝"
  | file_changed => "📄"
  | _ => "⏰"
  end.

Fixpoint print_stale (l : list StaleProject.t) : IO unit :=
  match l with
  | [] => ret tt
  | p :: rest =>
      (print ("  " +:+ icon (StaleProject.reason p) +:+ " " +:+ StaleProject.name p) ;;
       print ("     " +:+ default "undefined" (StaleProject.details p)) ;;
       print_stale rest)%io
  end.

Definition check_only (env : Env) : IO unit :=
  (context <- loadContext ;;
   match context with
   | None => no_projects_yet
   | Some context =>
       let report := Staleness.detectStaleProjects (clock env) (probe env) context in
       print "🧠 Claude Memory - Staleness Check" ;;
       print ("Last full scan: " +:+ toLocaleString env (lastUpdated context)) ;;
       print ("Data age: " +:+ from_option pretty "NaN" (StalenessReport.dataAgeHours report)
              +:+ " hours") ;;
       match StalenessReport.staleProjects report with
       | [] => print "✅ All projects are up to date!"
       | stale =>
           print ("⚠️  " +:+ pretty (length stale) +:+ " project(s) need updating:") ;;
           print_stale stale ;;
           print (pretty (StalenessReport.freshCount report) +:+ " project(s) are fresh.") ;;
           print "Run `claude-memory scan --quick` to refresh only stale projects."
       end
   end)%io.

(** The merge of quick mode:
    [{ ...existingContext, lastUpdated, projects: [...unchangedProjects, ...projects] }] *)
Definition quick_merge (clk : Clock) (existingContext : GlobalContext.t)
    (scanned : list ProjectInfo.t) : GlobalContext.t :=
  let rescannedPaths : gset string := list_to_set (ProjectInfo.path <$> scanned) in
  let unchangedProjects :=
    filter (fun p => ProjectInfo.path p ∉ rescannedPaths) (projects existingContext) in
  {| schemaVersion := schemaVersion existingContext;
     lastUpdated := now_iso clk;
     projects := unchangedProjects ++ scanned;
     insights := insights existingContext;
     userPatterns := userPatterns existingContext;
     excludedProjects := excludedProjects existingContext |}.

Definition generateGlobalContext (env : Env) (scanned : list ProjectInfo.t)
    : IO GlobalContext.t :=
  fun w => (Returns (Store.generateGlobalContext (clock env) w scanned), w).

(** The options object the action passes to scanProjects. *)
Definition request (directory : string) (options : ScanFlags.t)
    (projectsToScan : option (list string)) : ExtendedScanOptions.t :=
  {| ExtendedScanOptions.rootDir := directory;
     ExtendedScanOptions.maxDepth := ScanFlags.depth options;
     ExtendedScanOptions.generateClaudeMd := ScanFlags.generateClaudeMd options;
     ExtendedScanOptions.onlyPaths := projectsToScan |}.

(** From [await scanProjects(...)] to the end of the action. *)
Definition scan_and_write (env : Env) (directory : string) (options : ScanFlags.t)
    (projectsToScan : option (list string)) : IO unit :=
  (scanned <- (fun w =>
                 (Returns
                    (scanProjects env (request directory options projectsToScan) (files w)),
                  w)) ;;
   if bool_decide (length scanned = 0%nat) then
     print "⚠️  No projects found. Context not updated." ;;
     print "   Check the directory path and try again."
   else
     context <-
       (if ScanFlags.quick options && bool_decide (is_Some projectsToScan) then
          existingContext <- loadContext ;;
          match existingContext with
          | Some existingContext => ret (quick_merge (clock env) existingContext scanned)
          | None => generateGlobalContext env scanned
          end
        else generateGlobalContext env scanned) ;;
     Store.writeGlobalContext (disk env) (formatGlobalContextMarkdown env) context ;;
     print "✅ Done! Global context updated." ;;
     print "To use with Claude Code, add the MCP server to your config:" ;;
     print "  claude-memory mcp")%io.

Definition scan_action (env : Env) (directory : string) (options : ScanFlags.t) : IO unit :=
  if ScanFlags.check options then check_only env
  else
    (print "🧠 Claude Memory Scanner" ;;
     if ScanFlags.quick options then
       existingContext <- loadContext ;;
       match existingContext with
       | Some existingContext =>
           let report :=
             Staleness.detectStaleProjects (clock env) (probe env) existingContext in
           match StalenessReport.staleProjects report with
           | [] => print "✅ All projects are up to date! Nothing to scan."
           | stale =>
               let projectsToScan := StaleProject.path <$> stale in
               print ("🔄 Quick mode: Rescanning " +:+ pretty (length projectsToScan)
                      +:+ " stale project(s)...") ;;
               scan_and_write env directory options (Some projectsToScan)
           end
       | None => scan_and_write env directory options None
       end
     else scan_and_write env directory options None)%io.
End Cli.


(** ** scanner/contextGenerator.ts when renames and unlinks may fail

    [renameSync] and [unlinkSync] above fail on a missing file only. Here
    they may also fail on a file that is there (a target that cannot be
    replaced, an entry that cannot be removed): [rename_ok src dst] and
    [unlink_ok p] tell whether the call succeeds. A call that fails changes
    no file. *)
Record Faults := {
  rename_ok : string -> string -> bool;
  unlink_ok : string -> bool }.

Definition no_faults : Faults :=
  {| rename_ok := fun _ _ => true; unlink_ok := fun _ => true |}.

Module Fragile.
Import GlobalContext Store.

Definition renameSync (f : Faults) (src dst : string) : IO unit :=
  fun w =>
    match files w !! src with
    | Some b =>
        if rename_ok f src dst
        then (Returns tt, set_files (<[dst := b]> (delete src (files w))) w)
        else (Throws (Error ("EPERM: operation not permitted, rename " +:+ src)), w)
    | None => (Throws (Error ("ENOENT: no such file or directory, rename " +:+ src)), w)
    end.

Definition unlinkSync (f : Faults) (p : string) : IO unit :=
  fun w =>
    match files w !! p with
    | Some _ =>
        if unlink_ok f p
        then (Returns tt, set_files (delete p (files w)) w)
        else (Throws (Error ("EPERM: operation not permitted, unlink " +:+ p)), w)
    | None => (Throws (Error ("ENOENT: no such file or directory, unlink " +:+ p)), w)
    end.

(** "Atomic rename (much safer than direct write)" *)
Definition atomic_rename (f : Faults) : IO unit :=
  (renameSync f jsonTempPath jsonPath ;;
   renameSync f mdTempPath mdPath)%io.

(** "Clean up temp files if they exist"; the first unlink that throws ends
    the cleanup ("Ignore cleanup errors"). *)
Definition clean_up_temp_files (f : Faults) : IO unit :=
  try_catch
    (has_json_tmp <- existsSync jsonTempPath ;;
     when has_json_tmp (unlinkSync f jsonTempPath) ;;
     has_md_tmp <- existsSync mdTempPath ;;
     when has_md_tmp (unlinkSync f mdTempPath))%io
    (fun _ => ret tt).

(** The [try] block. *)
Definition attempt_write (d : Disk) (f : Faults) (render : GlobalContext.t -> string)
    (context : GlobalContext.t) : IO unit :=
  (create_backup d ;;
   write_temp_files d render context ;;
   verify_temp_file context ;;
   atomic_rename f ;;
   print "📝 Written to:" ;;
   print ("   " +:+ jsonPath +:+ " (" +:+ pretty (length (projects context))
          +:+ " projects)") ;;
   print ("   " +:+ mdPath))%io.

(** The [catch (err)] block. *)
Definition on_write_failure (f : Faults) (err : exn) : IO unit :=
  (clean_up_temp_files f ;;
   print "❌ Failed to write context:" ;;
   print ("   " +:+ message_of err) ;;
   has_backup <- existsSync jsonBackupPath ;;
   when has_backup (print ("   💾 Backup available at: " +:+ jsonBackupPath)) ;;
   throw err)%io.

Definition writeGlobalContext (d : Disk) (f : Faults) (render : GlobalContext.t -> string)
    (context : GlobalContext.t) : IO unit :=
  (ensure_memory_dir d ;;
   try_catch (attempt_write d f render context) (on_write_failure f))%io.
End Fragile.

(** ** The command-line interface: the exclusion list *)

Module Exclude.
Import GlobalContext.

(** [context.excludedProjects = l], the other keys as they are. *)
Definition set_excludedProjects (context : GlobalContext.t) (l : list string)
    : GlobalContext.t :=
  {| schemaVersion := schemaVersion context;
     lastUpdated := lastUpdated context;
     projects := projects context;
     insights := insights context;
     userPatterns := userPatterns context;
     excludedProjects := Some l |}.

Definition addExclusion (d : Disk) (projectPath : string) : IO unit :=
  (has_context <- existsSync Store.jsonPath ;;
   if negb has_context then ret tt
   else
     try_catch
       (raw <- readFileSync Store.jsonPath ;;
        context <- JSON_parse raw ;;
        let excludedProjects := excluded context in
        if Scanner.includes excludedProjects projectPath then ret tt
        else
          writeFileSync d Store.jsonPath
            (Doc (set_excludedProjects context (excludedProjects ++ [projectPath])%list)))
       (fun _ => print "Failed to update exclusion list"))%io.

Definition removeExclusion (d : Disk) (projectPath : string) : IO unit :=
  (has_context <- existsSync Store.jsonPath ;;
   if negb has_context then ret tt
   else
     try_catch
       (raw <- readFileSync Store.jsonPath ;;
        context <- JSON_parse raw ;;
        writeFileSync d Store.jsonPath
          (Doc (set_excludedProjects context
                  (filter (fun p => p ≠ projectPath) (excluded context)))))
       (fun _ => print "Failed to update exclusion list"))%io.
End Exclude.

(** ** scanner/projectScanner.ts: scanProjects and analyzeProject *)

(** What simple-git has answered by the time [Promise.race] settles:
    nothing ([simpleGit], [git.log] or the timer threw first), the log only
    ([git.status] threw or the timer fired), or both. [latest] is
    [log.latest.date], [None] for a repository without commits; [current] is
    [status.current], [None] for [null]. *)
Inductive GitOutcome :=
  | GitFailed
  | GitLogOnly (latest : option string)
  | GitDone (latest : option string) (current : option string) (isClean : bool).

(** The workspace below the scanned directories. [tree dir] is what
    [readdirSync] and [statSync] show from [dir] down ([Locked] when [dir]
    cannot be listed). The three text heuristics read files of one project
    and catch their own errors; they are taken as functions of the project
    path. *)
Record Workspace := {
  tree : string -> node;
  detectProjectName : string -> string;
  detectDescription : string -> string;
  extractInsightsFromClaudeMd : string -> list ProjectInsight.t;
  simpleGit : string -> GitOutcome }.

Module Scan.

(** [DEFAULT_SCAN_OPTIONS.ignore]; no caller of scanProjects overrides it. *)
Definition ignore : list string :=
  ["node_modules"; ".git"; "dist"; "build"; "__pycache__"; "target"; ".venv"; "venv";
   "coverage"; ".next"].

Definition analyzeProject (clk : Clock) (pr : Probe) (ws : Workspace)
    (projectPath : string) : ProjectInfo.t :=
  let name := detectProjectName ws projectPath in
  let description := detectDescription ws projectPath in
  let '(language, techStack) := Scanner.detectTechStack pr projectPath in
  let '(lastActivity, currentBranch, isDirty) :=
    if fs_existsSync pr (join projectPath ".git") then
      match simpleGit ws projectPath with
      | GitFailed => (now_iso clk, "unknown", false)
      | GitLogOnly latest => (default (now_iso clk) latest, "unknown", false)
      | GitDone latest current isClean =>
          (default (now_iso clk) latest,
           Store.or_string (default "" current) "unknown",
           negb isClean)
      end
    else (now_iso clk, "unknown", false) in
  let insights := extractInsightsFromClaudeMd ws projectPath in
  {| ProjectInfo.path := projectPath;
     ProjectInfo.name := name;
     ProjectInfo.description := description;
     ProjectInfo.techStack := techStack;
     ProjectInfo.language := language;
     ProjectInfo.lastActivity := lastActivity;
     ProjectInfo.currentBranch := currentBranch;
     ProjectInfo.isDirty := isDirty;
     ProjectInfo.hasFiles :=
       {| HasFiles.claudeMd := fs_existsSync pr (join projectPath "CLAUDE.md");
          HasFiles.readme := fs_existsSync pr (join projectPath "README.md");
          HasFiles.packageJson := fs_existsSync pr (join projectPath "package.json");
          HasFiles.gitignore := fs_existsSync pr (join projectPath ".gitignore") |};
     ProjectInfo.insights := insights;
     ProjectInfo.lastScanned := now_iso clk |}.

(** The projects scanProjects returns; [store] is the files of MEMORY_DIR,
    which the full scan reads for the exclusion list. analyzeProject neither
    throws nor returns null, so every path that is analysed gives a project.
    The progress lines of the scanner are not part of the model. *)
Definition scanProjects (clk : Clock) (pr : Probe) (ws : Workspace)
    (options : ExtendedScanOptions.t) (store : gmap string blob) : list ProjectInfo.t :=
  match ExtendedScanOptions.onlyPaths options with
  | Some ((_ :: _) as onlyPaths) =>
      analyzeProject clk pr ws <$> filter (fun p => fs_existsSync pr p = true) onlyPaths
  | Some [] | None =>
      let rootDir := ExtendedScanOptions.rootDir options in
      if negb (fs_existsSync pr rootDir) then []
      else
        let candidates :=
          Scanner.findProjectRoots (tree ws rootDir) rootDir
            (ExtendedScanOptions.maxDepth options) ignore in
        match candidates with
        | [] => []
        | _ =>
            let existingContext :=
              Store.loadExistingContext clk {| files := store; console := [] |} in
            let excludedProjects := from_option GlobalContext.excluded [] existingContext in
            let filteredCandidates :=
              filter (fun path => path ∉ excludedProjects) candidates in
            analyzeProject clk pr ws <$> filteredCandidates
        end
  end.
End Scan.

(** The environment of the command with the scanner above in it. *)
Definition with_scanner (env : Env) (ws : Workspace) : Env :=
  {| clock := clock env;
     probe := probe env;
     disk := disk env;
     formatGlobalContextMarkdown := formatGlobalContextMarkdown env;
     toLocaleString := toLocaleString env;
     scanProjects := Scan.scanProjects (clock env) (probe env) ws |}.

(** ** scanner/stalenessDetector.ts: the check of the working directory *)

(** [s.startsWith (searchString)] *)
Definition startsWith (s searchString : string) : bool := String.prefix searchString s.

Module CurrentStaleness.
Record t := mk {
  isStale : bool;
  project : option ProjectInfo.t;
  reason : option string }.
End CurrentStaleness.

Module Current.

Definition checkCurrentProjectStaleness (clk : Clock) (pr : Probe)
    (context : GlobalContext.t) (cwd : string) : CurrentStaleness.t :=
  let project :=
    List.find
      (fun p => startsWith cwd (ProjectInfo.path p) || startsWith (ProjectInfo.path p) cwd)
      (GlobalContext.projects context) in
  match project with
  | None =>
      {| CurrentStaleness.isStale := false;
         CurrentStaleness.project := None;
         CurrentStaleness.reason := None |}
  | Some project =>
      match Staleness.analyzeProjectStaleness clk pr project with
      | Some staleness =>
          {| CurrentStaleness.isStale := true;
             CurrentStaleness.project := Some project;
             CurrentStaleness.reason := StaleProject.details staleness |}
      | None =>
          {| CurrentStaleness.isStale := false;
             CurrentStaleness.project := Some project;
             CurrentStaleness.reason := None |}
      end
  end.
End Current.

(** ** mcp/server.ts *)

Module MemoryConfig.
Record t := mk {
  watchedDirs : list string;
  autoDetectNewProjects : bool;
  promptForClaudeMd : bool;
  lastUpdated : string }.
End MemoryConfig.

Inductive DirectoryStatus := known_project | new_project | outside_workspace | not_a_project.

Inductive SuggestedAction := none | offer_setup | offer_scan.

Module CurrentDirectoryStatus.
Record t := mk {
  path : string;
  status : DirectoryStatus;
  projectName : option string;
  needsSetup : option bool;
  suggestedAction : option SuggestedAction }.
End CurrentDirectoryStatus.

Module Mcp.
Import GlobalContext.

(** [s.replace (/\/$/, '')]: one slash at the end of the text goes. *)
Fixpoint strip_slash (s : string) : string :=
  match s with
  | EmptyString => EmptyString
  | String c rest =>
      if String.eqb s "/" then EmptyString else String c (strip_slash rest)
  end.

(** [readdirSync (dir)] on the node at [dir], [None] when it throws. *)
Definition readdirSync (here : node) : option (list string) :=
  match here with
  | Dir children => Some children.*1
  | File | Locked | Broken => None
  end.

Definition looksLikeProject (here : node) : bool :=
  match readdirSync here with
  | Some entries =>
      Scanner.includes entries "package.json"
      || Scanner.includes entries "Cargo.toml"
      || Scanner.includes entries "pyproject.toml"
      || Scanner.includes entries "go.mod"
      || Scanner.includes entries ".git"
      || Scanner.includes entries "requirements.txt"
  | None => false
  end.

Definition isUnderWatchedDir (path : string) (watchedDirs : list string) : bool :=
  let normalizedPath := strip_slash path in
  existsb
    (fun watchedDir =>
       let normalizedWatched := strip_slash watchedDir in
       startsWith normalizedPath normalizedWatched)
    watchedDirs.

(** [here] is the node at [cwd]. *)
Definition detectCurrentDirectoryStatus (cwd : string) (context : option GlobalContext.t)
    (config : MemoryConfig.t) (here : node) : CurrentDirectoryStatus.t :=
  let normalizedCwd := strip_slash cwd in
  let knownProject :=
    match context with
    | Some context =>
        List.find
          (fun p =>
             String.eqb normalizedCwd (strip_slash (ProjectInfo.path p))
             || startsWith normalizedCwd (strip_slash (ProjectInfo.path p) +:+ "/"))
          (projects context)
    | None => None
    end in
  match knownProject with
  | Some knownProject =>
      let claudeMd := HasFiles.claudeMd (ProjectInfo.hasFiles knownProject) in
      {| CurrentDirectoryStatus.path := cwd;
         CurrentDirectoryStatus.status := known_project;
         CurrentDirectoryStatus.projectName := Some (ProjectInfo.name knownProject);
         CurrentDirectoryStatus.needsSetup := Some (negb claudeMd);
         CurrentDirectoryStatus.suggestedAction :=
           Some (if claudeMd then none else offer_setup) |}
  | None =>
      if MemoryConfig.autoDetectNewProjects config
         && isUnderWatchedDir cwd (MemoryConfig.watchedDirs config)
      then
        if looksLikeProject here then
          {| CurrentDirectoryStatus.path := cwd;
             CurrentDirectoryStatus.status := new_project;
             CurrentDirectoryStatus.projectName := None;
             CurrentDirectoryStatus.needsSetup := Some true;
             CurrentDirectoryStatus.suggestedAction := Some offer_setup |}
        else
          {| CurrentDirectoryStatus.path := cwd;
             CurrentDirectoryStatus.status := new_project;
             CurrentDirectoryStatus.projectName := None;
             CurrentDirectoryStatus.needsSetup := Some true;
             CurrentDirectoryStatus.suggestedAction := Some offer_setup |}
      else if looksLikeProject here then
        {| CurrentDirectoryStatus.path := cwd;
           CurrentDirectoryStatus.status := outside_workspace;
           CurrentDirectoryStatus.projectName := None;
           CurrentDirectoryStatus.needsSetup := Some false;
           CurrentDirectoryStatus.suggestedAction := Some offer_scan |}
      else
        {| CurrentDirectoryStatus.path := cwd;
           CurrentDirectoryStatus.status := not_a_project;
           CurrentDirectoryStatus.projectName := None;
           CurrentDirectoryStatus.needsSetup := Some false;
           CurrentDirectoryStatus.suggestedAction := Some none |}
  end.

(** [context.insights.push (insight)] *)
Definition push_insight (context : GlobalContext.t) (insight : GlobalInsight.t)
    : GlobalContext.t :=
  {| schemaVersion := schemaVersion context;
     lastUpdated := lastUpdated context;
     projects := projects context;
     insights := (insights context ++ [insight])%list;
     userPatterns := userPatterns context;
     excludedProjects := excludedProjects context |}.

Definition quote : string := String (Ascii.ascii_of_nat 34) EmptyString.

(** The reply of the record_insight tool, with the text of the source as it
    is stored. [slice] is [String.prototype.slice], which counts UTF-16 code
    units. *)
Definition handleRecordInsight (clk : Clock) (d : Disk)
    (slice : string -> nat -> nat -> string)
    (content : string) (relatedProjects : option (list string)) : IO string :=
  (has_context <- existsSync Store.jsonPath ;;
   if negb has_context then ret "No context file found. Run `claude-memory scan` first."
   else
     try_catch
       (raw <- readFileSync Store.jsonPath ;;
        context <- JSON_parse raw ;;
        let insight :=
          {| GlobalInsight.content := content;
             GlobalInsight.relatedProjects := default [] relatedProjects;
             GlobalInsight.discoveredAt := now_iso clk |} in
        writeFileSync d Store.jsonPath (Doc (push_insight context insight)) ;;
        ret ("âœ… Insight recorded: " +:+ quote +:+ slice content 0%nat 100%nat +:+ "..."
             +:+ quote
             +:+ match relatedProjects with
                 | Some ((_ :: _) as related) =>
                     " (related to: " +:+ String.concat ", " related +:+ ")"
                 | Some [] | None => ""
                 end))
       (fun err => ret ("Failed to record insight: " +:+ message_of err)))%io.
End Mcp.

(** ** license/index.ts *)

Inductive Plan := free | pro.

Module License.
Record t := mk {
  key : string;
  email : option string;
  plan : Plan;
  activatedAt : string;
  expiresAt : option string }.
End License.

Module LicenseStatus.
Record t := mk {
  isPro : bool;
  plan : Plan;
  email : option string;
  expiresAt : option string;
  daysRemaining : option Z;
  activatedAt : option string }.
End LicenseStatus.

(** Both functions start from [loadLicense ()]; its result is their argument
    [license], [None] for [null] (no license file, or one that does not
    parse). *)
Module Licensing.

(** [if (license.expiresAt)]: the key is there and its text is not empty. *)
Definition expiry (license : License.t) : option string :=
  match License.expiresAt license with
  | Some e => if String.eqb e "" then None else Some e
  | None => None
  end.

Definition isPro (clk : Clock) (license : option License.t) : bool :=
  match license with
  | None => false
  | Some license =>
      match License.plan license with
      | free => false
      | pro =>
          match expiry license with
          | Some e =>
              let expiresAt := Date_getTime clk e in
              if Staleness.num_gt (Some (now_ms clk)) expiresAt then false else true
          | None => true
          end
      end
  end.

(** [Math.ceil (a / b)] for integers [a] and [0 < b]. *)
Definition ceil_div (a b : Z) : Z := - ((- a) `div` b).

Definition getLicenseStatus (clk : Clock) (license : option License.t) : LicenseStatus.t :=
  match license with
  | None =>
      {| LicenseStatus.isPro := false;
         LicenseStatus.plan := free;
         LicenseStatus.email := None;
         LicenseStatus.expiresAt := None;
         LicenseStatus.daysRemaining := None;
         LicenseStatus.activatedAt := None |}
  | Some license =>
      (* [daysRemaining]: [None] is undefined, [Some None] is NaN *)
      let daysRemaining : option (option Z) :=
        match expiry license with
        | Some e =>
            let diffMs := (fun t => t - now_ms clk) <$> Date_getTime clk e in
            Some ((fun diff => ceil_div diff (1000 * 60 * 60 * 24)) <$> diffMs)
        | None => None
        end in
      let isExpired :=
        match daysRemaining with
        | Some days => Staleness.num_gt (Some 0) days
        | None => false
        end in
      {| LicenseStatus.isPro :=
           match License.plan license with pro => negb isExpired | free => false end;
         LicenseStatus.plan := if isExpired then free else License.plan license;
         LicenseStatus.email := License.email license;
         LicenseStatus.expiresAt := License.expiresAt license;
         LicenseStatus.daysRemaining :=
           match daysRemaining with
           | Some (Some days) => if bool_decide (0 < days) then Some days else None
           | Some None | None => None
           end;
         LicenseStatus.activatedAt := Some (License.activatedAt license) |}
  end.
End Licensing.


(** ** Reading aids for the properties *)

(** What the try block does, by the way the disk takes the two writes. *)
Inductive attempt_result (d : Disk) (render : GlobalContext.t → string)
    (context : GlobalContext.t) (w : World) : outcome unit → World → Prop :=
  | attempt_committed read_back md w' :
      medium d Store.jsonTempPath (Doc context) = Some (Doc read_back) →
      medium d Store.mdTempPath (Text (render context)) = Some md →
      length (GlobalContext.projects read_back) = length (GlobalContext.projects context) →
      files w' !! Store.jsonPath = Some (Doc read_back) →
      files w' !! Store.mdPath = Some md →
      files w' !! Store.jsonTempPath = None →
      files w' !! Store.mdTempPath = None →
      attempt_result d render context w (Returns tt) w'
  | attempt_mismatch read_back md w' :
      medium d Store.jsonTempPath (Doc context) = Some (Doc read_back) →
      medium d Store.mdTempPath (Text (render context)) = Some md →
      length (GlobalContext.projects read_back) ≠ length (GlobalContext.projects context) →
      files w' !! Store.jsonPath = files w !! Store.jsonPath →
      files w' !! Store.mdPath = files w !! Store.mdPath →
      attempt_result d render context w
        (Throws (Store.verification_failed (length (GlobalContext.projects context))
                   (length (GlobalContext.projects read_back)))) w'
  | attempt_failed e w' :
      (∀ read_back md,
          medium d Store.jsonTempPath (Doc context) = Some (Doc read_back) →
          medium d Store.mdTempPath (Text (render context)) = Some md → False) →
      files w' !! Store.jsonPath = files w !! Store.jsonPath →
      files w' !! Store.mdPath = files w !! Store.mdPath →
      attempt_result d render context w (Throws e) w'.

(** One day in milliseconds, the unit of [daysSinceScanned]. *)
Definition dayMs : Z := 1000 * 60 * 60 * 24.

(** The staleness rules in the order of the specification, each with the
    outcome of its test. *)
Definition reasons_by_priority (clk : Clock) (pr : Probe) (project : ProjectInfo.t)
    : list (Reason * bool) :=
  let lastScanned := ProjectInfo.lastScanned project in
  let days := Staleness.elapsed clk dayMs (Date_getTime clk lastScanned) in
  [ (git_activity, Staleness.hasNewCommits clk pr (ProjectInfo.path project) lastScanned);
    (file_changed, Staleness.hasModifiedFiles clk pr (ProjectInfo.path project) lastScanned);
    (age, Staleness.num_ge days 7) ].

Definition first_true (tests : list (Reason * bool)) : option Reason :=
  fst <$> List.find snd tests.

(** What the loop of [Scanner.walk] does with one entry of a directory. *)
Definition visit (maxDepth : Z) (ignore : list string) (dir : string) (depth : Z)
    (c : string * node) : list string :=
  if Scanner.includes ignore c.1 then []
  else
    match Scanner.isDirectory c.2 with
    | Some true => Scanner.walk maxDepth ignore (join dir c.1) c.2 (depth + 1)
    | Some false | None => []
    end.

(** The manifest ecosystems in the order detectTechStack checks them. *)
Inductive Ecosystem := JS | Rust | Python | Go.

Definition check_order : list Ecosystem := [JS; Rust; Python; Go].

(** What the check of one ecosystem assigns and pushes when it fires. *)
Definition fires (pr : Probe) (projectPath : string) (e : Ecosystem)
    : option (Language * list string) :=
  match e with
  | JS =>
      if fs_existsSync pr (join projectPath "package.json")
      then Scanner.js_check pr projectPath else None
  | Rust =>
      if fs_existsSync pr (join projectPath "Cargo.toml")
      then Some (rust, ["Rust"]) else None
  | Python =>
      if fs_existsSync pr (join projectPath "pyproject.toml")
         || fs_existsSync pr (join projectPath "requirements.txt")
      then Some (python, ["Python"]) else None
  | Go =>
      if fs_existsSync pr (join projectPath "go.mod")
      then Some (go, ["Go"]) else None
  end.


(** ** Reading aids for the further properties *)

(** [b] may follow [a] in the report: both have a number of days, and [b] has
    at most as many as [a]. *)
Definition days_descend (a b : StaleProject.t) : Prop :=
  ∃ da db, StaleProject.daysSinceScanned a = Some da
           ∧ StaleProject.daysSinceScanned b = Some db ∧ (db ≤ da)%Z.

(** [descends ignore dir here depth dir' there depth']: from the directory
    [here] at [dir], the walk gets to [there] at [dir'] by entering, one level
    at a time, entries that are not ignored, out of directories that hold no
    marker. *)
Inductive descends (ignore : list string)
    : string → node → Z → string → node → Z → Prop :=
  | descends_here dir here depth :
      descends ignore dir here depth dir here depth
  | descends_into dir children depth entry child dir' there depth' :
      Scanner.isProject children.*1 = false →
      (entry, child) ∈ children →
      entry ∉ ignore →
      descends ignore (join dir entry) child (depth + 1) dir' there depth' →
      descends ignore dir (Dir children) depth dir' there depth'.

(** The entry of a language in the tech stack. *)
Definition language_entry (l : Language) : option string :=
  match l with
  | typescript => Some "TypeScript"
  | javascript => Some "JavaScript"
  | python => Some "Python"
  | rust => Some "Rust"
  | go => Some "Go"
  | other => None
  end.

(** The snapshot the scan command hands to writeGlobalContext. *)
Definition snapshot_to_write (env : Env) (options : ScanFlags.t)
    (projectsToScan : option (list string)) (w : World)
    (scanned : list ProjectInfo.t) : GlobalContext.t :=
  if ScanFlags.quick options && bool_decide (is_Some projectsToScan) then
    match files w !! Store.jsonPath with
    | Some (Doc existingContext) => Cli.quick_merge (clock env) existingContext scanned
    | Some (Text _) | None => Store.generateGlobalContext (clock env) w scanned
    end
  else Store.generateGlobalContext (clock env) w scanned.

(** A computation that returns and leaves every file as it is. *)
Definition quiet (m : IO unit) : Prop :=
  ∀ w, ∃ w', m w = (Returns tt, w') ∧ files w' = files w.

(** An update of the store that returns, touches no file but context.json,
    does nothing when there is no store and, on a store it cannot parse,
    changes no file and prints one line. *)
Definition careful_update (m : IO unit) (w : World) : Prop :=
  ∃ w',
    m w = (Returns tt, w')
    ∧ (∀ p, p ≠ Store.jsonPath → files w' !! p = files w !! p)
    ∧ (files w !! Store.jsonPath = None → w' = w)
    ∧ (∀ s, files w !! Store.jsonPath = Some (Text s) →
         files w' = files w
         ∧ console w' = (console w ++ ["Failed to update exclusion list"])%list).

(** The match of checkCurrentProjectStaleness: one of the two paths is a
    prefix of the other, as text. *)
Definition prefix_related (cwd : string) (p : ProjectInfo.t) : Prop :=
  (∃ rest, cwd = ProjectInfo.path p +:+ rest)
  ∨ (∃ rest, ProjectInfo.path p = cwd +:+ rest).

(** The match of detectCurrentDirectoryStatus: without trailing slashes,
    [cwd] is the project's path or continues it after a slash. *)
Definition at_or_below (cwd : string) (p : ProjectInfo.t) : Prop :=
  Mcp.strip_slash cwd = Mcp.strip_slash (ProjectInfo.path p)
  ∨ ∃ rest, Mcp.strip_slash cwd = Mcp.strip_slash (ProjectInfo.path p) +:+ "/" +:+ rest.


(** ** Sample data

    A store, a clock and a workspace on which the properties are run. The
    clock reads 2024-03-10T00:00:00Z. *)

Definition sample_getTime (s : string) : option Z :=
  if String.eqb s "2024-03-01T00:00:00.000Z" then Some 1709251200000
  else if String.eqb s "2024-03-02T00:00:00.000Z" then Some 1709337600000
  else if String.eqb s "2024-03-04T00:00:00.000Z" then Some 1709510400000
  else if String.eqb s "2024-03-05T12:00:00+00:00" then Some 1709640000000
  else if String.eqb s "2024-03-09T00:00:00.000Z" then Some 1709942400000
  else if String.eqb s "2024-03-10T00:00:00.000Z" then Some 1710028800000
  else None.

Definition sample_clock : Clock :=
  {| now_ms := 1710028800000;
     now_iso := "2024-03-10T00:00:00.000Z";
     Date_getTime := sample_getTime |}.

Definition sample_project (path name lastScanned : string) : ProjectInfo.t :=
  {| ProjectInfo.path := path;
     ProjectInfo.name := name;
     ProjectInfo.description := "No description available";
     ProjectInfo.techStack := [];
     ProjectInfo.language := other;
     ProjectInfo.lastActivity := lastScanned;
     ProjectInfo.currentBranch := "unknown";
     ProjectInfo.isDirty := false;
     ProjectInfo.hasFiles :=
       {| HasFiles.claudeMd := false; HasFiles.readme := false;
          HasFiles.packageJson := false; HasFiles.gitignore := false |};
     ProjectInfo.insights := [];
     ProjectInfo.lastScanned := lastScanned |}.

Definition project_a : ProjectInfo.t :=
  sample_project "/home/u/Projects/a" "a" "2024-03-09T00:00:00.000Z".
Definition project_b : ProjectInfo.t :=
  sample_project "/home/u/Projects/b" "b" "2024-03-01T00:00:00.000Z".
Definition project_c : ProjectInfo.t :=
  sample_project "/home/u/Projects/c" "c" "2024-03-09T00:00:00.000Z".
Definition project_b_rescanned : ProjectInfo.t :=
  sample_project "/home/u/Projects/b" "b" "2024-03-10T00:00:00.000Z".
Definition project_b_8_days : ProjectInfo.t :=
  sample_project "/home/u/Projects/b" "b" "2024-03-02T00:00:00.000Z".
Definition project_b_6_days : ProjectInfo.t :=
  sample_project "/home/u/Projects/b" "b" "2024-03-04T00:00:00.000Z".

(** What the evaluator says of project b when it has new commits. *)
Definition stale_b : StaleProject.t :=
  {| StaleProject.name := "b";
     StaleProject.path := "/home/u/Projects/b";
     StaleProject.daysSinceScanned := Some 9;
     StaleProject.reason := git_activity;
     StaleProject.details := Some "New commits since last scan" |}.

Definition sample_insight : GlobalInsight.t :=
  {| GlobalInsight.content := "a and b share their lint setup";
     GlobalInsight.relatedProjects := ["a"; "b"];
     GlobalInsight.discoveredAt := "2024-03-01T00:00:00.000Z" |}.

(** Projects a (excluded), b and c, at the current schema. *)
Definition sample_context : GlobalContext.t :=
  {| GlobalContext.schemaVersion := 1;
     GlobalContext.lastUpdated := "2024-03-09T00:00:00.000Z";
     GlobalContext.projects := [project_a; project_b; project_c];
     GlobalContext.insights := [sample_insight];
     GlobalContext.userPatterns := [];
     GlobalContext.excludedProjects := Some ["/home/u/Projects/a"] |}.

(** The same snapshot as a document that carries no [schemaVersion]. *)
Definition legacy_context : GlobalContext.t :=
  {| GlobalContext.schemaVersion := 0;
     GlobalContext.lastUpdated := "2024-03-09T00:00:00.000Z";
     GlobalContext.projects := [project_a; project_b; project_c];
     GlobalContext.insights := [sample_insight];
     GlobalContext.userPatterns := [];
     GlobalContext.excludedProjects := Some ["/home/u/Projects/a"] |}.

Definition truncated_context : GlobalContext.t :=
  {| GlobalContext.schemaVersion := 1;
     GlobalContext.lastUpdated := "2024-03-09T00:00:00.000Z";
     GlobalContext.projects := [project_a];
     GlobalContext.insights := [];
     GlobalContext.userPatterns := [];
     GlobalContext.excludedProjects := None |}.

Definition sample_render (c : GlobalContext.t) : string := "# Claude Global Memory".

Definition empty_world : World := {| files := ∅; console := [] |}.

Definition sample_world : World :=
  {| files := {[ Store.jsonPath := Doc sample_context ]}; console := [] |}.

(** A disk that loses all but the first project of what is written to
    [context.json.tmp]. *)
Definition corrupting_disk : Disk :=
  {| medium := fun p b =>
       if String.eqb p Store.jsonTempPath then Some (Doc truncated_context) else Some b;
     copy_ok := true;
     mkdir_ok := true |}.

(** Project directories without git and without key files. *)
Definition quiet_probe : Probe :=
  {| fs_existsSync := fun _ => false;
     fs_mtimeMs := fun _ => None;
     read_json := fun _ => None;
     git_last_commit := fun _ => None |}.

(** Project b is a git checkout whose last commit is of 2024-03-05. *)
Definition git_probe : Probe :=
  {| fs_existsSync := fun p => String.eqb p "/home/u/Projects/b/.git";
     fs_mtimeMs := fun _ => None;
     read_json := fun _ => None;
     git_last_commit := fun cwd =>
       if String.eqb cwd "/home/u/Projects/b" then Some "2024-03-05T12:00:00+00:00"
       else None |}.

(** A directory with a package.json that depends on react and typescript and
    a Cargo.toml. *)
Definition polyglot_probe : Probe :=
  {| fs_existsSync := fun p =>
       String.eqb p "/home/u/Projects/b/package.json"
       || String.eqb p "/home/u/Projects/b/Cargo.toml";
     fs_mtimeMs := fun _ => None;
     read_json := fun p =>
       if String.eqb p "/home/u/Projects/b/package.json"
       then Some (JObj [("name", JStr "b");
                        ("dependencies", JObj [("react", JStr "^18.2.0")]);
                        ("devDependencies", JObj [("typescript", JStr "^5.4.0")])])
       else None;
     git_last_commit := fun _ => None |}.

(** A scanner that finds project b when asked for it and nothing otherwise. *)
Definition sample_scanProjects (o : ExtendedScanOptions.t) (store : gmap string blob)
    : list ProjectInfo.t :=
  match ExtendedScanOptions.onlyPaths o with
  | Some paths =>
      if bool_decide ("/home/u/Projects/b" ∈ paths) then [project_b_rescanned] else []
  | None => []
  end.

Definition sample_env : Env :=
  {| clock := sample_clock;
     probe := quiet_probe;
     disk := faithful_disk;
     formatGlobalContextMarkdown := sample_render;
     toLocaleString := fun s => s;
     scanProjects := sample_scanProjects |}.

Definition quick_flags : ScanFlags.t :=
  {| ScanFlags.depth := 2; ScanFlags.generateClaudeMd := false;
     ScanFlags.quick := true; ScanFlags.check := false |}.

Definition full_flags : ScanFlags.t :=
  {| ScanFlags.depth := 2; ScanFlags.generateClaudeMd := false;
     ScanFlags.quick := false; ScanFlags.check := false |}.

(** ~/Projects holds one directory, b, a project that nests a package of
    its own. *)
Definition nested_package : list (string * node) :=
  [("package.json", File); ("index.js", File)].

Definition project_b_tree : list (string * node) :=
  [("package.json", File); ("src", Dir []); ("packages", Dir [("inner", Dir nested_package)])].

Definition sample_tree : node :=
  Dir [("notes.txt", File); ("b", Dir project_b_tree)].

(** *** More sample data *)

(** The store as a release before schema version 1 left it. *)
Definition legacy_world : World :=
  {| files := {[ Store.jsonPath := Doc legacy_context ]}; console := [] |}.

(** Projects a and c alone, both scanned yesterday. *)
Definition fresh_context : GlobalContext.t :=
  {| GlobalContext.schemaVersion := 1;
     GlobalContext.lastUpdated := "2024-03-09T00:00:00.000Z";
     GlobalContext.projects := [project_a; project_c];
     GlobalContext.insights := [];
     GlobalContext.userPatterns := [];
     GlobalContext.excludedProjects := Some [] |}.

Definition fresh_world : World :=
  {| files := {[ Store.jsonPath := Doc fresh_context ]}; console := [] |}.

(** The sample snapshot with the stale project b on the exclusion list. *)
Definition b_excluded_context : GlobalContext.t :=
  {| GlobalContext.schemaVersion := 1;
     GlobalContext.lastUpdated := "2024-03-09T00:00:00.000Z";
     GlobalContext.projects := [project_a; project_b; project_c];
     GlobalContext.insights := [sample_insight];
     GlobalContext.userPatterns := [];
     GlobalContext.excludedProjects := Some ["/home/u/Projects/b"] |}.

Definition b_excluded_world : World :=
  {| files := {[ Store.jsonPath := Doc b_excluded_context ]}; console := [] |}.

(** Project b with a [lastScanned] that is no date. *)
Definition project_b_undated : ProjectInfo.t :=
  sample_project "/home/u/Projects/b" "b" "last week".

(** What the evaluator says of project b when only its age counts. *)
Definition stale_b_by_age : StaleProject.t :=
  {| StaleProject.name := "b";
     StaleProject.path := "/home/u/Projects/b";
     StaleProject.daysSinceScanned := Some 9;
     StaleProject.reason := age;
     StaleProject.details := Some "Not scanned in 9 days" |}.

(** global-context.md cannot be replaced; everything else works. *)
Definition md_rename_fails : Faults :=
  {| rename_ok := fun _ dst => negb (String.eqb dst Store.mdPath);
     unlink_ok := fun _ => true |}.

Definition check_flags : ScanFlags.t :=
  {| ScanFlags.depth := 2; ScanFlags.generateClaudeMd := false;
     ScanFlags.quick := false; ScanFlags.check := true |}.

(** The sample environment on the disk that truncates [context.json.tmp]. *)
Definition corrupting_env : Env :=
  {| clock := sample_clock;
     probe := quiet_probe;
     disk := corrupting_disk;
     formatGlobalContextMarkdown := sample_render;
     toLocaleString := fun s => s;
     scanProjects := sample_scanProjects |}.

(** ~/Projects holds two checkouts: b, a package, and c, a crate. *)
Definition workspace_tree : node :=
  Dir [("notes.txt", File);
       ("b", Dir project_b_tree);
       ("c", Dir [("Cargo.toml", File); ("src", Dir [])])].

Definition workspace_probe : Probe :=
  {| fs_existsSync := fun p =>
       bool_decide (p ∈ ["/home/u/Projects"; "/home/u/Projects/b";
                         "/home/u/Projects/b/package.json"; "/home/u/Projects/c";
                         "/home/u/Projects/c/Cargo.toml"]);
     fs_mtimeMs := fun _ => None;
     read_json := fun _ => None;
     git_last_commit := fun _ => None |}.

Definition sample_workspace : Workspace :=
  {| tree := fun dir => if String.eqb dir "/home/u/Projects" then workspace_tree else Locked;
     detectProjectName := fun projectPath => projectPath;
     detectDescription := fun _ => "No description available";
     extractInsightsFromClaudeMd := fun _ => [];
     simpleGit := fun _ => GitFailed |}.

(** The sample environment over that workspace, with the scanner of
    projectScanner.ts. *)
Definition scanner_env : Env :=
  with_scanner
    {| clock := sample_clock;
       probe := workspace_probe;
       disk := faithful_disk;
       formatGlobalContextMarkdown := sample_render;
       toLocaleString := fun s => s;
       scanProjects := sample_scanProjects |}
    sample_workspace.

Definition sample_config : MemoryConfig.t :=
  {| MemoryConfig.watchedDirs := ["/home/u/Projects/"];
     MemoryConfig.autoDetectNewProjects := true;
     MemoryConfig.promptForClaudeMd := true;
     MemoryConfig.lastUpdated := "2024-03-01T00:00:00.000Z" |}.

(** A directory of scripts whose only marker is requirements.txt. *)
Definition scripts_tree : node :=
  Dir [("requirements.txt", File); ("report.py", File)].


(** * Properties *)

(** Unfolds the monad and the file operations of a goal. *)
Ltac run_io :=
  unfold bind, try_catch, ret, throw, when, print, existsSync, readFileSync,
    writeFileSync, copyFileSync, renameSync, unlinkSync, JSON_parse, set_files;
  simpl.


(** ** The Context Store *)

Section StoreFacts.
Import GlobalContext Store.

Lemma create_backup_spec d w :
  ∃ w1, create_backup d w = (Returns tt, w1)
        ∧ ∀ p, p ≠ jsonBackupPath → files w1 !! p = files w !! p.
Proof.
  unfold create_backup. run_io.
  destruct (files w !! jsonPath) as [b|] eqn:Hprior; simpl.
  - rewrite Hprior.
    destruct (copy_ok d); simpl; eexists; (split; [reflexivity|]); [|done].
    intros p Hp. simpl. by rewrite lookup_insert_ne.
  - eexists; split; [reflexivity | done].
Qed.

Lemma clean_up_spec w :
  ∃ w2, clean_up_temp_files w = (Returns tt, w2)
        ∧ files w2 = delete mdTempPath (delete jsonTempPath (files w))
        ∧ console w2 = console w.
Proof.
  unfold clean_up_temp_files. run_io.
  destruct (files w !! jsonTempPath) as [b|] eqn:Hj; simpl.
  - rewrite Hj; simpl.
    rewrite lookup_delete_ne by discriminate.
    destruct (files w !! mdTempPath) as [b'|] eqn:Hm; simpl.
    + rewrite lookup_delete_ne by discriminate. rewrite Hm. simpl.
      eexists; split; [reflexivity|]. done.
    + eexists; split; [reflexivity|]. simpl. split; [|done].
      symmetry. apply delete_id. by rewrite lookup_delete_ne.
  - destruct (files w !! mdTempPath) as [b'|] eqn:Hm; simpl.
    + rewrite Hm. simpl. eexists; split; [reflexivity|]. simpl. split; [|done].
      f_equal. symmetry. by apply delete_id.
    + eexists; split; [reflexivity|]. split; [|done].
      symmetry. rewrite (delete_id (files w)) by done. by apply delete_id.
Qed.

(** The catch block re-throws what it caught, having removed the temporary
    files and nothing else. *)
Lemma on_write_failure_spec err w :
  ∃ w2, on_write_failure err w = (Throws err, w2)
        ∧ files w2 = delete mdTempPath (delete jsonTempPath (files w)).
Proof.
  unfold on_write_failure. unfold bind at 1.
  destruct (clean_up_spec w) as (w1 & -> & Hfiles & _).
  run_io. destruct (bool_decide _); simpl; eexists; (split; [reflexivity|]); done.
Qed.

Lemma atomic_rename_spec (f : gmap string blob) (c : list string) (bj bm : blob) :
  f !! jsonTempPath = Some bj →
  f !! mdTempPath = Some bm →
  atomic_rename {| files := f; console := c |}
  = (Returns tt,
     {| files := <[mdPath := bm]> (delete mdTempPath
                   (<[jsonPath := bj]> (delete jsonTempPath f)));
        console := c |}).
Proof.
  intros Hj Hm. unfold atomic_rename. run_io.
  rewrite Hj. simpl.
  rewrite lookup_insert_ne, lookup_delete_ne, Hm by discriminate.
  reflexivity.
Qed.

Lemma attempt_write_spec d render context w o w' :
  attempt_write d render context w = (o, w') →
  attempt_result d render context w o w'.
Proof.
  unfold attempt_write. unfold bind at 1.
  destruct (create_backup_spec d w) as (w1 & -> & Hframe).
  unfold bind at 1. unfold write_temp_files, bind at 1, writeFileSync at 1.
  destruct (medium d jsonTempPath (Doc context)) as [bj|] eqn:Hjson; simpl.
  2:{ intros [= <- <-].
      apply attempt_failed; [intros ? ? H; by rewrite Hjson in H| |]; by apply Hframe. }
  unfold writeFileSync.
  destruct (medium d mdTempPath (Text (render context))) as [md|] eqn:Hmd; simpl.
  2:{ intros [= <- <-].
      apply attempt_failed; [intros ? ? _ H; by rewrite Hmd in H| |];
      simpl; rewrite lookup_insert_ne by discriminate; by apply Hframe. }
  unfold bind at 1. unfold verify_temp_file, bind at 1, readFileSync. simpl.
  rewrite lookup_insert_ne by discriminate. rewrite lookup_insert_eq.
  destruct bj as [read_back|garbage]; run_io.
  2:{ intros [= <- <-].
      apply attempt_failed; [intros ? ? H; by rewrite Hjson in H| |];
      simpl; rewrite !lookup_insert_ne by discriminate; by apply Hframe. }
  case_bool_decide as Hcount; simpl.
  - intros [= <- <-].
    apply (attempt_mismatch _ _ _ _ read_back md); try done;
      simpl; rewrite !lookup_insert_ne by discriminate; by apply Hframe.
  - rewrite (atomic_rename_spec _ _ (Doc read_back) md).
    2:{ rewrite lookup_insert_ne by discriminate. apply lookup_insert_eq. }
    2:{ apply lookup_insert_eq. }
    simpl. intros [= <- <-].
    apply (attempt_committed _ _ _ _ read_back md); simpl.
    + done.
    + done.
    + destruct (decide (length (projects read_back) = length (projects context))); [done|].
      by destruct Hcount.
    + rewrite lookup_insert_ne, lookup_delete_ne by discriminate. apply lookup_insert_eq.
    + apply lookup_insert_eq.
    + rewrite lookup_insert_ne, lookup_delete_ne, lookup_insert_ne by discriminate.
      apply lookup_delete_eq.
    + rewrite lookup_insert_ne by discriminate. apply lookup_delete_eq.
Qed.

(** writeGlobalContext from its try block: it returns when the block
    commits; otherwise it throws what the block threw, the temporary files
    are gone and the live files are untouched. *)
Lemma write_spec d render context w :
  mkdir_ok d = true →
  ∃ o w',
    writeGlobalContext d render context w = (o, w')
    ∧ ((∃ wa, attempt_result d render context w (Returns tt) wa ∧ o = Returns tt ∧ w' = wa)
       ∨ (∃ e wa, attempt_result d render context w (Throws e) wa ∧ o = Throws e
                  ∧ files w' = delete mdTempPath (delete jsonTempPath (files wa)))).
Proof.
  intros Hmk. unfold writeGlobalContext, ensure_memory_dir. rewrite Hmk.
  unfold bind at 1, ret at 1, try_catch.
  destruct (attempt_write d render context w) as [[[]|e] wa] eqn:Hattempt;
    apply attempt_write_spec in Hattempt.
  - eexists _, _. split; [reflexivity|]. left. by exists wa.
  - destruct (on_write_failure_spec e wa) as (w2 & -> & Hfiles).
    eexists _, _. split; [reflexivity|]. right. by exists e, wa.
Qed.

(** C1. Whenever the temporary file parses to a document whose project
    count differs from that of the snapshot being written, writeGlobalContext
    throws the verification error before any rename: [context.json] and
    [global-context.md] are what they were, and both temporary files are
    gone. *)
Theorem verification_mismatch_aborts
    (d : Disk) (render : GlobalContext.t → string)
    (context read_back : GlobalContext.t) (md : blob) (w : World) :
  mkdir_ok d = true →
  medium d jsonTempPath (Doc context) = Some (Doc read_back) →
  medium d mdTempPath (Text (render context)) = Some md →
  length (projects read_back) ≠ length (projects context) →
  ∃ w',
    writeGlobalContext d render context w
    = (Throws (verification_failed (length (projects context))
                 (length (projects read_back))), w')
    ∧ files w' !! jsonPath = files w !! jsonPath
    ∧ files w' !! mdPath = files w !! mdPath
    ∧ files w' !! jsonTempPath = None
    ∧ files w' !! mdTempPath = None.
Proof.
  intros Hmk Hjson Hmd Hcount.
  destruct (write_spec d render context w Hmk) as (o & w' & Hrun & Hcases).
  exists w'.
  destruct Hcases as [(wa & Hres & -> & ->)|(e & wa & Hres & -> & Hfiles)].
  - inversion Hres as [rb md' ? Hj Hm Hlen| |]; subst.
    rewrite Hjson in Hj. injection Hj as <-. done.
  - inversion Hres as [|rb md' ? Hj Hm Hlen Hkeep Hkeep'|? ? Hnever Hkeep Hkeep']; subst.
    + rewrite Hjson in Hj. injection Hj as <-.
      split; [exact Hrun|]. rewrite Hfiles.
      rewrite !(lookup_delete_ne _ _ jsonPath), !(lookup_delete_ne _ _ mdPath) by discriminate.
      rewrite (lookup_delete_ne _ mdTempPath jsonTempPath) by discriminate.
      rewrite !lookup_delete_eq. done.
    + destruct (Hnever read_back md Hjson Hmd).
Qed.

Lemma write_commits (d : Disk) (render : GlobalContext.t → string)
    (context read_back : GlobalContext.t) (md : blob) (w : World) :
  mkdir_ok d = true →
  medium d jsonTempPath (Doc context) = Some (Doc read_back) →
  medium d mdTempPath (Text (render context)) = Some md →
  length (projects read_back) = length (projects context) →
  ∃ w',
    writeGlobalContext d render context w = (Returns tt, w')
    ∧ files w' !! jsonPath = Some (Doc read_back)
    ∧ files w' !! mdPath = Some md
    ∧ files w' !! jsonTempPath = None
    ∧ files w' !! mdTempPath = None.
Proof.
  intros Hmk Hjson Hmd Hcount.
  destruct (write_spec d render context w Hmk) as (o & w' & Hrun & Hcases).
  exists w'.
  destruct Hcases as [(wa & Hres & -> & ->)|(e & wa & Hres & -> & Hfiles)].
  - inversion Hres as [rb md' ? Hj Hm Hlen Hf1 Hf2 Hf3 Hf4| |]; subst.
    rewrite Hjson in Hj. injection Hj as <-.
    rewrite Hmd in Hm. injection Hm as <-. done.
  - inversion Hres as [|rb md' ? Hj Hm Hlen|? ? Hnever]; subst.
    + rewrite Hjson in Hj. injection Hj as <-. done.
    + destruct (Hnever read_back md Hjson Hmd).
Qed.


(** A write that throws leaves the live files as they were. *)
Lemma write_throws_inv (d : Disk) (render : GlobalContext.t → string)
    (context : GlobalContext.t) (w w' : World) (e : exn) :
  writeGlobalContext d render context w = (Throws e, w') →
  files w' !! jsonPath = files w !! jsonPath
  ∧ files w' !! mdPath = files w !! mdPath.
Proof.
  intros Hrun.
  destruct (mkdir_ok d) eqn:Hmk.
  2:{ unfold writeGlobalContext, ensure_memory_dir in Hrun. rewrite Hmk in Hrun.
      by injection Hrun as _ <-. }
  destruct (write_spec d render context w Hmk) as (o & w2 & Hrun' & Hcases).
  rewrite Hrun in Hrun'. injection Hrun' as <- <-.
  destruct Hcases as [(wa & _ & [=] & _)|(e' & wa & Hres & _ & Hfiles)].
  rewrite Hfiles.
  rewrite !(lookup_delete_ne _ _ jsonPath), !(lookup_delete_ne _ _ mdPath) by discriminate.
  inversion Hres; subst; done.
Qed.

Lemma migrate_current clk (c : GlobalContext.t) :
  (1 ≤ schemaVersion c)%Z → migrateContext clk c = c.
Proof.
  intros H. unfold migrateContext, or_zero.
  destruct (Z.eqb_spec (schemaVersion c) 0) as [E|E]; [lia|].
  destruct (Z.ltb_spec (schemaVersion c) 1); [lia|done].
Qed.

Lemma migrate_keeps clk (c : GlobalContext.t) :
  length (projects (migrateContext clk c)) = length (projects c)
  ∧ insights (migrateContext clk c) = insights c
  ∧ userPatterns (migrateContext clk c) = userPatterns c.
Proof. unfold migrateContext. by destruct (_ <? _)%Z. Qed.


Lemma load_current clk (w : World) (c : GlobalContext.t) :
  files w !! jsonPath = Some (Doc c) →
  (1 ≤ schemaVersion c)%Z →
  loadExistingContext clk w = Some c.
Proof.
  intros Hfile Hv. unfold loadExistingContext. rewrite Hfile.
  by rewrite migrate_current.
Qed.

End StoreFacts.

(** ** The Staleness Evaluator *)

Section StalenessFacts.
Import Staleness.
Variables (clk : Clock) (pr : Probe).

Lemma hasNewCommits_true (projectPath lastScanned commit : string) (tc ts : Z) :
  fs_existsSync pr (join projectPath ".git") = true →
  git_last_commit pr projectPath = Some commit →
  commit ≠ "" →
  Date_getTime clk commit = Some tc →
  Date_getTime clk lastScanned = Some ts →
  (ts < tc)%Z →
  hasNewCommits clk pr projectPath lastScanned = true.
Proof.
  intros Hgit Hlog Hne Htc Hts Hlt. unfold hasNewCommits.
  rewrite Hgit, Hlog. simpl.
  destruct (String.eqb_spec commit "") as [->|_]; [done|].
  rewrite Htc, Hts. simpl. by apply bool_decide_eq_true_2.
Qed.

(** C6. The reason analyzeProjectStaleness reports is the first of
    [git_activity], [file_changed], [age] whose test is true, and there is
    none when no test is true. In particular a project with a commit newer
    than [lastScanned] and 7 or more days since [lastScanned] is reported
    with [git_activity]. *)
Theorem first_true_reason_wins (project : ProjectInfo.t) :
  StaleProject.reason <$> analyzeProjectStaleness clk pr project
  = first_true (reasons_by_priority clk pr project)
  ∧ ∀ (commit : string) (tc ts : Z),
      fs_existsSync pr (join (ProjectInfo.path project) ".git") = true →
      git_last_commit pr (ProjectInfo.path project) = Some commit →
      commit ≠ "" →
      Date_getTime clk commit = Some tc →
      Date_getTime clk (ProjectInfo.lastScanned project) = Some ts →
      (ts < tc)%Z →
      (STALE ≤ (now_ms clk - ts) `div` dayMs)%Z →
      StaleProject.reason <$> analyzeProjectStaleness clk pr project = Some git_activity.
Proof.
  split.
  - unfold analyzeProjectStaleness, first_true, reasons_by_priority. simpl.
    destruct (hasNewCommits _ _ _ _); [done|].
    destruct (hasModifiedFiles _ _ _ _); [done|].
    fold dayMs. unfold STALE.
    by destruct (num_ge _ 7).
  - intros commit tc ts Hgit Hlog Hne Htc Hts Hlt _.
    unfold analyzeProjectStaleness.
    by rewrite (hasNewCommits_true _ _ commit tc ts).
Qed.

Lemma analyze_without_activity (project : ProjectInfo.t) :
  hasNewCommits clk pr (ProjectInfo.path project) (ProjectInfo.lastScanned project) = false →
  hasModifiedFiles clk pr (ProjectInfo.path project) (ProjectInfo.lastScanned project) = false →
  let days := elapsed clk dayMs (Date_getTime clk (ProjectInfo.lastScanned project)) in
  match analyzeProjectStaleness clk pr project with
  | Some sp =>
      StaleProject.reason sp = age ∧ StaleProject.daysSinceScanned sp = days
      ∧ ∃ n, days = Some n ∧ (7 ≤ n)%Z
  | None => ∀ n, days = Some n → (n < 7)%Z
  end.
Proof.
  intros Hgit Hfiles days. unfold analyzeProjectStaleness.
  rewrite Hgit, Hfiles. fold dayMs. fold days.
  unfold num_ge, STALE. destruct days as [n|]; [|done].
  case_bool_decide.
  - repeat split; try done. eauto.
  - intros ? [= <-]. lia.
Qed.

(** C7. A project without new commits and without key-file modifications
    is stale exactly when the whole days elapsed since [lastScanned] are 7 or
    more, and then its reason is [age]; scanned 8 days ago it is stale with
    reason [age], scanned 6 days ago it is fresh. *)
Theorem age_threshold (project : ProjectInfo.t) :
  hasNewCommits clk pr (ProjectInfo.path project) (ProjectInfo.lastScanned project) = false →
  hasModifiedFiles clk pr (ProjectInfo.path project) (ProjectInfo.lastScanned project) = false →
  let days := elapsed clk dayMs (Date_getTime clk (ProjectInfo.lastScanned project)) in
  ((∃ sp, analyzeProjectStaleness clk pr project = Some sp ∧ StaleProject.reason sp = age)
     ↔ ∃ n, days = Some n ∧ (7 ≤ n)%Z)
  ∧ (analyzeProjectStaleness clk pr project = None ↔ ∀ n, days = Some n → (n < 7)%Z)
  ∧ (Date_getTime clk (ProjectInfo.lastScanned project) = Some (now_ms clk - 8 * dayMs)%Z →
       StaleProject.reason <$> analyzeProjectStaleness clk pr project = Some age)
  ∧ (Date_getTime clk (ProjectInfo.lastScanned project) = Some (now_ms clk - 6 * dayMs)%Z →
       analyzeProjectStaleness clk pr project = None).
Proof.
  intros Hgit Hfiles days.
  pose proof (analyze_without_activity project Hgit Hfiles) as Hcore.
  cbv zeta in Hcore. fold days in Hcore.
  assert (Hiff : (∃ sp, analyzeProjectStaleness clk pr project = Some sp
                        ∧ StaleProject.reason sp = age)
                 ↔ ∃ n, days = Some n ∧ (7 ≤ n)%Z).
  { destruct (analyzeProjectStaleness clk pr project) as [sp|].
    - destruct Hcore as (Hr & _ & Hn). split; [done|]. intros _. by exists sp.
    - split; [by intros (? & ? & _)|].
      intros (n & Hn & Hle). specialize (Hcore n Hn). lia. }
  assert (Hnone : analyzeProjectStaleness clk pr project = None
                  ↔ ∀ n, days = Some n → (n < 7)%Z).
  { destruct (analyzeProjectStaleness clk pr project) as [sp|].
    - destruct Hcore as (_ & _ & n & Hn & Hle). split; [done|].
      intros Hall. specialize (Hall n Hn). lia.
    - done. }
  split; [exact Hiff|]. split; [exact Hnone|]. split.
  - intros Hts.
    destruct (proj2 Hiff) as (sp & -> & Hr).
    + exists 8%Z. split; [|lia]. subst days. rewrite Hts. simpl. f_equal.
      replace (now_ms clk - (now_ms clk - 8 * dayMs))%Z with (8 * dayMs)%Z by lia.
      by rewrite Z.div_mul.
    + simpl. by rewrite Hr.
  - intros Hts. apply Hnone. intros n. subst days. rewrite Hts. simpl.
    replace (now_ms clk - (now_ms clk - 6 * dayMs))%Z with (6 * dayMs)%Z by lia.
    rewrite Z.div_mul by done. intros [= <-]. lia.
Qed.

Lemma insert_sorted_perm (a : StaleProject.t) (l : list StaleProject.t) :
  insert_sorted a l ≡ₚ a :: l.
Proof.
  induction l as [|b l IH]; simpl; [done|].
  destruct (comes_after a b); [|done].
  rewrite IH. apply Permutation_swap.
Qed.

Lemma sort_perm (l : list StaleProject.t) : sort l ≡ₚ l.
Proof.
  induction l as [|a l IH]; simpl; [done|].
  by rewrite insert_sorted_perm, IH.
Qed.

Lemma analyze_reason (project : ProjectInfo.t) (sp : StaleProject.t) :
  analyzeProjectStaleness clk pr project = Some sp →
  StaleProject.reason sp ≠ never_scanned.
Proof.
  unfold analyzeProjectStaleness.
  repeat case_match; intros [= <-]; done.
Qed.

Lemma stale_of_report (context : GlobalContext.t) :
  StalenessReport.staleProjects (detectStaleProjects clk pr context)
  = sort (omap (analyzeProjectStaleness clk pr) (GlobalContext.projects context)).
Proof. unfold detectStaleProjects. by repeat case_match. Qed.

(** C10. Every stale project of a report of detectStaleProjects has reason
    [git_activity], [file_changed] or [age]: [never_scanned] is never
    produced. *)
Theorem never_scanned_never_reported (context : GlobalContext.t) (sp : StaleProject.t) :
  sp ∈ StalenessReport.staleProjects (detectStaleProjects clk pr context) →
  StaleProject.reason sp ∈ [git_activity; file_changed; age]
  ∧ StaleProject.reason sp ≠ never_scanned.
Proof.
  rewrite stale_of_report, sort_perm.
  intros (project & _ & Hsp)%list_elem_of_omap.
  pose proof (analyze_reason _ _ Hsp) as Hne.
  split; [|done].
  destruct (StaleProject.reason sp); set_solver.
Qed.
End StalenessFacts.

(** ** The Project Detector *)

Section ScannerFacts.
Import Scanner.

Lemma walk_Dir maxDepth ignore dir children depth :
  walk maxDepth ignore dir (Dir children) depth
  = if bool_decide (maxDepth < depth)%Z then []
    else if isProject children.*1 then [dir]
    else flat_map (visit maxDepth ignore dir depth) children.
Proof.
  simpl. destruct (bool_decide _); [done|].
  destruct (isProject _); [done|].
  induction children as [|[entry child] rest IH]; [done|].
  simpl. rewrite IH. done.
Qed.

Lemma visit_not_directory maxDepth ignore dir depth (cs : list (string * node)) :
  Forall (fun c => isDirectory c.2 ≠ Some true) cs →
  flat_map (visit maxDepth ignore dir depth) cs = [].
Proof.
  induction 1 as [|[entry child] rest Hc _ IH]; [done|].
  simpl. rewrite IH. unfold visit. simpl in *.
  destruct (includes ignore entry); [done|].
  by destruct (isDirectory child) as [[]|].
Qed.

(** C8. A directory that [walk] reaches within the depth budget and that
    holds a marker is returned alone, whatever lies below it. Hence a root
    without markers whose only subdirectory is a project root yields that
    subdirectory and nothing else: exactly it when the subdirectory is within
    the budget and is not ignored, and never a root nested in it. *)
Theorem project_root_stops_recursion (maxDepth : Z) (ignore : list string) :
  (∀ (dir : string) (children : list (string * node)) (depth : Z),
      (depth ≤ maxDepth)%Z →
      isProject children.*1 = true →
      walk maxDepth ignore dir (Dir children) depth = [dir])
  ∧ (∀ (rootDir sub : string) (before after inside : list (string * node)),
      let tree := Dir (before ++ (sub, Dir inside) :: after)%list in
      Forall (fun c => isDirectory c.2 ≠ Some true) (before ++ after)%list →
      isProject ((before ++ (sub, Dir inside) :: after)%list).*1 = false →
      isProject inside.*1 = true →
      ((1 ≤ maxDepth)%Z → sub ∉ ignore →
         findProjectRoots tree rootDir maxDepth ignore = [join rootDir sub])
      ∧ ∀ r, r ∈ findProjectRoots tree rootDir maxDepth ignore → r = join rootDir sub).
Proof.
  split.
  - intros dir children depth Hd Hp. rewrite walk_Dir, Hp.
    by rewrite bool_decide_eq_false_2 by lia.
  - intros rootDir sub before after inside tree [Hb Ha]%Forall_app Hroot Hsub.
    assert (Heq : findProjectRoots tree rootDir maxDepth ignore
                  = if bool_decide (maxDepth < 0)%Z then []
                    else visit maxDepth ignore rootDir 0 (sub, Dir inside)).
    { unfold findProjectRoots, tree. rewrite walk_Dir, Hroot.
      destruct (bool_decide _); [done|].
      rewrite flat_map_app. simpl.
      rewrite !visit_not_directory by done. simpl. by rewrite app_nil_r. }
    assert (Hvisit : visit maxDepth ignore rootDir 0 (sub, Dir inside)
                     = if includes ignore sub then []
                       else if bool_decide (maxDepth < 1)%Z then [] else [join rootDir sub]).
    { unfold visit. simpl fst. simpl snd. simpl isDirectory. cbv iota.
      destruct (includes ignore sub); [done|].
      rewrite walk_Dir, Hsub. done. }
    split.
    + intros Hd Hi. rewrite Heq, Hvisit.
      rewrite bool_decide_eq_false_2 by lia.
      unfold includes. rewrite bool_decide_eq_false_2 by done.
      by rewrite bool_decide_eq_false_2 by lia.
    + intros r. rewrite Heq, Hvisit.
      destruct (bool_decide (maxDepth < 0)%Z); [by intros ?%elem_of_nil|].
      destruct (includes ignore sub); [by intros ?%elem_of_nil|].
      destruct (bool_decide (maxDepth < 1)%Z);
        [by intros ?%elem_of_nil | by intros ?%list_elem_of_singleton].
Qed.
End ScannerFacts.

(** ** The tech-stack detector and the scan command *)

Section TechStackFacts.
Import Scanner.
Variable pr : Probe.

(** C9. detectTechStack returns the stack entries of every ecosystem whose
    check fires, in check order, and the language of the last one that
    fires ([other] when none does). With a readable package.json and a
    Cargo.toml the stack holds the JS entries followed by Rust, and the
    language is not the JS one: it is [rust] unless a later check fires. *)
Theorem stack_accumulates_language_last_wins (projectPath : string) :
  let hits := omap (fires pr projectPath) check_order in
  detectTechStack pr projectPath
  = (from_option fst other (last hits), flat_map snd hits)
  ∧ ∀ (jsLanguage : Language) (jsStack : list string),
      fs_existsSync pr (join projectPath "package.json") = true →
      js_check pr projectPath = Some (jsLanguage, jsStack) →
      fs_existsSync pr (join projectPath "Cargo.toml") = true →
      (∃ more, (detectTechStack pr projectPath).2 = (jsStack ++ "Rust" :: more)%list)
      ∧ (detectTechStack pr projectPath).1 ∈ [rust; python; go]
      ∧ (fs_existsSync pr (join projectPath "pyproject.toml") = false →
         fs_existsSync pr (join projectPath "requirements.txt") = false →
         fs_existsSync pr (join projectPath "go.mod") = false →
         detectTechStack pr projectPath = (rust, (jsStack ++ ["Rust"])%list)).
Proof.
  split.
  - unfold detectTechStack, check_order, fires. simpl.
    destruct (fs_existsSync pr (join projectPath "package.json"));
      [destruct (js_check pr projectPath) as [[l s]|]|];
      destruct (fs_existsSync pr (join projectPath "Cargo.toml"));
      destruct (fs_existsSync pr (join projectPath "pyproject.toml"));
      destruct (fs_existsSync pr (join projectPath "requirements.txt"));
      destruct (fs_existsSync pr (join projectPath "go.mod"));
      simpl; rewrite ?app_nil_r, <- ?app_assoc; reflexivity.
  - intros l s Hpkg Hjs Hcargo. unfold detectTechStack.
    rewrite Hpkg, Hjs, Hcargo. simpl.
    destruct (fs_existsSync pr (join projectPath "pyproject.toml"));
      destruct (fs_existsSync pr (join projectPath "requirements.txt"));
      destruct (fs_existsSync pr (join projectPath "go.mod"));
      simpl; (split; [eexists; rewrite <- ?app_assoc; reflexivity|]);
      (split; [set_solver|]); intros; done.
Qed.
End TechStackFacts.

Section CliFacts.
Import GlobalContext Cli.

Lemma elem_of_quick_merge clk existing scanned (p : ProjectInfo.t) :
  p ∈ projects (quick_merge clk existing scanned)
  ↔ (p ∈ projects existing ∧ ProjectInfo.path p ∉ ProjectInfo.path <$> scanned)
    ∨ p ∈ scanned.
Proof.
  unfold quick_merge. simpl.
  rewrite elem_of_app, list_elem_of_filter, elem_of_list_to_set. tauto.
Qed.

Lemma filter_rescanned (scanned : list ProjectInfo.t) (l : list ProjectInfo.t) :
  filter (fun p => ProjectInfo.path p
                   ∉ (list_to_set (ProjectInfo.path <$> scanned) : gset string)) l
  = filter (fun p => ProjectInfo.path p ∉ ProjectInfo.path <$> scanned) l.
Proof. apply list_filter_iff. intros p. by rewrite elem_of_list_to_set. Qed.

Lemma scan_and_write_empty (env : Env) directory options projectsToScan (w : World) :
  scanProjects env (request directory options projectsToScan) (files w) = [] →
  scan_and_write env directory options projectsToScan w
  = (Returns tt,
     {| files := files w;
        console := (console w ++ ["⚠️  No projects found. Context not updated."]
                    ++ ["   Check the directory path and try again."])%list |}).
Proof.
  intros Hscan. unfold scan_and_write, bind at 1. rewrite Hscan. simpl.
  unfold bind, print. simpl. by rewrite <- app_assoc.
Qed.

Lemma scan_and_write_quick (env : Env) directory options paths (w : World)
    (existing : GlobalContext.t) :
  ScanFlags.quick options = true →
  disk env = faithful_disk →
  files w !! Store.jsonPath = Some (Doc existing) →
  let scanned := scanProjects env (request directory options (Some paths)) (files w) in
  scanned ≠ [] →
  ∃ w',
    scan_and_write env directory options (Some paths) w = (Returns tt, w')
    ∧ files w' !! Store.jsonPath = Some (Doc (quick_merge (clock env) existing scanned)).
Proof.
  intros Hquick Hdisk Hfile scanned Hscanned.
  unfold scan_and_write, bind at 1. fold scanned.
  rewrite bool_decide_eq_false_2 by (by destruct scanned).
  rewrite Hquick, bool_decide_eq_true_2 by eauto. simpl andb. cbv iota.
  unfold bind at 1. unfold bind at 1. unfold loadContext at 1. rewrite Hfile.
  unfold ret at 1. rewrite Hdisk.
  set (merged := quick_merge (clock env) existing scanned).
  destruct (write_commits faithful_disk (formatGlobalContextMarkdown env) merged merged
              (Text (formatGlobalContextMarkdown env merged)) w)
    as (w1 & Hw & Hjson & _); try reflexivity.
  unfold bind at 1. rewrite Hw.
  unfold bind, print. simpl. eexists; split; [reflexivity|]. exact Hjson.
Qed.

(** C4. A quick scan over an existing snapshot with stale projects, of which
    the scanner returns a non-empty list, writes a snapshot whose projects
    are the existing records whose path was not rescanned, verbatim, and the
    rescanned records; [insights], [userPatterns] and [excludedProjects] are
    those of the existing snapshot. *)
Theorem quick_scan_merges_incrementally (env : Env) (directory : string)
    (options : ScanFlags.t) (w : World) (existing : GlobalContext.t) :
  ScanFlags.check options = false →
  ScanFlags.quick options = true →
  disk env = faithful_disk →
  files w !! Store.jsonPath = Some (Doc existing) →
  let stale :=
    StalenessReport.staleProjects
      (Staleness.detectStaleProjects (clock env) (probe env) existing) in
  let scanned :=
    scanProjects env (request directory options (Some (StaleProject.path <$> stale)))
      (files w) in
  stale ≠ [] →
  scanned ≠ [] →
  ∃ w' merged,
    scan_action env directory options w = (Returns tt, w')
    ∧ files w' !! Store.jsonPath = Some (Doc merged)
    ∧ (∀ p, p ∈ projects merged
            ↔ (p ∈ projects existing ∧ ProjectInfo.path p ∉ ProjectInfo.path <$> scanned)
              ∨ p ∈ scanned)
    ∧ projects merged
      = (filter (fun p => ProjectInfo.path p ∉ ProjectInfo.path <$> scanned)
           (projects existing) ++ scanned)%list
    ∧ insights merged = insights existing
    ∧ userPatterns merged = userPatterns existing
    ∧ excludedProjects merged = excludedProjects existing.
Proof.
  intros Hcheck Hquick Hdisk Hfile stale scanned Hstale Hscanned.
  unfold scan_action. rewrite Hcheck, Hquick.
  unfold bind at 1. unfold print at 1. unfold bind at 1. unfold loadContext at 1.
  cbn [files]. rewrite Hfile. fold stale.
  destruct stale as [|sp rest] eqn:Estale; [done|].
  unfold bind at 1. unfold print at 1.
  match goal with |- context [scan_and_write _ _ _ _ ?x] => set (w0 := x) end.
  destruct (scan_and_write_quick env directory options
              (StaleProject.path <$> sp :: rest) w0 existing Hquick Hdisk Hfile Hscanned)
    as (w' & Hrun & Hjson).
  exists w', (quick_merge (clock env) existing scanned).
  split; [exact Hrun|]. split; [exact Hjson|].
  split; [intros p; apply elem_of_quick_merge|].
  split; [|done].
  unfold quick_merge. simpl. by rewrite filter_rescanned.
Qed.

(** C5. In full-scan mode, when the scanner returns no project the command
    returns without touching any file of the store and prints the warning. *)
Theorem empty_full_scan_writes_nothing (env : Env) (directory : string)
    (options : ScanFlags.t) (w : World) :
  ScanFlags.check options = false →
  ScanFlags.quick options = false →
  scanProjects env (request directory options None) (files w) = [] →
  ∃ w',
    scan_action env directory options w = (Returns tt, w')
    ∧ files w' = files w
    ∧ "⚠️  No projects found. Context not updated." ∈ console w'.
Proof.
  intros Hcheck Hquick Hscan.
  unfold scan_action. rewrite Hcheck, Hquick.
  unfold bind at 1. unfold print at 1.
  rewrite scan_and_write_empty by exact Hscan.
  eexists; split; [reflexivity|]. split; [done|].
  simpl. set_solver.
Qed.
End CliFacts.

(** * The properties on the sample data *)

(** C1 on a disk that truncates the temporary file: 3 projects written, 1
    read back. *)
Lemma verification_mismatch_aborts_witness :
  ∃ w',
    Store.writeGlobalContext corrupting_disk sample_render sample_context sample_world
    = (Throws (Store.verification_failed
                 (length (GlobalContext.projects sample_context))
                 (length (GlobalContext.projects truncated_context))), w')
    ∧ files w' !! Store.jsonPath = files sample_world !! Store.jsonPath
    ∧ files w' !! Store.mdPath = files sample_world !! Store.mdPath
    ∧ files w' !! Store.jsonTempPath = None
    ∧ files w' !! Store.mdTempPath = None.
Proof.
  apply (verification_mismatch_aborts corrupting_disk sample_render sample_context
           truncated_context (Text (sample_render sample_context)) sample_world);
    [reflexivity | reflexivity | reflexivity | simpl; lia].
Defined.





(** The scenario of C4: a is excluded, b is stale by age, c is fresh. *)
Lemma quick_scan_merges_incrementally_witness :
  ∃ w' merged,
    Cli.scan_action sample_env "/home/u/Projects" quick_flags sample_world = (Returns tt, w')
    ∧ files w' !! Store.jsonPath = Some (Doc merged)
    ∧ GlobalContext.projects merged = [project_a; project_c; project_b_rescanned]
    ∧ GlobalContext.insights merged = [sample_insight]
    ∧ GlobalContext.excludedProjects merged = Some ["/home/u/Projects/a"].
Proof.
  destruct (quick_scan_merges_incrementally sample_env "/home/u/Projects" quick_flags
              sample_world sample_context)
    as (w' & merged & Hrun & Hfile & _ & Hprojects & Hinsights & _ & Hexcluded);
    [reflexivity | reflexivity | reflexivity | reflexivity
    | vm_compute; discriminate | vm_compute; discriminate |].
  exists w', merged.
  split; [exact Hrun|]. split; [exact Hfile|].
  split; [rewrite Hprojects; vm_compute; reflexivity|].
  split; [exact Hinsights | exact Hexcluded].
Defined.

(** A full scan that finds nothing, over the sample store. *)
Lemma empty_full_scan_writes_nothing_witness :
  ∃ w',
    Cli.scan_action sample_env "/home/u/Projects" full_flags sample_world = (Returns tt, w')
    ∧ files w' = files sample_world
    ∧ "⚠️  No projects found. Context not updated." ∈ console w'.
Proof.
  apply (empty_full_scan_writes_nothing sample_env "/home/u/Projects" full_flags sample_world);
    reflexivity.
Defined.

(** Project b has a commit of 2024-03-05 and was scanned 9 days ago. *)
Lemma first_true_reason_wins_witness :
  StaleProject.reason <$> Staleness.analyzeProjectStaleness sample_clock git_probe project_b
  = Some git_activity.
Proof.
  apply (proj2 (first_true_reason_wins sample_clock git_probe project_b)
           "2024-03-05T12:00:00+00:00" 1709640000000 1709251200000);
    [reflexivity | reflexivity | discriminate | reflexivity | reflexivity | lia
    | vm_compute; discriminate].
Defined.

(** Without git and without key files: scanned 8 days ago project b is stale
    by age, scanned 6 days ago it is fresh. *)
Lemma age_threshold_witness :
  StaleProject.reason <$> Staleness.analyzeProjectStaleness sample_clock quiet_probe project_b_8_days
  = Some age
  ∧ Staleness.analyzeProjectStaleness sample_clock quiet_probe project_b_6_days = None.
Proof.
  split.
  - destruct (age_threshold sample_clock quiet_probe project_b_8_days)
      as (_ & _ & Hstale & _); [reflexivity | reflexivity |].
    apply Hstale. reflexivity.
  - destruct (age_threshold sample_clock quiet_probe project_b_6_days)
      as (_ & _ & _ & Hfresh); [reflexivity | reflexivity |].
    apply Hfresh. reflexivity.
Defined.

(** The report on the sample snapshot holds project b alone, with reason
    [git_activity]. *)
Lemma never_scanned_never_reported_witness :
  stale_b ∈ StalenessReport.staleProjects
              (Staleness.detectStaleProjects sample_clock git_probe sample_context)
  ∧ StaleProject.reason stale_b ∈ [git_activity; file_changed; age]
  ∧ StaleProject.reason stale_b ≠ never_scanned.
Proof.
  assert (Hin : stale_b ∈ StalenessReport.staleProjects
                  (Staleness.detectStaleProjects sample_clock git_probe sample_context))
    by (vm_compute; constructor).
  split; [exact Hin|].
  exact (never_scanned_never_reported sample_clock git_probe sample_context stale_b Hin).
Defined.

(** The scenario of C8: ~/Projects holds b alone, and b nests a package. *)
Lemma project_root_stops_recursion_witness :
  Scanner.findProjectRoots sample_tree "/home/u/Projects" 2
    ["node_modules"; ".git"; "dist"; "build"]
  = ["/home/u/Projects/b"].
Proof.
  apply (proj1 (proj2 (project_root_stops_recursion 2 ["node_modules"; ".git"; "dist"; "build"])
                  "/home/u/Projects" "b" [("notes.txt", File)] [] project_b_tree
                  ltac:(repeat constructor; discriminate) eq_refl eq_refl));
    [lia|].
  intros H.
  repeat (apply elem_of_cons in H as [H|H]; [discriminate H|]).
  by apply elem_of_nil in H.
Defined.

(** A TypeScript/React package with a Cargo.toml next to it. *)
Lemma stack_accumulates_language_last_wins_witness :
  Scanner.detectTechStack polyglot_probe "/home/u/Projects/b"
  = (rust, ["TypeScript"; "React"; "Rust"]).
Proof.
  apply (proj2 (stack_accumulates_language_last_wins polyglot_probe "/home/u/Projects/b")
           typescript ["TypeScript"; "React"]);
    reflexivity.
Defined.


(** * Further properties of the code *)

(** ** The Context Store, further *)

Section MoreStoreFacts.
Import GlobalContext Store.

Lemma migrate_schema clk (c : GlobalContext.t) :
  (1 ≤ schemaVersion (migrateContext clk c))%Z.
Proof.
  unfold migrateContext, or_zero.
  destruct (Z.eqb_spec (schemaVersion c) 0) as [E|E]; simpl.
  - done.
  - destruct (Z.ltb_spec (schemaVersion c) 1); simpl; [done|lia].
Qed.

(** X1. What loadExistingContext returns is at schema version 1 or later and is a
    fixed point of migrateContext. A stored document of version 1 or later is
    returned as it is; an older one comes back at the current version with its
    projects, insights and user patterns kept and an empty exclusion list. *)
Theorem load_is_current_and_stable (clk : Clock) (w : World) (loaded : GlobalContext.t) :
  loadExistingContext clk w = Some loaded →
  (1 ≤ schemaVersion loaded)%Z
  ∧ migrateContext clk loaded = loaded
  ∧ ∀ c, files w !! jsonPath = Some (Doc c) →
         ((1 ≤ schemaVersion c)%Z → loaded = c)
         ∧ ((schemaVersion c < 1)%Z →
              schemaVersion loaded = SCHEMA_VERSION
              ∧ projects loaded = projects c
              ∧ insights loaded = insights c
              ∧ userPatterns loaded = userPatterns c
              ∧ excludedProjects loaded = Some []).
Proof.
  unfold loadExistingContext.
  destruct (files w !! jsonPath) as [[data|]|] eqn:Hfile; try done.
  intros [= <-].
  split; [apply migrate_schema|].
  split; [apply migrate_current, migrate_schema|].
  intros c [= <-]. split.
  - apply migrate_current.
  - intros Hlegacy. unfold migrateContext, or_zero.
    destruct (Z.eqb_spec (schemaVersion data) 0) as [E|E]; simpl; [done|].
    destruct (Z.ltb_spec (schemaVersion data) 1); [done|lia].
Qed.






(** X5. On a faithful disk, writing the full merge of a scan succeeds; at any
    later time loading the store gives exactly the merge, and the full merge
    of a later scan over the new store has the same schema version, insights,
    user patterns and exclusion list, the later scan as its projects and the
    later time as lastUpdated. *)
Theorem full_merge_round_trips (clk : Clock) (render : GlobalContext.t → string)
    (w : World) (scanned : list ProjectInfo.t) :
  let merged := generateGlobalContext clk w scanned in
  ∃ w',
    writeGlobalContext faithful_disk render merged w = (Returns tt, w')
    ∧ ∀ later : Clock,
        loadExistingContext later w' = Some merged
        ∧ ∀ rescanned : list ProjectInfo.t,
            let again := generateGlobalContext later w' rescanned in
            schemaVersion again = schemaVersion merged
            ∧ lastUpdated again = now_iso later
            ∧ projects again = rescanned
            ∧ insights again = insights merged
            ∧ userPatterns again = userPatterns merged
            ∧ excludedProjects again = excludedProjects merged.
Proof.
  intros merged.
  destruct (write_commits faithful_disk render merged merged (Text (render merged)) w)
    as (w' & Hw & Hjson & _); try reflexivity.
  exists w'. split; [exact Hw|]. intros later.
  assert (Hload : loadExistingContext later w' = Some merged).
  { apply load_current; [exact Hjson | done]. }
  split; [exact Hload|]. intros rescanned again. subst again.
  unfold generateGlobalContext at 1 2 3 4 5 6. rewrite Hload. done.
Qed.
End MoreStoreFacts.


(** ** The Context Store when renames and unlinks may fail *)

Section FragileFacts.
Import GlobalContext Store.

(** Without faults this is writeGlobalContext as embedded above. *)
Lemma fragile_without_faults d render context :
  Fragile.writeGlobalContext d no_faults render context
  = writeGlobalContext d render context.
Proof. reflexivity. Qed.

(** The cleanup returns, touches the two temporary files only, and leaves
    neither when both can be unlinked. *)
Lemma fragile_clean_up_spec f w :
  ∃ w2, Fragile.clean_up_temp_files f w = (Returns tt, w2)
        ∧ (∀ p, p ≠ jsonTempPath → p ≠ mdTempPath → files w2 !! p = files w !! p)
        ∧ (unlink_ok f jsonTempPath = true → unlink_ok f mdTempPath = true →
           files w2 !! jsonTempPath = None ∧ files w2 !! mdTempPath = None).
Proof.
  unfold Fragile.clean_up_temp_files, Fragile.unlinkSync. run_io.
  destruct (files w !! jsonTempPath) as [bj|] eqn:Hj; simpl; rewrite ?Hj; simpl.
  - destruct (unlink_ok f jsonTempPath) eqn:Huj; simpl.
    + rewrite lookup_delete_ne by discriminate.
      destruct (files w !! mdTempPath) as [bm|] eqn:Hm; simpl.
      * rewrite lookup_delete_ne by discriminate. rewrite Hm.
        destruct (unlink_ok f mdTempPath) eqn:Hum; simpl;
          eexists; (split; [reflexivity|]); simpl.
        -- split; [intros p H1 H2; by rewrite !lookup_delete_ne|]. intros _ _.
           split; [rewrite lookup_delete_ne by discriminate|]; apply lookup_delete_eq.
        -- split; [intros p H1 H2; by rewrite !lookup_delete_ne|]. by intros _ ?.
      * eexists; split; [reflexivity|]. simpl.
        split; [intros p H1 H2; by rewrite !lookup_delete_ne|]. intros _ _.
        split; [apply lookup_delete_eq|]. by rewrite lookup_delete_ne.
    + eexists; split; [reflexivity|]. simpl. split; [done|]. by intros ?.
  - destruct (files w !! mdTempPath) as [bm|] eqn:Hm; simpl; rewrite ?Hm; simpl.
    + destruct (unlink_ok f mdTempPath) eqn:Hum; simpl;
        eexists; (split; [reflexivity|]); simpl.
      * split; [intros p H1 H2; by rewrite !lookup_delete_ne|]. intros _ _.
        split; [by rewrite lookup_delete_ne|apply lookup_delete_eq].
      * split; [done|]. by intros _ ?.
    + eexists; split; [reflexivity|]. by split.
Qed.

(** The catch block re-throws what it caught, also when its cleanup fails. *)
Lemma fragile_on_write_failure_spec f err w :
  ∃ w2, Fragile.on_write_failure f err w = (Throws err, w2)
        ∧ (∀ p, p ≠ jsonTempPath → p ≠ mdTempPath → files w2 !! p = files w !! p)
        ∧ (unlink_ok f jsonTempPath = true → unlink_ok f mdTempPath = true →
           files w2 !! jsonTempPath = None ∧ files w2 !! mdTempPath = None).
Proof.
  unfold Fragile.on_write_failure. unfold bind at 1.
  destruct (fragile_clean_up_spec f w) as (w1 & -> & Hframe & Hgone).
  run_io. destruct (bool_decide _); simpl; eexists; (split; [reflexivity|]); by split.
Qed.

(** The try block, by its outcome. It throws with [context.json] replaced
    only when the second rename fails after the first. *)
Lemma fragile_attempt_spec d f render context w o wa :
  Fragile.attempt_write d f render context w = (o, wa) →
  match o with
  | Returns _ =>
      files wa !! jsonTempPath = None ∧ files wa !! mdTempPath = None
  | Throws _ =>
      files wa !! mdPath = files w !! mdPath
      ∧ (files wa !! jsonPath = files w !! jsonPath
         ∨ (rename_ok f jsonTempPath jsonPath = true
            ∧ rename_ok f mdTempPath mdPath = false
            ∧ ∃ read_back,
                medium d jsonTempPath (Doc context) = Some (Doc read_back)
                ∧ length (projects read_back) = length (projects context)
                ∧ files wa !! jsonPath = Some (Doc read_back)))
  end.
Proof.
  unfold Fragile.attempt_write. unfold bind at 1.
  destruct (create_backup_spec d w) as (w1 & -> & Hframe).
  assert (Hj : files w1 !! jsonPath = files w !! jsonPath) by by apply Hframe.
  assert (Hm : files w1 !! mdPath = files w !! mdPath) by by apply Hframe.
  unfold bind at 1. unfold write_temp_files, bind at 1, writeFileSync at 1.
  destruct (medium d jsonTempPath (Doc context)) as [bj|] eqn:Hjson; simpl.
  2:{ intros [= <- <-]. split; [done|by left]. }
  unfold writeFileSync.
  destruct (medium d mdTempPath (Text (render context))) as [md|] eqn:Hmd; simpl.
  2:{ intros [= <- <-]. simpl. rewrite !lookup_insert_ne by discriminate.
      split; [done|by left]. }
  unfold bind at 1. unfold verify_temp_file, bind at 1, readFileSync. simpl.
  rewrite lookup_insert_ne by discriminate. rewrite lookup_insert_eq.
  destruct bj as [read_back|garbage]; run_io.
  2:{ intros [= <- <-]. simpl. rewrite !lookup_insert_ne by discriminate.
      split; [done|by left]. }
  case_bool_decide as Hcount; simpl.
  { intros [= <- <-]. simpl. rewrite !lookup_insert_ne by discriminate.
    split; [done|by left]. }
  assert (Hlen : length (projects read_back) = length (projects context)).
  { destruct (decide (length (projects read_back) = length (projects context)));
      [done|by destruct Hcount]. }
  unfold Fragile.atomic_rename, Fragile.renameSync. run_io.
  rewrite lookup_insert_ne by discriminate. rewrite lookup_insert_eq.
  destruct (rename_ok f jsonTempPath jsonPath) eqn:Hr1; simpl.
  2:{ intros [= <- <-]. simpl. rewrite !lookup_insert_ne by discriminate.
      split; [done|by left]. }
  rewrite lookup_insert_ne, lookup_delete_ne, lookup_insert_eq by discriminate.
  destruct (rename_ok f mdTempPath mdPath) eqn:Hr2; simpl.
  - intros [= <- <-]. simpl. split.
    + rewrite lookup_insert_ne, lookup_delete_ne, lookup_insert_ne by discriminate.
      apply lookup_delete_eq.
    + rewrite lookup_insert_ne by discriminate. apply lookup_delete_eq.
  - intros [= <- <-]. simpl. split.
    + by rewrite lookup_insert_ne, lookup_delete_ne, !lookup_insert_ne by discriminate.
    + right. do 2 (split; [done|]). exists read_back. do 2 (split; [done|]).
      apply lookup_insert_eq.
Qed.

(** X2. Renames and unlinks may fail. Whenever writeGlobalContext throws,
    global-context.md holds what it held before the call, and so does
    context.json unless the first rename succeeded and the second failed: then
    context.json already holds the document read back from the temporary file
    and the error is thrown all the same. *)
Theorem failed_write_keeps_snapshot_unless_half_renamed (d : Disk) (f : Faults)
    (render : GlobalContext.t → string) (context : GlobalContext.t)
    (w w' : World) (e : exn) :
  Fragile.writeGlobalContext d f render context w = (Throws e, w') →
  files w' !! mdPath = files w !! mdPath
  ∧ (files w' !! jsonPath = files w !! jsonPath
     ∨ (rename_ok f jsonTempPath jsonPath = true
        ∧ rename_ok f mdTempPath mdPath = false
        ∧ ∃ read_back,
            medium d jsonTempPath (Doc context) = Some (Doc read_back)
            ∧ length (projects read_back) = length (projects context)
            ∧ files w' !! jsonPath = Some (Doc read_back))).
Proof.
  unfold Fragile.writeGlobalContext, ensure_memory_dir.
  destruct (mkdir_ok d); unfold bind at 1, ret, throw.
  2:{ intros [= <- <-]. split; [done|by left]. }
  unfold try_catch.
  destruct (Fragile.attempt_write d f render context w) as [[[]|err] wa] eqn:Hattempt;
    [done|].
  apply fragile_attempt_spec in Hattempt as [Hmd Hjson].
  destruct (fragile_on_write_failure_spec f err wa) as (w2 & -> & Hframe & _).
  intros [= <- <-].
  rewrite !Hframe by discriminate. done.
Qed.

(** X3. Renames and unlinks may fail. When MEMORY_DIR exists or can be created and
    the two temporary files can be unlinked, writeGlobalContext leaves neither
    of them behind, whether it returns or throws and whichever step failed. *)
Theorem write_leaves_no_temp_file (d : Disk) (f : Faults)
    (render : GlobalContext.t → string) (context : GlobalContext.t)
    (w w' : World) (o : outcome unit) :
  mkdir_ok d = true →
  unlink_ok f jsonTempPath = true →
  unlink_ok f mdTempPath = true →
  Fragile.writeGlobalContext d f render context w = (o, w') →
  files w' !! jsonTempPath = None ∧ files w' !! mdTempPath = None.
Proof.
  intros Hmk Huj Hum.
  unfold Fragile.writeGlobalContext, ensure_memory_dir. rewrite Hmk.
  unfold bind at 1, ret, try_catch.
  destruct (Fragile.attempt_write d f render context w) as [[[]|err] wa] eqn:Hattempt.
  - apply fragile_attempt_spec in Hattempt. by intros [= <- <-].
  - destruct (fragile_on_write_failure_spec f err wa) as (w2 & -> & _ & Hgone).
    intros [= <- <-]. by apply Hgone.
Qed.
End FragileFacts.


(** ** The Staleness Evaluator, further *)

Section MoreStalenessFacts.
Import Staleness.
Variables (clk : Clock) (pr : Probe).

Lemma hasNewCommits_parsed (projectPath lastScanned : string) :
  hasNewCommits clk pr projectPath lastScanned = true →
  is_Some (Date_getTime clk lastScanned).
Proof.
  unfold hasNewCommits.
  destruct (fs_existsSync pr _); simpl; [|done].
  destruct (git_last_commit pr projectPath) as [result|]; [|done].
  destruct (String.eqb result ""); [done|].
  unfold num_gt. destruct (Date_getTime clk result); [|done].
  destruct (Date_getTime clk lastScanned); [eauto|done].
Qed.

Lemma hasModifiedFiles_parsed (projectPath lastScanned : string) :
  hasModifiedFiles clk pr projectPath lastScanned = true →
  is_Some (Date_getTime clk lastScanned).
Proof.
  unfold hasModifiedFiles. intros (file & _ & Hfile)%existsb_exists.
  destruct (fs_existsSync pr _); [|done].
  destruct (fs_mtimeMs pr _); [|done].
  unfold mtime_gt in Hfile. destruct (Date_getTime clk lastScanned); [eauto|done].
Qed.

Lemma analyze_Some (project : ProjectInfo.t) (sp : StaleProject.t) :
  analyzeProjectStaleness clk pr project = Some sp →
  StaleProject.name sp = ProjectInfo.name project
  ∧ StaleProject.path sp = ProjectInfo.path project
  ∧ ∃ t, Date_getTime clk (ProjectInfo.lastScanned project) = Some t
         ∧ StaleProject.daysSinceScanned sp = Some ((now_ms clk - t) `div` dayMs).
Proof.
  unfold analyzeProjectStaleness.
  destruct (hasNewCommits _ _ _ _) eqn:Hgit.
  { intros [= <-]. simpl. do 2 (split; [done|]).
    destruct (hasNewCommits_parsed _ _ Hgit) as [t Ht]. exists t. by rewrite Ht. }
  destruct (hasModifiedFiles _ _ _ _) eqn:Hfiles.
  { intros [= <-]. simpl. do 2 (split; [done|]).
    destruct (hasModifiedFiles_parsed _ _ Hfiles) as [t Ht]. exists t. by rewrite Ht. }
  destruct (num_ge _ STALE) eqn:Hage; [|done].
  intros [= <-]. simpl. do 2 (split; [done|]).
  destruct (Date_getTime clk (ProjectInfo.lastScanned project)) as [t|]; [|done].
  by exists t.
Qed.

(** X6. A project whose lastScanned does not parse as a date is never reported
    stale, whatever its commits, its key files and the clock. *)
Theorem unparsable_lastScanned_is_never_stale (project : ProjectInfo.t) :
  Date_getTime clk (ProjectInfo.lastScanned project) = None →
  analyzeProjectStaleness clk pr project = None.
Proof.
  intros Hnan.
  destruct (analyzeProjectStaleness clk pr project) as [sp|] eqn:Hsp; [|done].
  apply analyze_Some in Hsp as (_ & _ & t & Ht & _). by rewrite Hnan in Ht.
Qed.

Lemma days_descend_trans (a b c : StaleProject.t) :
  days_descend a b → days_descend b c → days_descend a c.
Proof.
  intros (da & db & Ha & Hb & Hab) (db' & dc & Hb' & Hc & Hbc).
  rewrite Hb in Hb'. injection Hb' as <-. exists da, dc. repeat split; try done. lia.
Qed.

Lemma insert_sorted_sorted (a : StaleProject.t) (l : list StaleProject.t) :
  is_Some (StaleProject.daysSinceScanned a) →
  Forall (fun b => is_Some (StaleProject.daysSinceScanned b)) l →
  StronglySorted days_descend l →
  StronglySorted days_descend (insert_sorted a l).
Proof.
  intros [da Ha] Hdays Hsorted.
  induction Hsorted as [|b rest Hrest IH Hb]; simpl.
  { repeat constructor. }
  apply Forall_cons in Hdays as [[db Hdb] Hdays].
  unfold comes_after, num_gt. rewrite Hdb, Ha.
  case_bool_decide as Hlt.
  - constructor; [by apply IH|].
    rewrite insert_sorted_perm. constructor; [|done].
    exists db, da. repeat split; try done. lia.
  - constructor; [by constructor|].
    assert (Hab : days_descend a b). { exists da, db. repeat split; try done. lia. }
    constructor; [done|].
    eapply Forall_impl; [exact Hb|]. intros c. by apply days_descend_trans.
Qed.

Lemma sort_sorted (l : list StaleProject.t) :
  Forall (fun b => is_Some (StaleProject.daysSinceScanned b)) l →
  StronglySorted days_descend (sort l).
Proof.
  induction 1 as [|a l Ha Hl IH]; simpl; [constructor|].
  apply insert_sorted_sorted; [done | by rewrite sort_perm | done].
Qed.

Lemma stale_have_days (context : GlobalContext.t) :
  Forall (fun b => is_Some (StaleProject.daysSinceScanned b))
    (omap (analyzeProjectStaleness clk pr) (GlobalContext.projects context)).
Proof.
  apply Forall_forall. intros sp (project & _ & Hsp)%list_elem_of_omap.
  apply analyze_Some in Hsp as (_ & _ & t & _ & ->). eauto.
Qed.

(** X7. In a staleness report every stale project has a number of days (a single
    one too), and the list is in non-increasing order of daysSinceScanned. *)
Theorem stale_projects_most_stale_first (context : GlobalContext.t) :
  Forall (fun sp => ∃ days, StaleProject.daysSinceScanned sp = Some days)
    (StalenessReport.staleProjects (detectStaleProjects clk pr context))
  ∧ StronglySorted days_descend
      (StalenessReport.staleProjects (detectStaleProjects clk pr context))
  ∧ ∀ (i j : nat) (a b : StaleProject.t),
      (i < j)%nat →
      StalenessReport.staleProjects (detectStaleProjects clk pr context) !! i = Some a →
      StalenessReport.staleProjects (detectStaleProjects clk pr context) !! j = Some b →
      days_descend a b.
Proof.
  rewrite stale_of_report.
  pose proof (sort_sorted _ (stale_have_days context)) as Hsorted.
  split.
  { rewrite sort_perm. exact (stale_have_days context). }
  split; [exact Hsorted|].
  intros i j a b Hij Ha Hb.
  revert i j Hij Ha Hb. induction Hsorted as [|x l Hl IH Hx]; intros i j Hij Ha Hb.
  { done. }
  destruct j as [|j]; [lia|]. simpl in Hb.
  destruct i as [|i]; simpl in Ha.
  - injection Ha as <-. rewrite Forall_forall in Hx. apply Hx.
    by eapply list_elem_of_lookup_2.
  - apply (IH i j); [lia|done|done].
Qed.

Lemma omap_length_le {A B} (f : A → option B) (l : list A) :
  (length (omap f l) ≤ length l)%nat.
Proof.
  induction l as [|a l IH]; [done|].
  change (omap f (a :: l)) with (match f a with Some b => b :: omap f l | None => omap f l end).
  destruct (f a); simpl; lia.
Qed.

(** X8. In a staleness report freshCount plus the number of stale projects is the
    number of projects of the snapshot; the stale projects are, up to order,
    the answers of analyzeProjectStaleness, each with the name and the path of
    its project. *)
Theorem report_accounts_for_every_project (context : GlobalContext.t) :
  let report := detectStaleProjects clk pr context in
  let total := Z.of_nat (length (GlobalContext.projects context)) in
  (StalenessReport.freshCount report
   + Z.of_nat (length (StalenessReport.staleProjects report)) = total)%Z
  ∧ (0 ≤ StalenessReport.freshCount report ≤ total)%Z
  ∧ StalenessReport.staleProjects report
    ≡ₚ omap (analyzeProjectStaleness clk pr) (GlobalContext.projects context)
  ∧ ∀ sp, sp ∈ StalenessReport.staleProjects report →
          ∃ project, project ∈ GlobalContext.projects context
                     ∧ analyzeProjectStaleness clk pr project = Some sp
                     ∧ StaleProject.name sp = ProjectInfo.name project
                     ∧ StaleProject.path sp = ProjectInfo.path project.
Proof.
  intros report total.
  assert (Hstale : StalenessReport.staleProjects report
                   = sort (omap (analyzeProjectStaleness clk pr)
                             (GlobalContext.projects context))) by apply stale_of_report.
  assert (Hfresh : StalenessReport.freshCount report
                   = (total - Z.of_nat (length (StalenessReport.staleProjects report)))%Z).
  { rewrite Hstale. subst report total. unfold detectStaleProjects. by repeat case_match. }
  assert (Hlen : (length (StalenessReport.staleProjects report)
                  ≤ length (GlobalContext.projects context))%nat).
  { rewrite Hstale, sort_perm. apply omap_length_le. }
  split; [lia|]. split; [lia|]. split; [rewrite Hstale; apply sort_perm|].
  intros sp. rewrite Hstale, sort_perm.
  intros (project & Hin & Hsp)%list_elem_of_omap.
  exists project. destruct (analyze_Some _ _ Hsp) as (Hn & Hp & _). done.
Qed.
End MoreStalenessFacts.


(** ** The Project Detector and the tech stack, further *)

Section MoreScannerFacts.
Import Scanner.

Lemma node_strong_ind (P : node → Prop) :
  P File → P Locked → P Broken →
  (∀ children, Forall (fun c : string * node => P c.2) children → P (Dir children)) →
  ∀ n, P n.
Proof.
  intros HF HL HB HD. fix IH 1. intros [|children| |]; try assumption.
  apply HD. revert children. fix IHc 1. intros [|[entry child] rest].
  - constructor.
  - constructor; [apply IH | apply IHc].
Qed.

Lemma descends_depth ignore dir here depth dir' there depth' :
  descends ignore dir here depth dir' there depth' → (depth ≤ depth')%Z.
Proof. induction 1; lia. Qed.

Lemma elem_of_flat_map {A B} (f : A → list B) (l : list A) (y : B) :
  y ∈ flat_map f l ↔ ∃ x, x ∈ l ∧ y ∈ f x.
Proof.
  rewrite !list_elem_of_In, in_flat_map. split.
  - intros (x & Hx & Hy). exists x. by rewrite !list_elem_of_In.
  - intros (x & Hx & Hy). exists x. by rewrite <- !list_elem_of_In.
Qed.

Lemma walk_characterised maxDepth ignore (here : node) :
  ∀ dir depth r,
    r ∈ walk maxDepth ignore dir here depth
    ↔ ∃ children depth',
        descends ignore dir here depth r (Dir children) depth'
        ∧ (depth' ≤ maxDepth)%Z
        ∧ isProject children.*1 = true.
Proof.
  induction here as [| | |children IH] using node_strong_ind; intros dir depth r.
  1-3: (split;
        [ simpl; destruct (bool_decide _); by intros ?%elem_of_nil
        | intros (cs & d' & Hd & _ & _); inversion Hd ]).
  rewrite walk_Dir. split.
  - case_bool_decide as Hdepth; [by intros ?%elem_of_nil|].
    destruct (isProject children.*1) eqn:Hmarker.
    + intros ->%list_elem_of_singleton. exists children, depth.
      split; [constructor|]. split; [lia|done].
    + intros ([entry child] & Hin & Hr)%elem_of_flat_map.
      unfold visit in Hr. simpl in Hr. unfold includes in Hr.
      case_bool_decide as Hignored; [by apply elem_of_nil in Hr|].
      destruct (isDirectory child) as [[]|] eqn:Hdir; try by apply elem_of_nil in Hr.
      rewrite Forall_forall in IH.
      apply (IH (entry, child) Hin) in Hr as (cs & d' & Hd & Hle & Hm).
      exists cs, d'. split; [|done]. by eapply descends_into.
  - intros (cs & d' & Hd & Hle & Hm).
    inversion Hd as [|? ? ? entry child ? ? ? Hnone Hin Hignored Hrest]; subst.
    + rewrite Hm. rewrite bool_decide_eq_false_2 by lia. by apply list_elem_of_singleton.
    + pose proof (descends_depth _ _ _ _ _ _ _ Hrest).
      rewrite bool_decide_eq_false_2 by lia. rewrite Hnone.
      apply elem_of_flat_map. exists (entry, child). split; [done|].
      unfold visit. simpl. unfold includes. rewrite bool_decide_eq_false_2 by done.
      rewrite Forall_forall in IH.
      assert (Hr : r ∈ walk maxDepth ignore (join dir entry) child (depth + 1)).
      { apply (IH (entry, child) Hin). eauto. }
      destruct child; simpl; try done;
        simpl in Hr; destruct (bool_decide _); by apply elem_of_nil in Hr.
Qed.

(** X9. findProjectRoots returns a path exactly when the walk gets there within
    maxDepth levels, through entries that are not ignored and out of
    directories that hold no marker, and the directory there holds a marker. *)
Theorem findProjectRoots_characterised (tree : node) (rootDir : string)
    (maxDepth : Z) (ignore : list string) (r : string) :
  r ∈ findProjectRoots tree rootDir maxDepth ignore
  ↔ ∃ children depth,
      descends ignore rootDir tree 0 r (Dir children) depth
      ∧ (depth ≤ maxDepth)%Z
      ∧ isProject children.*1 = true.
Proof. apply walk_characterised. Qed.

Lemma js_check_entry pr projectPath l stack :
  js_check pr projectPath = Some (l, stack) →
  ∃ name rest, language_entry l = Some name ∧ stack = name :: rest.
Proof.
  unfold js_check.
  destruct (read_json pr _) as [pkg|]; [|done]. simpl.
  destruct (property pkg "dependencies") as [deps|]; [|done]. simpl.
  destruct (property pkg "devDependencies") as [dev|]; [|done]. simpl.
  destruct (_ || _); intros [= <- <-]; eauto.
Qed.

(** X10. detectTechStack reports the language [other] exactly when the tech stack
    is empty; any other language has its own entry in the stack. *)
Theorem stack_names_the_language (pr : Probe) (projectPath : string) :
  let '(language, techStack) := detectTechStack pr projectPath in
  match language_entry language with
  | Some name => name ∈ techStack
  | None => techStack = []
  end
  ∧ (techStack = [] → language = other).
Proof.
  unfold detectTechStack.
  destruct (fs_existsSync pr (join projectPath "package.json"));
    [destruct (js_check pr projectPath) as [[l s]|] eqn:Hjs;
      [apply js_check_entry in Hjs as (name & rest & Hname & ->)|]|];
    destruct (fs_existsSync pr (join projectPath "Cargo.toml"));
    destruct (fs_existsSync pr (join projectPath "pyproject.toml"));
    destruct (fs_existsSync pr (join projectPath "requirements.txt"));
    destruct (fs_existsSync pr (join projectPath "go.mod"));
    simpl; rewrite ?Hname; (split; [try done; set_solver|try done]);
    intros Hempty; by apply (f_equal length) in Hempty; rewrite ?length_app in Hempty;
    simpl in Hempty; lia.
Qed.
End MoreScannerFacts.


(** ** The `scan` command, further *)

Section MoreCliFacts.
Import GlobalContext Cli.

Lemma quiet_print line : quiet (print line).
Proof. intros w. unfold print. by eexists. Qed.

Lemma quiet_then (m k : IO unit) : quiet m → quiet k → quiet (m ;; k)%io.
Proof.
  intros Hm Hk w. unfold bind.
  destruct (Hm w) as (w1 & -> & H1). destruct (Hk w1) as (w2 & -> & H2).
  exists w2. split; [done|]. by rewrite H2.
Qed.

Lemma quiet_print_stale (l : list StaleProject.t) : quiet (print_stale l).
Proof.
  induction l as [|p rest IH]; simpl.
  - intros w. by exists w.
  - repeat apply quiet_then; try apply quiet_print. exact IH.
Qed.

Lemma check_only_spec (env : Env) : quiet (check_only env).
Proof.
  intros w. unfold check_only, bind at 1, loadContext.
  destruct (files w !! Store.jsonPath) as [[c|]|].
  2,3: (apply (quiet_then _ _ (quiet_print _)); repeat apply quiet_then;
        apply quiet_print).
  repeat (apply (quiet_then _ _ (quiet_print _))).
  destruct (StalenessReport.staleProjects _) as [|sp rest]; [apply quiet_print|].
  apply (quiet_then _ _ (quiet_print _)).
  apply (quiet_then _ _ (quiet_print_stale _)).
  apply quiet_then; apply quiet_print.
Qed.

(** X11. With --check the scan command returns and leaves every file of the store
    as it is. *)
Theorem check_is_a_dry_run (env : Env) (directory : string) (options : ScanFlags.t)
    (w : World) :
  ScanFlags.check options = true →
  ∃ w', scan_action env directory options w = (Returns tt, w') ∧ files w' = files w.
Proof.
  intros Hcheck. unfold scan_action. rewrite Hcheck. apply check_only_spec.
Qed.

(** X12. A quick scan over a snapshot without stale projects writes nothing and
    prints that all projects are up to date. *)
Theorem quick_scan_with_nothing_stale_is_a_no_op (env : Env) (directory : string)
    (options : ScanFlags.t) (w : World) (existing : GlobalContext.t) :
  ScanFlags.check options = false →
  ScanFlags.quick options = true →
  files w !! Store.jsonPath = Some (Doc existing) →
  StalenessReport.staleProjects
    (Staleness.detectStaleProjects (clock env) (probe env) existing) = [] →
  ∃ w',
    scan_action env directory options w = (Returns tt, w')
    ∧ files w' = files w
    ∧ console w' = (console w ++ ["🧠 Claude Memory Scanner";
                                  "✅ All projects are up to date! Nothing to scan."])%list.
Proof.
  intros Hcheck Hquick Hfile Hstale.
  unfold scan_action. rewrite Hcheck, Hquick.
  unfold bind at 1. unfold print at 1. unfold bind at 1. unfold loadContext at 1.
  cbn [files]. rewrite Hfile, Hstale.
  unfold print. simpl. eexists; split; [reflexivity|]. simpl.
  split; [done|]. by rewrite <- app_assoc.
Qed.

Lemma generate_reads_files clk (w1 w2 : World) scanned :
  files w1 = files w2 →
  Store.generateGlobalContext clk w1 scanned = Store.generateGlobalContext clk w2 scanned.
Proof.
  intros Hfiles. unfold Store.generateGlobalContext, Store.loadExistingContext.
  by rewrite Hfiles.
Qed.

Lemma snapshot_to_write_reads_files env options pts (w1 w2 : World) scanned :
  files w1 = files w2 →
  snapshot_to_write env options pts w1 scanned = snapshot_to_write env options pts w2 scanned.
Proof.
  intros Hfiles. unfold snapshot_to_write. rewrite Hfiles.
  by rewrite !(generate_reads_files _ w1 w2).
Qed.

(** scan_and_write with the snapshot it writes made explicit. *)
Lemma scan_and_write_unfold (env : Env) directory options pts (w : World) :
  let scanned := scanProjects env (request directory options pts) (files w) in
  scan_and_write env directory options pts w
  = if bool_decide (length scanned = 0%nat) then
      (print "⚠️  No projects found. Context not updated." ;;
       print "   Check the directory path and try again.")%io w
    else
      (Store.writeGlobalContext (disk env) (formatGlobalContextMarkdown env)
         (snapshot_to_write env options pts w scanned) ;;
       print "✅ Done! Global context updated." ;;
       print "To use with Claude Code, add the MCP server to your config:" ;;
       print "  claude-memory mcp")%io w.
Proof.
  intros scanned. unfold scan_and_write, bind at 1. fold scanned.
  destruct (bool_decide (length scanned = 0%nat)); [done|].
  unfold snapshot_to_write.
  destruct (ScanFlags.quick options && bool_decide (is_Some pts)).
  - unfold bind at 1. unfold bind at 1. unfold loadContext at 1.
    destruct (files w !! Store.jsonPath) as [[c|]|]; reflexivity.
  - reflexivity.
Qed.

(** scan_and_write throws only out of writeGlobalContext. *)
Lemma scan_and_write_throws (env : Env) directory options pts (w w' : World) (e : exn) :
  scan_and_write env directory options pts w = (Throws e, w') →
  let scanned := scanProjects env (request directory options pts) (files w) in
  scanned ≠ []
  ∧ Store.writeGlobalContext (disk env) (formatGlobalContextMarkdown env)
      (snapshot_to_write env options pts w scanned) w = (Throws e, w').
Proof.
  rewrite scan_and_write_unfold. cbv zeta.
  set (scanned := scanProjects env (request directory options pts) (files w)).
  case_bool_decide as Hempty.
  - unfold bind, print. simpl. done.
  - unfold bind at 1.
    destruct (Store.writeGlobalContext _ _ _ w) as [[[]|e'] wm] eqn:Hwrite.
    + unfold bind, print. simpl. done.
    + intros [= <- <-]. split; [|done]. intros Hnil. by rewrite Hnil in Hempty.
Qed.

(** X13. When the scan command throws, --check is off, the scan has found a
    project, and the error and the files left are exactly those of
    writeGlobalContext on the snapshot the command built, run on the files as
    they were: no other step of the command throws, and nothing is done after
    the failure. *)
Theorem scan_throws_only_what_the_write_throws (env : Env) (directory : string)
    (options : ScanFlags.t) (w w' : World) (e : exn) :
  scan_action env directory options w = (Throws e, w') →
  ∃ (projectsToScan : option (list string)) (w0 : World),
    files w0 = files w
    ∧ ScanFlags.check options = false
    ∧ scanProjects env (request directory options projectsToScan) (files w) ≠ []
    ∧ Store.writeGlobalContext (disk env) (formatGlobalContextMarkdown env)
        (snapshot_to_write env options projectsToScan w
           (scanProjects env (request directory options projectsToScan) (files w)))
        w0
      = (Throws e, w').
Proof.
  unfold scan_action.
  destruct (ScanFlags.check options) eqn:Hcheck.
  { destruct (check_only_spec env w) as (w1 & -> & _). done. }
  unfold bind at 1, print at 1.
  set (w0 := {| files := files w; console := (console w ++ ["🧠 Claude Memory Scanner"])%list |}).
  assert (∀ pts (w1 : World),
            files w1 = files w →
            scan_and_write env directory options pts w1 = (Throws e, w') →
            ∃ (projectsToScan : option (list string)) (w0 : World),
              files w0 = files w
              ∧ false = false
              ∧ scanProjects env (request directory options projectsToScan) (files w) ≠ []
              ∧ Store.writeGlobalContext (disk env) (formatGlobalContextMarkdown env)
                  (snapshot_to_write env options projectsToScan w
                     (scanProjects env (request directory options projectsToScan) (files w)))
                  w0
                = (Throws e, w')) as Hstep.
  { intros pts w1 Hfiles Hrun. apply scan_and_write_throws in Hrun as [Hscanned Hwrite].
    cbv zeta in Hwrite. rewrite Hfiles in Hscanned, Hwrite.
    rewrite (snapshot_to_write_reads_files env options pts w1 w) in Hwrite by done.
    exists pts, w1. done. }
  destruct (ScanFlags.quick options).
  2:{ by apply Hstep. }
  unfold bind at 1. unfold loadContext at 1.
  destruct (files w0 !! Store.jsonPath) as [[existing|]|].
  2,3: by apply Hstep.
  destruct (StalenessReport.staleProjects _) as [|sp rest]; [done|].
  unfold bind at 1, print at 1. by apply Hstep.
Qed.

(** X14. Without a snapshot that parses, `scan --quick` does exactly what the full
    scan does. *)
Theorem quick_scan_without_snapshot_is_a_full_scan (env : Env) (directory : string)
    (depth : Z) (generateClaudeMd : bool) (w : World) :
  (∀ c, files w !! Store.jsonPath ≠ Some (Doc c)) →
  scan_action env directory
    {| ScanFlags.depth := depth; ScanFlags.generateClaudeMd := generateClaudeMd;
       ScanFlags.quick := true; ScanFlags.check := false |} w
  = scan_action env directory
      {| ScanFlags.depth := depth; ScanFlags.generateClaudeMd := generateClaudeMd;
         ScanFlags.quick := false; ScanFlags.check := false |} w.
Proof.
  intros Hnone. unfold scan_action. simpl.
  unfold bind at 1 3. unfold print at 1 2.
  unfold bind at 1. unfold loadContext at 1. cbn [files].
  destruct (files w !! Store.jsonPath) as [[c|]|] eqn:Hfile; [by destruct (Hnone c)| |];
    reflexivity.
Qed.

Lemma full_scan_writes (env : Env) (directory : string) (options : ScanFlags.t) (w : World) :
  ScanFlags.check options = false →
  ScanFlags.quick options = false →
  disk env = faithful_disk →
  let scanned := scanProjects env (request directory options None) (files w) in
  scanned ≠ [] →
  ∃ w',
    scan_action env directory options w = (Returns tt, w')
    ∧ files w' !! Store.jsonPath
      = Some (Doc (Store.generateGlobalContext (clock env) w scanned)).
Proof.
  intros Hcheck Hquick Hdisk scanned Hscanned.
  unfold scan_action. rewrite Hcheck, Hquick.
  unfold bind at 1, print at 1.
  set (w0 := {| files := files w; console := (console w ++ ["🧠 Claude Memory Scanner"])%list |}).
  rewrite scan_and_write_unfold. cbv zeta. cbn [files w0]. fold scanned.
  rewrite bool_decide_eq_false_2 by (by destruct scanned).
  unfold snapshot_to_write. rewrite Hquick. simpl andb. cbv iota.
  rewrite (generate_reads_files _ w0 w) by done.
  set (written := Store.generateGlobalContext (clock env) w scanned).
  rewrite Hdisk.
  destruct (write_commits faithful_disk (formatGlobalContextMarkdown env) written written
              (Text (formatGlobalContextMarkdown env written)) w0)
    as (w1 & Hw & Hjson & _); try reflexivity.
  unfold bind at 1. rewrite Hw. unfold bind, print. simpl.
  eexists. split; [reflexivity|]. exact Hjson.
Qed.

Lemma quick_scan_writes (env : Env) (directory : string) (options : ScanFlags.t) (w : World)
    (existing : GlobalContext.t) (sp : StaleProject.t) (rest : list StaleProject.t) :
  ScanFlags.check options = false →
  ScanFlags.quick options = true →
  disk env = faithful_disk →
  files w !! Store.jsonPath = Some (Doc existing) →
  StalenessReport.staleProjects
    (Staleness.detectStaleProjects (clock env) (probe env) existing) = sp :: rest →
  let scanned :=
    scanProjects env
      (request directory options (Some (StaleProject.path <$> sp :: rest))) (files w) in
  scanned ≠ [] →
  ∃ w',
    scan_action env directory options w = (Returns tt, w')
    ∧ files w' !! Store.jsonPath = Some (Doc (quick_merge (clock env) existing scanned)).
Proof.
  intros Hcheck Hquick Hdisk Hfile Hstale scanned Hscanned.
  unfold scan_action. rewrite Hcheck, Hquick.
  unfold bind at 1, print at 1.
  set (w0 := {| files := files w; console := (console w ++ ["🧠 Claude Memory Scanner"])%list |}).
  unfold bind at 1. unfold loadContext at 1. cbn [files w0]. rewrite Hfile, Hstale.
  unfold bind at 1, print at 1.
  match goal with |- context [scan_and_write _ _ _ _ ?w1] => set (w1' := w1) end.
  destruct (scan_and_write_quick env directory options (StaleProject.path <$> sp :: rest)
              w1' existing Hquick Hdisk Hfile Hscanned) as (w' & Hrun & Hjson).
  exists w'. by split.
Qed.

(** X15. On a faithful disk a full scan that finds projects writes a snapshot at
    the current schema version whose projects are exactly the scanned ones,
    and loading the store afterwards returns that snapshot. *)
Theorem full_scan_replaces_projects (env : Env) (directory : string)
    (options : ScanFlags.t) (w : World) :
  ScanFlags.check options = false →
  ScanFlags.quick options = false →
  disk env = faithful_disk →
  let scanned := scanProjects env (request directory options None) (files w) in
  scanned ≠ [] →
  ∃ w' written,
    scan_action env directory options w = (Returns tt, w')
    ∧ files w' !! Store.jsonPath = Some (Doc written)
    ∧ Store.loadExistingContext (clock env) w' = Some written
    ∧ written = Store.generateGlobalContext (clock env) w scanned
    ∧ projects written = scanned
    ∧ schemaVersion written = SCHEMA_VERSION.
Proof.
  intros Hcheck Hquick Hdisk scanned Hscanned.
  destruct (full_scan_writes env directory options w Hcheck Hquick Hdisk Hscanned)
    as (w' & Hrun & Hjson).
  eexists _, _. split; [exact Hrun|]. split; [exact Hjson|]. split; [|done].
  by apply load_current.
Qed.

Lemma path_not_in_filter (l : list ProjectInfo.t) (paths : list string) (p : string) :
  p ∈ ProjectInfo.path <$> filter (fun q => ProjectInfo.path q ∉ paths) l →
  p ∉ paths.
Proof.
  intros (q & -> & Hq)%list_elem_of_fmap. by apply list_elem_of_filter in Hq as [? _].
Qed.

Lemma quick_merge_paths_NoDup (clk : Clock) (existing : GlobalContext.t)
    (scanned : list ProjectInfo.t) :
  NoDup (ProjectInfo.path <$> projects existing) →
  NoDup (ProjectInfo.path <$> scanned) →
  NoDup (ProjectInfo.path <$> projects (quick_merge clk existing scanned)).
Proof.
  intros Hexisting Hscanned. unfold quick_merge. simpl.
  rewrite filter_rescanned, fmap_app. apply NoDup_app. split; [|split; [|done]].
  - apply (NoDup_fmap_2_strong).
    + intros a b Ha Hb Hab. apply list_elem_of_filter in Ha as [_ Ha].
      apply list_elem_of_filter in Hb as [_ Hb].
      revert Hexisting Ha Hb Hab. generalize (projects existing). clear.
      induction l as [|x l IH]; [by intros _ ?%elem_of_nil|].
      rewrite fmap_cons, NoDup_cons. intros [Hx Hl] Ha Hb Hab.
      apply elem_of_cons in Ha as [->|Ha]; apply elem_of_cons in Hb as [->|Hb]; try done.
      * destruct Hx. rewrite Hab. by apply list_elem_of_fmap_2.
      * destruct Hx. rewrite <- Hab. by apply list_elem_of_fmap_2.
      * by apply IH.
    + apply NoDup_filter. eapply NoDup_fmap_1, Hexisting.
  - intros p Hp. by apply path_not_in_filter in Hp.
Qed.
End MoreCliFacts.


(** ** The exclusion list *)

Section ExclusionFacts.
Import GlobalContext Exclude.

Lemma addExclusion_spec (projectPath : string) (w : World) (context : GlobalContext.t) :
  files w !! Store.jsonPath = Some (Doc context) →
  addExclusion faithful_disk projectPath w
  = (Returns tt,
     if bool_decide (projectPath ∈ excluded context) then w
     else set_files
            (<[Store.jsonPath :=
                 Doc (set_excludedProjects context (excluded context ++ [projectPath]))]>
               (files w)) w).
Proof.
  intros Hfile. unfold addExclusion, Scanner.includes. run_io.
  rewrite Hfile. simpl. rewrite Hfile. unfold ret. by case_bool_decide.
Qed.

Lemma removeExclusion_spec (projectPath : string) (w : World) (context : GlobalContext.t) :
  files w !! Store.jsonPath = Some (Doc context) →
  removeExclusion faithful_disk projectPath w
  = (Returns tt,
     set_files
       (<[Store.jsonPath :=
            Doc (set_excludedProjects context
                   (filter (fun p => p ≠ projectPath) (excluded context)))]>
          (files w)) w).
Proof.
  intros Hfile. unfold removeExclusion. run_io.
  rewrite Hfile. simpl. by rewrite Hfile.
Qed.

(** X16. On a store that parses, addExclusion returns with the path on the
    exclusion list, repeats no path that was there, changes no other field of
    the snapshot and no other file, prints nothing, and changes nothing when
    it is run again. *)
Theorem addExclusion_excludes_once (projectPath : string) (w : World)
    (context : GlobalContext.t) :
  files w !! Store.jsonPath = Some (Doc context) →
  ∃ w' context',
    addExclusion faithful_disk projectPath w = (Returns tt, w')
    ∧ files w' = <[Store.jsonPath := Doc context']> (files w)
    ∧ console w' = console w
    ∧ (∀ q, q ∈ excluded context' ↔ q ∈ excluded context ∨ q = projectPath)
    ∧ (NoDup (excluded context) → NoDup (excluded context'))
    ∧ schemaVersion context' = schemaVersion context
    ∧ lastUpdated context' = lastUpdated context
    ∧ projects context' = projects context
    ∧ insights context' = insights context
    ∧ userPatterns context' = userPatterns context
    ∧ addExclusion faithful_disk projectPath w' = (Returns tt, w').
Proof.
  intros Hfile. rewrite (addExclusion_spec _ _ _ Hfile).
  case_bool_decide as Hin.
  - exists w, context. split; [done|]. split; [by rewrite insert_id|].
    split; [done|]. split; [intros q; split; [tauto|]; by intros [?| ->]|].
    do 6 (split; [done|]).
    rewrite (addExclusion_spec _ _ _ Hfile). by rewrite bool_decide_eq_true_2.
  - eexists _, _. split; [reflexivity|]. split; [reflexivity|]. split; [done|].
    unfold excluded at 1 3. simpl.
    split; [intros q; rewrite elem_of_app, list_elem_of_singleton; tauto|].
    split.
    { intros Hnodup. apply NoDup_app. split; [done|]. split; [|apply NoDup_singleton].
      intros q Hq ->%list_elem_of_singleton. done. }
    do 5 (split; [done|]).
    erewrite addExclusion_spec by (simpl; apply lookup_insert_eq).
    rewrite bool_decide_eq_true_2; [done|].
    unfold excluded. simpl. apply elem_of_app. right. by apply list_elem_of_singleton.
Qed.

Lemma filter_ne_app (projectPath : string) (l : list string) :
  projectPath ∉ l →
  filter (fun p => p ≠ projectPath) (l ++ [projectPath])%list = l.
Proof.
  induction l as [|x l IH]; simpl.
  - intros _. by rewrite filter_cons_False by (by intros ?).
  - intros [Hx Hl]%not_elem_of_cons.
    rewrite filter_cons_True by done. by rewrite IH.
Qed.

(** X17. removeExclusion after addExclusion of a path that was not excluded
    restores the exclusion list and leaves every other field of the snapshot
    as it was. *)
Theorem removeExclusion_undoes_addExclusion (projectPath : string) (w : World)
    (context : GlobalContext.t) :
  files w !! Store.jsonPath = Some (Doc context) →
  projectPath ∉ excluded context →
  ∃ w1 w2 context2,
    addExclusion faithful_disk projectPath w = (Returns tt, w1)
    ∧ removeExclusion faithful_disk projectPath w1 = (Returns tt, w2)
    ∧ files w2 = <[Store.jsonPath := Doc context2]> (files w)
    ∧ console w2 = console w
    ∧ excluded context2 = excluded context
    ∧ schemaVersion context2 = schemaVersion context
    ∧ lastUpdated context2 = lastUpdated context
    ∧ projects context2 = projects context
    ∧ insights context2 = insights context
    ∧ userPatterns context2 = userPatterns context.
Proof.
  intros Hfile Hnew.
  rewrite (addExclusion_spec _ _ _ Hfile), bool_decide_eq_false_2 by done.
  eexists _, _, _. split; [reflexivity|].
  erewrite removeExclusion_spec by (simpl; apply lookup_insert_eq).
  split; [reflexivity|]. simpl. rewrite insert_insert_eq.
  split; [reflexivity|]. split; [done|].
  unfold excluded at 1. simpl. split; [|done].
  unfold excluded at 1. simpl. by apply filter_ne_app.
Qed.

Lemma addExclusion_careful (d : Disk) (projectPath : string) (w : World) :
  careful_update (addExclusion d projectPath) w.
Proof.
  unfold careful_update, addExclusion, Scanner.includes. run_io.
  destruct (files w !! Store.jsonPath) as [[context|s]|] eqn:Hfile; simpl;
    rewrite ?Hfile; simpl.
  - unfold ret. case_bool_decide; simpl.
    + eexists; split; [reflexivity|]. by repeat split.
    + destruct (medium d _ _); simpl; eexists; (split; [reflexivity|]); simpl;
        (split; [|by split]); intros p Hp; [|done].
      by rewrite lookup_insert_ne.
  - unfold throw. simpl. eexists; split; [reflexivity|]. simpl.
    split; [done|]. split; [done|]. by intros ? _.
  - eexists; split; [reflexivity|]. by repeat split.
Qed.

Lemma removeExclusion_careful (d : Disk) (projectPath : string) (w : World) :
  careful_update (removeExclusion d projectPath) w.
Proof.
  unfold careful_update, removeExclusion. run_io.
  destruct (files w !! Store.jsonPath) as [[context|s]|] eqn:Hfile; simpl;
    rewrite ?Hfile; simpl.
  - unfold ret. simpl.
    destruct (medium d _ _); simpl; eexists; (split; [reflexivity|]); simpl;
      (split; [|by split]); intros p Hp; [|done].
    by rewrite lookup_insert_ne.
  - unfold throw. simpl. eexists; split; [reflexivity|]. simpl.
    split; [done|]. split; [done|]. by intros ? _.
  - eexists; split; [reflexivity|]. by repeat split.
Qed.

(** X18. addExclusion and removeExclusion never throw, on any disk: they touch no
    file but context.json, do nothing when there is no store, and on a store
    that does not parse they leave the files alone and print one line. *)
Theorem exclusion_updates_never_throw (d : Disk) (projectPath : string) (w : World) :
  careful_update (addExclusion d projectPath) w
  ∧ careful_update (removeExclusion d projectPath) w.
Proof. split; [apply addExclusion_careful|apply removeExclusion_careful]. Qed.
End ExclusionFacts.


(** ** The scanner inside the `scan` command *)

Section ScanFacts.
Import GlobalContext Cli.
Variable ws : Workspace.

Lemma analyzeProject_path clk pr (projectPath : string) :
  ProjectInfo.path (Scan.analyzeProject clk pr ws projectPath) = projectPath.
Proof. unfold Scan.analyzeProject. by repeat case_match. Qed.

Lemma analyzeProject_paths clk pr (paths : list string) :
  ProjectInfo.path <$> (Scan.analyzeProject clk pr ws <$> paths) = paths.
Proof.
  induction paths as [|p paths IH]; [done|].
  rewrite !fmap_cons, analyzeProject_path. by rewrite IH.
Qed.

Lemma scanProjects_quick clk pr options store (p : string) (rest : list string) :
  ExtendedScanOptions.onlyPaths options = Some (p :: rest) →
  Scan.scanProjects clk pr ws options store
  = Scan.analyzeProject clk pr ws
      <$> filter (fun q => fs_existsSync pr q = true) (p :: rest).
Proof. intros Honly. unfold Scan.scanProjects. by rewrite Honly. Qed.

Lemma scanProjects_full clk pr options store :
  ExtendedScanOptions.onlyPaths options = None →
  fs_existsSync pr (ExtendedScanOptions.rootDir options) = true →
  Scan.scanProjects clk pr ws options store
  = Scan.analyzeProject clk pr ws
      <$> filter
            (fun r => r ∉ from_option excluded []
                            (Store.loadExistingContext clk {| files := store; console := [] |}))
            (Scanner.findProjectRoots
               (tree ws (ExtendedScanOptions.rootDir options))
               (ExtendedScanOptions.rootDir options)
               (ExtendedScanOptions.maxDepth options) Scan.ignore).
Proof.
  intros Honly Hroot. unfold Scan.scanProjects. rewrite Honly, Hroot. simpl.
  by destruct (Scanner.findProjectRoots _ _ _ _).
Qed.

Lemma filter_none_excluded (l : list string) :
  filter (fun r => r ∉ ([] : list string)) l = l.
Proof.
  induction l as [|r l IH]; [done|].
  rewrite filter_cons_True by apply not_elem_of_nil. by rewrite IH.
Qed.

Lemma addExclusion_store (projectPath : string) (w : World) (context : GlobalContext.t) :
  files w !! Store.jsonPath = Some (Doc context) →
  ∃ w1 context1,
    Exclude.addExclusion faithful_disk projectPath w = (Returns tt, w1)
    ∧ files w1 !! Store.jsonPath = Some (Doc context1)
    ∧ schemaVersion context1 = schemaVersion context
    ∧ (∀ q, q ∈ excluded context1 ↔ q ∈ excluded context ∨ q = projectPath).
Proof.
  intros Hfile. rewrite (addExclusion_spec _ _ _ Hfile).
  case_bool_decide as Hin.
  - exists w, context. do 3 (split; [done|]). intros q. split; [tauto|].
    by intros [?| ->].
  - eexists _, _. split; [reflexivity|]. simpl. split; [apply lookup_insert_eq|].
    split; [done|]. intros q. unfold excluded at 1. simpl.
    by rewrite elem_of_app, list_elem_of_singleton.
Qed.

(** X19. On a store at schema version 1 or later, a path put on the exclusion list
    is left out by the next full scan: the snapshot it writes lists exactly
    the roots that are not excluded, and the path stays on the list. *)
Theorem exclusion_takes_effect_at_next_full_scan (env : Env) (directory : string)
    (options : ScanFlags.t) (w : World) (context : GlobalContext.t)
    (projectPath : string) :
  ScanFlags.check options = false →
  ScanFlags.quick options = false →
  disk env = faithful_disk →
  files w !! Store.jsonPath = Some (Doc context) →
  (1 ≤ schemaVersion context)%Z →
  fs_existsSync (probe env) directory = true →
  let roots :=
    Scanner.findProjectRoots (tree ws directory) directory (ScanFlags.depth options)
      Scan.ignore in
  let kept := filter (fun r => (r ∉ excluded context) ∧ r ≠ projectPath) roots in
  kept ≠ [] →
  ∃ w1 w2 written,
    Exclude.addExclusion faithful_disk projectPath w = (Returns tt, w1)
    ∧ scan_action (with_scanner env ws) directory options w1 = (Returns tt, w2)
    ∧ files w2 !! Store.jsonPath = Some (Doc written)
    ∧ (ProjectInfo.path <$> projects written) = kept
    ∧ (projectPath ∉ (ProjectInfo.path <$> projects written))
    ∧ projectPath ∈ excluded written.
Proof.
  intros Hcheck Hquick Hdisk Hfile Hversion Hroot roots kept Hkept.
  destruct (addExclusion_store projectPath w context Hfile)
    as (w1 & context1 & Hadd & Hfile1 & Hversion1 & Hexcluded1).
  assert (Store.loadExistingContext (clock env) w1 = Some context1) as Hload.
  { apply load_current; [done|]. by rewrite Hversion1. }
  assert (scanProjects (with_scanner env ws) (request directory options None) (files w1)
          = Scan.analyzeProject (clock env) (probe env) ws <$> kept) as Hscan.
  { simpl. rewrite scanProjects_full by done. simpl.
    unfold Store.loadExistingContext in *. simpl. rewrite Hfile1 in *.
    injection Hload as ->. simpl. f_equal. apply list_filter_iff. intros r.
    rewrite Hexcluded1. tauto. }
  destruct (full_scan_writes (with_scanner env ws) directory options w1 Hcheck Hquick Hdisk)
    as (w2 & Hrun & Hjson).
  { rewrite Hscan. by destruct kept. }
  exists w1, w2. eexists. split; [done|]. split; [done|]. split; [exact Hjson|].
  rewrite Hscan. cbn [Store.generateGlobalContext projects clock with_scanner].
  rewrite analyzeProject_paths. split; [done|]. split.
  - by intros [[_ Hp] _]%list_elem_of_filter.
  - unfold excluded at 1. cbn [excludedProjects Store.generateGlobalContext default].
    rewrite Hload. simpl. apply Hexcluded1. by right.
Qed.

(** X20. On a store below schema version 1 the exclusion is forgotten: the next
    full scan lists every root it finds and writes an empty exclusion list. *)
Theorem exclusion_is_forgotten_below_schema_1 (env : Env) (directory : string)
    (options : ScanFlags.t) (w : World) (context : GlobalContext.t)
    (projectPath : string) :
  ScanFlags.check options = false →
  ScanFlags.quick options = false →
  disk env = faithful_disk →
  files w !! Store.jsonPath = Some (Doc context) →
  (schemaVersion context < 1)%Z →
  fs_existsSync (probe env) directory = true →
  let roots :=
    Scanner.findProjectRoots (tree ws directory) directory (ScanFlags.depth options)
      Scan.ignore in
  roots ≠ [] →
  ∃ w1 w2 written,
    Exclude.addExclusion faithful_disk projectPath w = (Returns tt, w1)
    ∧ scan_action (with_scanner env ws) directory options w1 = (Returns tt, w2)
    ∧ files w2 !! Store.jsonPath = Some (Doc written)
    ∧ (ProjectInfo.path <$> projects written) = roots
    ∧ excluded written = [].
Proof.
  intros Hcheck Hquick Hdisk Hfile Hversion Hroot roots Hroots.
  destruct (addExclusion_store projectPath w context Hfile)
    as (w1 & context1 & Hadd & Hfile1 & Hversion1 & _).
  assert (∃ c, Store.loadExistingContext (clock env) w1 = Some c ∧ excluded c = [])
    as (c & Hload & Hnone).
  { unfold Store.loadExistingContext. rewrite Hfile1. eexists. split; [reflexivity|].
    unfold Store.migrateContext, Store.or_zero. rewrite Hversion1.
    destruct (Z.eqb_spec (schemaVersion context) 0) as [E|E]; [done|].
    by rewrite (proj2 (Z.ltb_lt _ _)). }
  assert (scanProjects (with_scanner env ws) (request directory options None) (files w1)
          = Scan.analyzeProject (clock env) (probe env) ws <$> roots) as Hscan.
  { simpl. rewrite scanProjects_full by done. simpl. f_equal.
    change (Store.loadExistingContext (clock env) {| files := files w1; console := [] |})
      with (Store.loadExistingContext (clock env) w1).
    rewrite Hload. simpl. rewrite Hnone. apply filter_none_excluded. }
  destruct (full_scan_writes (with_scanner env ws) directory options w1 Hcheck Hquick Hdisk)
    as (w2 & Hrun & Hjson).
  { rewrite Hscan. by destruct roots. }
  exists w1, w2. eexists. split; [done|]. split; [done|]. split; [exact Hjson|].
  rewrite Hscan. cbn [Store.generateGlobalContext projects clock with_scanner].
  rewrite analyzeProject_paths. split; [done|].
  unfold excluded at 1. cbn [excludedProjects Store.generateGlobalContext default].
  by rewrite Hload.
Qed.

Lemma stale_paths_sublist clk pr (l : list ProjectInfo.t) :
  (StaleProject.path <$> omap (Staleness.analyzeProjectStaleness clk pr) l)
    `sublist_of` (ProjectInfo.path <$> l).
Proof.
  induction l as [|p l IH]; [done|].
  change (omap (Staleness.analyzeProjectStaleness clk pr) (p :: l))
    with (match Staleness.analyzeProjectStaleness clk pr p with
          | Some sp => sp :: omap (Staleness.analyzeProjectStaleness clk pr) l
          | None => omap (Staleness.analyzeProjectStaleness clk pr) l
          end).
  destruct (Staleness.analyzeProjectStaleness clk pr p) as [sp|] eqn:Hsp.
  - apply analyze_Some in Hsp as (_ & Hpath & _).
    rewrite !fmap_cons, Hpath. by apply sublist_skip.
  - rewrite fmap_cons. by apply sublist_cons.
Qed.

(** The paths a quick scan asks for are paths of the snapshot, each once
    when the snapshot lists each once. *)
Lemma stale_paths (env : Env) (existing : GlobalContext.t) :
  let paths :=
    StaleProject.path
      <$> StalenessReport.staleProjects
            (Staleness.detectStaleProjects (clock env) (probe env) existing) in
  (∀ q, q ∈ paths → q ∈ ProjectInfo.path <$> projects existing)
  ∧ (NoDup (ProjectInfo.path <$> projects existing) → NoDup paths).
Proof.
  intros paths. subst paths. rewrite stale_of_report.
  pose proof (stale_paths_sublist (clock env) (probe env) (projects existing)) as Hsub.
  assert ((StaleProject.path <$> Staleness.sort
             (omap (Staleness.analyzeProjectStaleness (clock env) (probe env))
                (projects existing)))
          ≡ₚ (StaleProject.path <$>
                omap (Staleness.analyzeProjectStaleness (clock env) (probe env))
                  (projects existing))) as Hperm.
  { apply fmap_Permutation, sort_perm. }
  split.
  - intros q Hq. rewrite Hperm in Hq. by eapply elem_of_sublist.
  - intros Hnodup. rewrite Hperm. by eapply sublist_NoDup.
Qed.

(** X21. A quick scan that finds a stale project on disk rewrites the snapshot with
    the same set of project paths and the same exclusion list; paths that were
    unique stay unique, and then the number of projects is unchanged. *)
Theorem quick_scan_keeps_the_set_of_projects (env : Env) (directory : string)
    (options : ScanFlags.t) (w : World) (existing : GlobalContext.t)
    (sp : StaleProject.t) :
  ScanFlags.check options = false →
  ScanFlags.quick options = true →
  disk env = faithful_disk →
  files w !! Store.jsonPath = Some (Doc existing) →
  sp ∈ StalenessReport.staleProjects
         (Staleness.detectStaleProjects (clock env) (probe env) existing) →
  fs_existsSync (probe env) (StaleProject.path sp) = true →
  ∃ w' written,
    scan_action (with_scanner env ws) directory options w = (Returns tt, w')
    ∧ files w' !! Store.jsonPath = Some (Doc written)
    ∧ (∀ q, q ∈ ProjectInfo.path <$> projects written
            ↔ q ∈ ProjectInfo.path <$> projects existing)
    ∧ (NoDup (ProjectInfo.path <$> projects existing) →
       NoDup (ProjectInfo.path <$> projects written)
       ∧ length (projects written) = length (projects existing))
    ∧ excludedProjects written = excludedProjects existing.
Proof.
  intros Hcheck Hquick Hdisk Hfile Hsp Hexists.
  destruct (StalenessReport.staleProjects
              (Staleness.detectStaleProjects (clock env) (probe env) existing))
    as [|sp0 rest] eqn:Hstale; [by apply elem_of_nil in Hsp|].
  set (paths := StaleProject.path <$> sp0 :: rest).
  set (found := filter (fun q => fs_existsSync (probe env) q = true) paths).
  assert (scanProjects (with_scanner env ws) (request directory options (Some paths))
            (files w)
          = Scan.analyzeProject (clock env) (probe env) ws <$> found) as Hscan.
  { simpl. by erewrite scanProjects_quick by reflexivity. }
  assert (StaleProject.path sp ∈ found) as Hfound.
  { apply list_elem_of_filter. split; [done|]. by apply list_elem_of_fmap_2. }
  destruct (quick_scan_writes (with_scanner env ws) directory options w existing sp0 rest
              Hcheck Hquick Hdisk Hfile Hstale) as (w' & Hrun & Hjson).
  { fold paths. rewrite Hscan. destruct found; [by apply elem_of_nil in Hfound|done]. }
  fold paths in Hjson. rewrite Hscan in Hjson.
  destruct (stale_paths env existing) as [Hknown Hunique]. rewrite Hstale in Hknown, Hunique.
  fold paths in Hknown, Hunique.
  assert (∀ q, q ∈ found → q ∈ ProjectInfo.path <$> projects existing) as Hfound_known.
  { intros q [_ Hq]%list_elem_of_filter. by apply Hknown. }
  set (scanned := Scan.analyzeProject (clock env) (probe env) ws <$> found) in *.
  assert ((ProjectInfo.path <$> scanned) = found) as Hpaths
    by apply analyzeProject_paths.
  assert (∀ q, q ∈ ProjectInfo.path <$> projects (quick_merge (clock env) existing scanned)
               ↔ q ∈ ProjectInfo.path <$> projects existing) as Hsame.
  { intros q. rewrite !list_elem_of_fmap. split.
    - intros (p & -> & Hp). apply elem_of_quick_merge in Hp as [[Hp _]|Hp].
      + by exists p.
      + apply list_elem_of_fmap. apply Hfound_known. rewrite <- Hpaths.
        by apply list_elem_of_fmap_2.
    - intros (p & -> & Hp).
      destruct (decide (ProjectInfo.path p ∈ ProjectInfo.path <$> scanned)) as [Hin|Hout].
      + apply list_elem_of_fmap in Hin as (p' & Hp' & Hin). exists p'. split; [done|].
        apply elem_of_quick_merge. by right.
      + exists p. split; [done|]. apply elem_of_quick_merge. by left. }
  exists w', (quick_merge (clock env) existing scanned).
  split; [exact Hrun|]. split; [exact Hjson|]. split; [exact Hsame|]. split; [|done].
  intros Hnodup.
  assert (NoDup (ProjectInfo.path <$> projects (quick_merge (clock env) existing scanned)))
    as Hnodup'.
  { apply quick_merge_paths_NoDup; [done|]. rewrite Hpaths. apply NoDup_filter.
    by apply Hunique. }
  split; [done|].
  rewrite <- (length_fmap ProjectInfo.path (projects (quick_merge _ _ _))).
  rewrite <- (length_fmap ProjectInfo.path (projects existing)).
  apply Permutation_length. by apply NoDup_Permutation.
Qed.

(** X22. A quick scan does not consult the exclusion list: a stale project that is
    excluded and still on disk is analysed again and stays in the snapshot. *)
Theorem quick_scan_rescans_excluded_projects (env : Env) (directory : string)
    (options : ScanFlags.t) (w : World) (existing : GlobalContext.t)
    (sp : StaleProject.t) :
  ScanFlags.check options = false →
  ScanFlags.quick options = true →
  disk env = faithful_disk →
  files w !! Store.jsonPath = Some (Doc existing) →
  sp ∈ StalenessReport.staleProjects
         (Staleness.detectStaleProjects (clock env) (probe env) existing) →
  fs_existsSync (probe env) (StaleProject.path sp) = true →
  StaleProject.path sp ∈ excluded existing →
  ∃ w' written,
    scan_action (with_scanner env ws) directory options w = (Returns tt, w')
    ∧ files w' !! Store.jsonPath = Some (Doc written)
    ∧ Scan.analyzeProject (clock env) (probe env) ws (StaleProject.path sp)
        ∈ projects written
    ∧ StaleProject.path sp ∈ excluded written.
Proof.
  intros Hcheck Hquick Hdisk Hfile Hsp Hexists Hexcluded.
  destruct (StalenessReport.staleProjects
              (Staleness.detectStaleProjects (clock env) (probe env) existing))
    as [|sp0 rest] eqn:Hstale; [by apply elem_of_nil in Hsp|].
  set (paths := StaleProject.path <$> sp0 :: rest).
  set (found := filter (fun q => fs_existsSync (probe env) q = true) paths).
  assert (scanProjects (with_scanner env ws) (request directory options (Some paths))
            (files w)
          = Scan.analyzeProject (clock env) (probe env) ws <$> found) as Hscan.
  { simpl. by erewrite scanProjects_quick by reflexivity. }
  assert (StaleProject.path sp ∈ found) as Hfound.
  { apply list_elem_of_filter. split; [done|]. by apply list_elem_of_fmap_2. }
  destruct (quick_scan_writes (with_scanner env ws) directory options w existing sp0 rest
              Hcheck Hquick Hdisk Hfile Hstale) as (w' & Hrun & Hjson).
  { fold paths. rewrite Hscan. destruct found; [by apply elem_of_nil in Hfound|done]. }
  fold paths in Hjson. rewrite Hscan in Hjson.
  eexists _, _. split; [exact Hrun|]. split; [exact Hjson|]. split; [|done].
  apply elem_of_quick_merge. right. by apply list_elem_of_fmap_2.
Qed.
End ScanFacts.


(** ** The working directory and the insights of the MCP server *)

Section CurrentDirectoryFacts.
Import GlobalContext.

Lemma append_cons (c : Ascii.ascii) (a b : string) :
  String c a +:+ b = String c (a +:+ b).
Proof. reflexivity. Qed.

Lemma startsWith_iff (s t : string) :
  startsWith s t = true ↔ ∃ rest, s = t +:+ rest.
Proof.
  unfold startsWith. revert s. induction t as [|a t IH]; intros s.
  - destruct s; (split; [|done]); intros _; eexists; reflexivity.
  - destruct s as [|b s]; simpl.
    + split; [done|]. by intros [rest ?].
    + destruct (Ascii.ascii_dec a b) as [->|Hab].
      * rewrite IH. split; intros [rest Hrest]; exists rest.
        -- by rewrite append_cons, Hrest.
        -- rewrite append_cons in Hrest. by injection Hrest.
      * split; [done|]. intros [rest Hrest]. rewrite append_cons in Hrest.
        injection Hrest as -> _. done.
Qed.

Lemma strip_slash_cases (s : string) :
  Mcp.strip_slash s = s ∨ s = Mcp.strip_slash s +:+ "/".
Proof.
  induction s as [|c s IH]; [by left|].
  cbn [Mcp.strip_slash].
  destruct (String.eqb_spec (String c s) "/") as [->|Hne]; [by right|].
  destruct IH as [->| IH]; [by left|]. right. by rewrite append_cons, <- IH.
Qed.

Lemma find_related (cwd : string) (l : list ProjectInfo.t) :
  match
    List.find
      (fun p => startsWith cwd (ProjectInfo.path p) || startsWith (ProjectInfo.path p) cwd) l
  with
  | Some p => p ∈ l ∧ prefix_related cwd p
  | None => ∀ p, p ∈ l → ¬ prefix_related cwd p
  end.
Proof.
  induction l as [|q l IH]; simpl.
  - by intros p ?%elem_of_nil.
  - destruct (startsWith cwd (ProjectInfo.path q) || startsWith (ProjectInfo.path q) cwd)
      eqn:Hq.
    + split; [by left|]. apply orb_true_iff in Hq. unfold prefix_related.
      by rewrite <- !startsWith_iff.
    + destruct (List.find _ l) as [p|].
      * destruct IH. split; [by right|done].
      * intros p [->|Hp]%elem_of_cons; [|by apply IH].
        unfold prefix_related. rewrite <- !startsWith_iff.
        apply orb_false_iff in Hq as [-> ->]. by intros [|].
Qed.

Lemma related_iff (cwd : string) (p : ProjectInfo.t) :
  startsWith cwd (ProjectInfo.path p) || startsWith (ProjectInfo.path p) cwd = true
  ↔ prefix_related cwd p.
Proof. unfold prefix_related. by rewrite orb_true_iff, !startsWith_iff. Qed.

Lemma find_first {A} (f : A → bool) (l : list A) (x : A) :
  List.find f l = Some x →
  ∃ before after, l = (before ++ x :: after)%list ∧ ∀ y, y ∈ before → f y = false.
Proof.
  induction l as [|z l IH]; simpl; [done|].
  destruct (f z) eqn:Hz.
  - intros [= <-]. exists [], l. split; [done|]. by intros y ?%elem_of_nil.
  - intros (before & after & -> & Hbefore)%IH. exists (z :: before), after.
    split; [done|]. by intros y [->|Hy]%elem_of_cons; [|apply Hbefore].
Qed.

(** X23. checkCurrentProjectStaleness examines the first project of the snapshot,
    in its order, whose path is a prefix of the working directory or has it
    as a prefix, and none when there is no such project. It answers stale
    exactly when analyzeProjectStaleness reports that project, which is then
    on the report of detectStaleProjects, with its details as the reason;
    otherwise it gives no reason. *)
Theorem current_staleness_agrees_with_report (clk : Clock) (pr : Probe)
    (context : GlobalContext.t) (cwd : string) :
  let answer := Current.checkCurrentProjectStaleness clk pr context cwd in
  let report := Staleness.detectStaleProjects clk pr context in
  match CurrentStaleness.project answer with
  | None =>
      CurrentStaleness.isStale answer = false
      ∧ CurrentStaleness.reason answer = None
      ∧ ∀ p, p ∈ projects context → ¬ prefix_related cwd p
  | Some p =>
      prefix_related cwd p
      ∧ (∃ before after,
            projects context = (before ++ p :: after)%list
            ∧ ∀ q, q ∈ before → ¬ prefix_related cwd q)
      ∧ if CurrentStaleness.isStale answer then
          ∃ sp, sp ∈ StalenessReport.staleProjects report
                ∧ Staleness.analyzeProjectStaleness clk pr p = Some sp
                ∧ StaleProject.path sp = ProjectInfo.path p
                ∧ CurrentStaleness.reason answer = StaleProject.details sp
        else Staleness.analyzeProjectStaleness clk pr p = None
             ∧ CurrentStaleness.reason answer = None
  end.
Proof.
  intros answer report. subst answer report.
  unfold Current.checkCurrentProjectStaleness. cbv zeta.
  pose proof (find_related cwd (projects context)) as Hfind.
  destruct (List.find _ (projects context)) as [p|] eqn:Hfound; simpl; [|done].
  destruct Hfind as [Hp Hrelated].
  apply find_first in Hfound as (before & after & Hsplit & Hbefore).
  assert (∀ q, q ∈ before → ¬ prefix_related cwd q) as Hnone.
  { intros q Hq Hq'. apply related_iff in Hq'. rewrite (Hbefore q Hq) in Hq'. done. }
  destruct (Staleness.analyzeProjectStaleness clk pr p) as [sp|] eqn:Hsp; simpl.
  - split; [done|]. split; [by exists before, after|]. exists sp. split.
    + rewrite stale_of_report, sort_perm. apply list_elem_of_omap. by exists p.
    + split; [done|]. split; [|done]. by apply analyze_Some in Hsp as (_ & ? & _).
  - split; [done|]. split; [by exists before, after|]. by rewrite Hsp.
Qed.

Lemma append_assoc (a b c : string) : (a +:+ b) +:+ c = a +:+ (b +:+ c).
Proof.
  induction a as [|x a IH]; [done|]. by rewrite !append_cons, IH.
Qed.

Lemma append_nil_r (a : string) : a +:+ "" = a.
Proof. induction a as [|x a IH]; [done|]. by rewrite append_cons, IH. Qed.

Lemma at_or_below_iff (cwd : string) (p : ProjectInfo.t) :
  String.eqb (Mcp.strip_slash cwd) (Mcp.strip_slash (ProjectInfo.path p))
  || startsWith (Mcp.strip_slash cwd) (Mcp.strip_slash (ProjectInfo.path p) +:+ "/") = true
  ↔ at_or_below cwd p.
Proof.
  unfold at_or_below. rewrite orb_true_iff, String.eqb_eq, startsWith_iff.
  split; (intros [?|[rest Hrest]]; [by left|right; exists rest]).
  - by rewrite Hrest, append_assoc.
  - by rewrite Hrest, append_assoc.
Qed.

Lemma boundary_prefix (cwd dir : string) :
  Mcp.strip_slash cwd = Mcp.strip_slash dir
  ∨ (∃ rest, Mcp.strip_slash cwd = Mcp.strip_slash dir +:+ "/" +:+ rest) →
  (∃ rest, cwd = dir +:+ rest) ∨ (∃ rest, dir = cwd +:+ rest).
Proof.
  destruct (strip_slash_cases cwd) as [Hc|Hc];
    destruct (strip_slash_cases dir) as [Hd|Hd];
    revert Hc Hd; generalize (Mcp.strip_slash cwd) (Mcp.strip_slash dir);
    intros n m Hc Hd [Heq|[rest Hrest]]; subst.
  - left. exists "". by rewrite append_nil_r.
  - left. by eexists.
  - right. by eexists.
  - left. eexists. by rewrite append_assoc.
  - left. by eexists.
  - left. eexists. by rewrite !append_assoc.
  - left. exists "". by rewrite append_nil_r.
  - left. eexists. by rewrite !append_assoc.
Qed.

Lemma at_or_below_related (cwd : string) (p : ProjectInfo.t) :
  at_or_below cwd p → prefix_related cwd p.
Proof. apply boundary_prefix. Qed.

Lemma find_spec {A} (f : A → bool) (P : A → Prop) (l : list A) :
  (∀ x, f x = true ↔ P x) →
  match List.find f l with
  | Some x => x ∈ l ∧ P x
  | None => ∀ x, x ∈ l → ¬ P x
  end.
Proof.
  intros Hf. induction l as [|y l IH]; simpl.
  - by intros x ?%elem_of_nil.
  - destruct (f y) eqn:Hy.
    + split; [by left|]. by apply Hf.
    + destruct (List.find f l) as [x|].
      * destruct IH. split; [by right|done].
      * intros x [->|Hx]%elem_of_cons; [|by apply IH].
        rewrite <- Hf, Hy. done.
Qed.

Lemma find_agree {A} (f g : A → bool) (l : list A) :
  (∀ x, x ∈ l → f x = g x) → List.find f l = List.find g l.
Proof.
  induction l as [|y l IH]; [done|]. intros Hfg. simpl.
  rewrite <- (Hfg y) by by left. destruct (f y); [done|].
  apply IH. intros x Hx. apply Hfg. by right.
Qed.

(** X24. When detectCurrentDirectoryStatus names a known project,
    checkCurrentProjectStaleness examines a project too. It is the named
    project whenever every project that is prefix-related to the working
    directory is at or above it at a path boundary. *)
Theorem staleness_check_covers_known_projects (clk : Clock) (pr : Probe)
    (context : GlobalContext.t) (cwd : string) (config : MemoryConfig.t) (here : node) :
  let status := Mcp.detectCurrentDirectoryStatus cwd (Some context) config here in
  let answer := Current.checkCurrentProjectStaleness clk pr context cwd in
  CurrentDirectoryStatus.status status = known_project →
  ∃ known examined,
    known ∈ projects context
    ∧ at_or_below cwd known
    ∧ CurrentDirectoryStatus.projectName status = Some (ProjectInfo.name known)
    ∧ CurrentStaleness.project answer = Some examined
    ∧ examined ∈ projects context
    ∧ prefix_related cwd examined
    ∧ ((∀ p, p ∈ projects context → prefix_related cwd p → at_or_below cwd p) →
       examined = known).
Proof.
  intros status answer. subst status answer.
  unfold Mcp.detectCurrentDirectoryStatus, Current.checkCurrentProjectStaleness.
  cbv zeta.
  pose proof (find_spec _ _ (projects context) (at_or_below_iff cwd)) as Hknown.
  pose proof (find_spec _ _ (projects context) (related_iff cwd)) as Hexamined.
  destruct (List.find (fun p => String.eqb _ _ || _) (projects context))
    as [known|] eqn:Hfind_known.
  2:{ by repeat case_match. }
  intros _. destruct Hknown as [Hin Hbelow].
  destruct (List.find (fun p => startsWith cwd _ || _) (projects context))
    as [examined|] eqn:Hfind_examined.
  2:{ destruct (Hexamined known Hin). by apply at_or_below_related. }
  destruct Hexamined as [Hin' Hrelated].
  exists known, examined. do 3 (split; [done|]).
  split; [by destruct (Staleness.analyzeProjectStaleness clk pr examined)|].
  do 2 (split; [done|]). intros Honly.
  assert (Some examined = Some known) as [= ->]; [|done].
  rewrite <- Hfind_examined, <- Hfind_known. apply find_agree. intros p Hp.
  apply eq_true_iff_eq. rewrite related_iff, at_or_below_iff.
  split; [by apply Honly|apply at_or_below_related].
Qed.

(** X25. The answer of detectCurrentDirectoryStatus: known_project exactly when the
    working directory is at or below the path of a project of the snapshot;
    otherwise new_project exactly when auto-detection is on and a watched
    directory is a prefix of it; otherwise outside_workspace or not_a_project
    by its markers. Setup is offered exactly when it is needed, a scan exactly
    outside the workspace, and a project name is given for known projects
    only. *)
Theorem directory_status_decision_table (cwd : string) (context : option GlobalContext.t)
    (config : MemoryConfig.t) (here : node) :
  let status := Mcp.detectCurrentDirectoryStatus cwd context config here in
  let known := ∃ c p, context = Some c ∧ p ∈ projects c ∧ at_or_below cwd p in
  let watched :=
    MemoryConfig.autoDetectNewProjects config = true
    ∧ ∃ dir rest, dir ∈ MemoryConfig.watchedDirs config
                  ∧ Mcp.strip_slash cwd = Mcp.strip_slash dir +:+ rest in
  CurrentDirectoryStatus.path status = cwd
  ∧ (CurrentDirectoryStatus.status status = known_project ↔ known)
  ∧ (CurrentDirectoryStatus.status status = new_project ↔ ¬ known ∧ watched)
  ∧ (CurrentDirectoryStatus.status status = outside_workspace
     ↔ ¬ known ∧ ¬ watched ∧ Mcp.looksLikeProject here = true)
  ∧ (CurrentDirectoryStatus.status status = not_a_project
     ↔ ¬ known ∧ ¬ watched ∧ Mcp.looksLikeProject here = false)
  ∧ (CurrentDirectoryStatus.suggestedAction status = Some offer_setup
     ↔ CurrentDirectoryStatus.needsSetup status = Some true)
  ∧ (CurrentDirectoryStatus.suggestedAction status = Some offer_scan
     ↔ CurrentDirectoryStatus.status status = outside_workspace)
  ∧ (is_Some (CurrentDirectoryStatus.projectName status)
     ↔ CurrentDirectoryStatus.status status = known_project).
Proof.
  intros status known watched.
  assert (MemoryConfig.autoDetectNewProjects config
          && Mcp.isUnderWatchedDir cwd (MemoryConfig.watchedDirs config) = true
          ↔ watched) as Hwatched.
  { subst watched. rewrite andb_true_iff. unfold Mcp.isUnderWatchedDir.
    rewrite existsb_exists. setoid_rewrite startsWith_iff.
    setoid_rewrite <- list_elem_of_In.
    split; intros [Hauto Hdir]; (split; [done|]).
    - destruct Hdir as (dir & Hin & rest & Hrest). by exists dir, rest.
    - destruct Hdir as (dir & rest & Hin & Hrest). exists dir. split; [done|].
      by exists rest. }
  assert (match
            match context with
            | Some c =>
                List.find
                  (fun p =>
                     String.eqb (Mcp.strip_slash cwd) (Mcp.strip_slash (ProjectInfo.path p))
                     || startsWith (Mcp.strip_slash cwd)
                          (Mcp.strip_slash (ProjectInfo.path p) +:+ "/"))
                  (projects c)
            | None => None
            end
          with
          | Some _ => known
          | None => ¬ known
          end) as Hfound.
  { subst known. destruct context as [c|].
    - pose proof (find_spec _ _ (projects c) (at_or_below_iff cwd)) as Hfind.
      destruct (List.find _ (projects c)) as [p|].
      + exists c, p. by destruct Hfind.
      + intros (c' & p & [= <-] & Hp & Hbelow). by apply (Hfind p).
    - by intros (c & p & ? & _). }
  clearbody known watched.
  subst status. unfold Mcp.detectCurrentDirectoryStatus. cbv zeta.
  destruct (match context with Some _ => _ | None => _ end) as [p|].
  { destruct (HasFiles.claudeMd _); simpl; repeat split;
      try done; try tauto; by eauto. }
  destruct (_ && _) eqn:Hw.
  - assert watched by by apply Hwatched.
    destruct (Mcp.looksLikeProject here); simpl; repeat split;
      try done; tauto.
  - assert (¬ watched) by (rewrite <- Hwatched; congruence).
    destruct (Mcp.looksLikeProject here); simpl; repeat split;
      try done; try tauto; by intros (_ & _ & [=]).
Qed.
End CurrentDirectoryFacts.

Section InsightFacts.
Import GlobalContext.

(** X26. On a store that parses and a faithful disk, handleRecordInsight writes
    the snapshot with the insight appended and every other field, lastUpdated
    included, as it was, prints nothing and replies with the confirmation;
    every later full merge and every later quick merge carries the insights
    with the new one at the end. *)
Theorem recorded_insight_outlives_rescans (clk : Clock)
    (slice : string → nat → nat → string) (content : string)
    (relatedProjects : option (list string)) (w : World) (context : GlobalContext.t) :
  files w !! Store.jsonPath = Some (Doc context) →
  let insight :=
    {| GlobalInsight.content := content;
       GlobalInsight.relatedProjects := default [] relatedProjects;
       GlobalInsight.discoveredAt := now_iso clk |} in
  let recorded :=
    {| schemaVersion := schemaVersion context;
       lastUpdated := lastUpdated context;
       projects := projects context;
       insights := (insights context ++ [insight])%list;
       userPatterns := userPatterns context;
       excludedProjects := excludedProjects context |} in
  ∃ reply w',
    Mcp.handleRecordInsight clk faithful_disk slice content relatedProjects w
    = (Returns reply, w')
    ∧ files w' = <[Store.jsonPath := Doc recorded]> (files w)
    ∧ console w' = console w
    ∧ reply = ("âœ… Insight recorded: " +:+ Mcp.quote +:+ slice content 0%nat 100%nat
               +:+ "..." +:+ Mcp.quote
               +:+ match default [] relatedProjects with
                   | [] => ""
                   | related => " (related to: " +:+ String.concat ", " related +:+ ")"
                   end)
    ∧ ∀ (later : Clock) (scanned : list ProjectInfo.t),
        insights (Store.generateGlobalContext later w' scanned)
        = (insights context ++ [insight])%list
        ∧ insights (Cli.quick_merge later recorded scanned)
          = (insights context ++ [insight])%list.
Proof.
  intros Hfile insight recorded.
  unfold Mcp.handleRecordInsight. run_io. rewrite Hfile. simpl. rewrite Hfile.
  unfold ret. simpl.
  eexists _, _. split; [reflexivity|]. simpl. split; [reflexivity|].
  split; [done|]. split.
  { by destruct relatedProjects as [[|r rest]|]. }
  intros later scanned. split; [|done].
  unfold Store.generateGlobalContext, Store.loadExistingContext. simpl.
  rewrite lookup_insert_eq. simpl.
  exact (proj1 (proj2 (migrate_keeps later recorded))).
Qed.

End InsightFacts.


(** ** The license status; the markers of the server and of the scanner *)

Section LicenseFacts.
Import Licensing.

Lemma ceil_div_negative (a b : Z) :
  (0 < b)%Z → (ceil_div a b < 0)%Z ↔ (a ≤ - b)%Z.
Proof.
  intros Hb. unfold ceil_div. split.
  - intros Hneg. assert (1 ≤ (- a) `div` b)%Z as Hq by lia.
    pose proof (Z.mul_div_le (- a) b Hb). nia.
  - intros Ha. assert (1 ≤ (- a) `div` b)%Z; [|lia].
    apply Z.div_le_lower_bound; lia.
Qed.

(** X28. getLicenseStatus reports Pro exactly when isPro does or the license is a
    Pro license that expired less than a day ago: during that day the two
    functions disagree. *)
Theorem license_status_outlasts_isPro (clk : Clock) (license : option License.t) :
  LicenseStatus.isPro (getLicenseStatus clk license) = true
  ↔ isPro clk license = true
    ∨ ∃ l e t,
        license = Some l
        ∧ License.plan l = pro
        ∧ expiry l = Some e
        ∧ Date_getTime clk e = Some t
        ∧ (now_ms clk - dayMs < t < now_ms clk)%Z.
Proof.
  destruct license as [l|]; simpl.
  2:{ split; [done|]. by intros [|(? & ? & ? & ? & _)]. }
  destruct (License.plan l) eqn:Hplan.
  { split; [done|]. intros [|(l' & e & t & [= <-] & Hpro & _)]; [done|congruence]. }
  destruct (expiry l) as [e|] eqn:Hexpiry; simpl.
  2:{ split; [by left|done]. }
  destruct (Date_getTime clk e) as [t|] eqn:Ht; simpl.
  2:{ split; [by left|done]. }
  change (1000 * 60 * 60 * 24) with dayMs.
  pose proof (ceil_div_negative (t - now_ms clk) dayMs) as Hceil.
  unfold dayMs in *.
  specialize (Hceil ltac:(lia)).
  destruct (bool_decide_reflect (ceil_div (t - now_ms clk) (1000 * 60 * 60 * 24) < 0))
    as [Hexpired|Hvalid];
    destruct (bool_decide_reflect (t < now_ms clk)) as [Hpast|Hfuture]; simpl.
  - split; [done|]. intros [|(l' & e' & t' & [= <-] & _ & He' & Ht' & Hrange)]; [done|].
    rewrite Hexpiry in He'. injection He' as <-.
    rewrite Ht in Ht'. injection Ht' as <-. lia.
  - lia.
  - split; [|done]. intros _. right. exists l, e, t. repeat split; try done; lia.
  - split; [by left|done].
Qed.
End LicenseFacts.

Section MarkerFacts.
Import Scanner.

Lemma length_append (a b : string) :
  String.length (a +:+ b) = (String.length a + String.length b)%nat.
Proof.
  induction a as [|x a IH]; [done|]. rewrite append_cons. simpl. by rewrite IH.
Qed.

Lemma descends_longer ignore dir here depth dir' there depth' :
  descends ignore dir here depth dir' there depth' →
  (dir' = dir ∧ there = here) ∨ (String.length dir < String.length dir')%nat.
Proof.
  induction 1 as [|dir children depth entry child dir' there depth' _ _ _ _ IH];
    [by left|].
  right. unfold join in IH. rewrite !length_append in IH. simpl in IH.
  destruct IH as [[-> _]|IH]; [rewrite !length_append; simpl|]; lia.
Qed.

Lemma root_is_found (here : node) (dir : string) (maxDepth : Z) (ignore : list string) :
  (0 ≤ maxDepth)%Z →
  dir ∈ findProjectRoots here dir maxDepth ignore
  ↔ ∃ children, here = Dir children ∧ isProject children.*1 = true.
Proof.
  intros Hdepth. unfold findProjectRoots. split.
  - intros (cs & d & Hd & _ & Hm)%walk_characterised.
    apply descends_longer in Hd as [[_ <-]|Hlen]; [by exists cs|lia].
  - intros (children & -> & Hm). rewrite walk_Dir.
    rewrite bool_decide_eq_false_2 by lia. rewrite Hm. by apply list_elem_of_singleton.
Qed.

(** X29. A directory that the scanner returns as its own root looks like a project
    to the server. The converse fails exactly for a directory whose only
    marker is requirements.txt: the server takes it for a project and the
    scanner does not. *)
Theorem requirements_only_directory_is_offered_but_not_scanned (here : node)
    (dir : string) (maxDepth : Z) (ignore : list string) :
  (0 ≤ maxDepth)%Z →
  (dir ∈ findProjectRoots here dir maxDepth ignore → Mcp.looksLikeProject here = true)
  ∧ (Mcp.looksLikeProject here = true ∧ dir ∉ findProjectRoots here dir maxDepth ignore
     ↔ ∃ children,
         here = Dir children
         ∧ "requirements.txt" ∈ children.*1
         ∧ isProject children.*1 = false).
Proof.
  intros Hdepth. rewrite (root_is_found here dir maxDepth ignore Hdepth).
  destruct here as [|children| |].
  1,3,4: (split; [by intros (? & ? & _)|]; split; [by intros [? _]|by intros (? & ? & _)]).
  change (Mcp.looksLikeProject (Dir children))
    with (isProject children.*1 || includes children.*1 "requirements.txt").
  unfold includes at 1.
  destruct (isProject children.*1) eqn:Hm; simpl.
  - split; [done|]. split.
    + intros [_ []]. by exists children.
    + intros (cs & [= <-] & _ & ?). congruence.
  - split; [intros (cs & [= <-] & ?); congruence|]. split.
    + intros [Hreq _]. exists children. split; [done|]. split; [|done].
      by apply bool_decide_eq_true in Hreq.
    + intros (cs & [= <-] & Hreq & _). split; [by apply bool_decide_eq_true|].
      intros (cs & [= <-] & ?). congruence.
Qed.
End MarkerFacts.



(** * The further properties on the sample data *)

(** A store without [schemaVersion] is loaded at schema version 1, with an
    empty exclusion list. *)
Lemma load_is_current_and_stable_witness :
  let loaded := Store.migrateContext sample_clock legacy_context in
  Store.loadExistingContext sample_clock legacy_world = Some loaded
  ∧ (1 ≤ GlobalContext.schemaVersion loaded)%Z
  ∧ Store.migrateContext sample_clock loaded = loaded
  ∧ GlobalContext.excludedProjects loaded = Some [].
Proof.
  destruct (load_is_current_and_stable sample_clock legacy_world
              (Store.migrateContext sample_clock legacy_context) eq_refl)
    as (Hversion & Hstable & Hdoc).
  split; [reflexivity|]. split; [exact Hversion|]. split; [exact Hstable|].
  destruct (Hdoc legacy_context eq_refl) as [_ Hlegacy].
  apply Hlegacy. reflexivity.
Defined.

(** global-context.md cannot be replaced: the write of the fresh snapshot
    over the sample store throws with the markdown file as it was (absent)
    and the fresh snapshot already in context.json. *)
Lemma failed_write_keeps_snapshot_unless_half_renamed_witness :
  ∃ e w',
    Fragile.writeGlobalContext faithful_disk md_rename_fails sample_render fresh_context
      sample_world = (Throws e, w')
    ∧ files w' !! Store.mdPath = None
    ∧ files sample_world !! Store.jsonPath = Some (Doc sample_context)
    ∧ files w' !! Store.jsonPath = Some (Doc fresh_context).
Proof.
  destruct (Fragile.writeGlobalContext faithful_disk md_rename_fails sample_render
              fresh_context sample_world) as [[[]|e] w'] eqn:Hrun;
    [vm_compute in Hrun; discriminate Hrun|].
  exists e, w'. split; [reflexivity|].
  destruct (failed_write_keeps_snapshot_unless_half_renamed _ _ _ _ _ _ _ Hrun)
    as [Hmd [Hjson|(_ & _ & read_back & Hread & _ & Hjson)]].
  - vm_compute in Hrun. injection Hrun as _ <-. vm_compute in Hjson. discriminate Hjson.
  - split; [by rewrite Hmd|]. split; [reflexivity|].
    injection Hread as <-. exact Hjson.
Defined.

(** On the truncating disk the write fails, and both temporary files are
    gone afterwards. *)
Lemma write_leaves_no_temp_file_witness :
  ∃ e w',
    Fragile.writeGlobalContext corrupting_disk md_rename_fails sample_render sample_context
      sample_world = (Throws e, w')
    ∧ files w' !! Store.jsonTempPath = None
    ∧ files w' !! Store.mdTempPath = None.
Proof.
  destruct (Fragile.writeGlobalContext corrupting_disk md_rename_fails sample_render
              sample_context sample_world) as [[[]|e] w'] eqn:Hrun;
    [vm_compute in Hrun; discriminate Hrun|].
  exists e, w'. split; [reflexivity|].
  exact (write_leaves_no_temp_file corrupting_disk md_rename_fails sample_render
           sample_context sample_world w' (Throws e) eq_refl eq_refl eq_refl Hrun).
Defined.


Lemma unparsable_lastScanned_is_never_stale_witness :
  Staleness.analyzeProjectStaleness sample_clock git_probe project_b_undated = None.
Proof.
  apply (unparsable_lastScanned_is_never_stale sample_clock git_probe project_b_undated).
  reflexivity.
Defined.

Lemma check_is_a_dry_run_witness :
  ∃ w',
    Cli.scan_action sample_env "/home/u/Projects" check_flags sample_world = (Returns tt, w')
    ∧ files w' = files sample_world.
Proof.
  apply (check_is_a_dry_run sample_env "/home/u/Projects" check_flags sample_world).
  reflexivity.
Defined.

Lemma quick_scan_with_nothing_stale_is_a_no_op_witness :
  ∃ w',
    Cli.scan_action sample_env "/home/u/Projects" quick_flags fresh_world = (Returns tt, w')
    ∧ files w' = files fresh_world
    ∧ console w' = ["🧠 Claude Memory Scanner";
                    "✅ All projects are up to date! Nothing to scan."].
Proof.
  apply (quick_scan_with_nothing_stale_is_a_no_op sample_env "/home/u/Projects" quick_flags
           fresh_world fresh_context); reflexivity.
Defined.

(** The quick scan on the truncating disk: the command throws the
    verification error of the write of the merged snapshot. *)
Lemma scan_throws_only_what_the_write_throws_witness :
  ∃ e w' projectsToScan w0,
    Cli.scan_action corrupting_env "/home/u/Projects" quick_flags sample_world
    = (Throws e, w')
    ∧ files w0 = files sample_world
    ∧ Store.writeGlobalContext corrupting_disk sample_render
        (snapshot_to_write corrupting_env quick_flags projectsToScan sample_world
           (sample_scanProjects
              (Cli.request "/home/u/Projects" quick_flags projectsToScan)
              (files sample_world)))
        w0
      = (Throws e, w').
Proof.
  destruct (Cli.scan_action corrupting_env "/home/u/Projects" quick_flags sample_world)
    as [[[]|e] w'] eqn:Hrun; [vm_compute in Hrun; discriminate Hrun|].
  destruct (scan_throws_only_what_the_write_throws _ _ _ _ _ _ Hrun)
    as (projectsToScan & w0 & Hfiles & _ & _ & Hwrite).
  exists e, w', projectsToScan, w0. split; [reflexivity|]. split; [exact Hfiles|].
  exact Hwrite.
Defined.

Lemma quick_scan_without_snapshot_is_a_full_scan_witness :
  Cli.scan_action sample_env "/home/u/Projects" quick_flags empty_world
  = Cli.scan_action sample_env "/home/u/Projects" full_flags empty_world.
Proof.
  apply (quick_scan_without_snapshot_is_a_full_scan sample_env "/home/u/Projects" 2 false
           empty_world).
  intros c Hc. vm_compute in Hc. discriminate Hc.
Defined.

Lemma full_scan_replaces_projects_witness :
  ∃ w' written,
    Cli.scan_action scanner_env "/home/u/Projects" full_flags sample_world = (Returns tt, w')
    ∧ Store.loadExistingContext sample_clock w' = Some written
    ∧ (ProjectInfo.path <$> GlobalContext.projects written)
      = ["/home/u/Projects/b"; "/home/u/Projects/c"].
Proof.
  destruct (full_scan_replaces_projects scanner_env "/home/u/Projects" full_flags
              sample_world eq_refl eq_refl eq_refl)
    as (w' & written & Hrun & _ & Hload & _ & Hprojects & _);
    [vm_compute; discriminate|].
  exists w', written. split; [exact Hrun|]. split; [exact Hload|].
  rewrite Hprojects. vm_compute. reflexivity.
Defined.

Lemma addExclusion_excludes_once_witness :
  ∃ w' context',
    Exclude.addExclusion faithful_disk "/home/u/Projects/b" sample_world = (Returns tt, w')
    ∧ files w' !! Store.jsonPath = Some (Doc context')
    ∧ GlobalContext.excluded context' = ["/home/u/Projects/a"; "/home/u/Projects/b"]
    ∧ Exclude.addExclusion faithful_disk "/home/u/Projects/b" w' = (Returns tt, w').
Proof.
  destruct (addExclusion_excludes_once "/home/u/Projects/b" sample_world sample_context
              eq_refl)
    as (w' & context' & Hrun & Hfiles & _ & _ & _ & _ & _ & _ & _ & _ & Hagain).
  exists w', context'. split; [exact Hrun|].
  split; [rewrite Hfiles; apply lookup_insert_eq|].
  split; [|exact Hagain].
  vm_compute in Hrun. injection Hrun as <-.
  apply (f_equal (fun f => f !! Store.jsonPath)) in Hfiles.
  rewrite lookup_insert_eq in Hfiles. vm_compute in Hfiles.
  injection Hfiles as <-. reflexivity.
Defined.

Lemma removeExclusion_undoes_addExclusion_witness :
  ∃ w1 w2 context2,
    Exclude.addExclusion faithful_disk "/home/u/Projects/b" sample_world = (Returns tt, w1)
    ∧ Exclude.removeExclusion faithful_disk "/home/u/Projects/b" w1 = (Returns tt, w2)
    ∧ files w2 !! Store.jsonPath = Some (Doc context2)
    ∧ GlobalContext.excluded context2 = ["/home/u/Projects/a"].
Proof.
  destruct (removeExclusion_undoes_addExclusion "/home/u/Projects/b" sample_world
              sample_context eq_refl)
    as (w1 & w2 & context2 & Hadd & Hremove & Hfiles & _ & Hexcluded & _).
  { apply (bool_decide_unpack _). vm_compute. exact I. }
  exists w1, w2, context2. split; [exact Hadd|]. split; [exact Hremove|].
  split; [rewrite Hfiles; apply lookup_insert_eq|].
  rewrite Hexcluded. reflexivity.
Defined.

(** Crate c is excluded, then ~/Projects is scanned in full: b alone is
    listed. *)
Lemma exclusion_takes_effect_at_next_full_scan_witness :
  ∃ w1 w2 written,
    Exclude.addExclusion faithful_disk "/home/u/Projects/c" sample_world = (Returns tt, w1)
    ∧ Cli.scan_action scanner_env "/home/u/Projects" full_flags w1 = (Returns tt, w2)
    ∧ files w2 !! Store.jsonPath = Some (Doc written)
    ∧ (ProjectInfo.path <$> GlobalContext.projects written) = ["/home/u/Projects/b"]
    ∧ "/home/u/Projects/c" ∈ GlobalContext.excluded written.
Proof.
  destruct (exclusion_takes_effect_at_next_full_scan sample_workspace scanner_env
              "/home/u/Projects" full_flags sample_world sample_context
              "/home/u/Projects/c" eq_refl eq_refl eq_refl eq_refl)
    as (w1 & w2 & written & Hadd & Hscan & Hfile & Hpaths & _ & Hexcluded);
    [vm_compute; discriminate | reflexivity | vm_compute; discriminate |].
  exists w1, w2, written. do 3 (split; [assumption|]).
  split; [rewrite Hpaths; vm_compute; reflexivity | exact Hexcluded].
Defined.

(** The same on the store without [schemaVersion]: crate c is listed again
    and nothing is excluded any more. *)
Lemma exclusion_is_forgotten_below_schema_1_witness :
  ∃ w1 w2 written,
    Exclude.addExclusion faithful_disk "/home/u/Projects/c" legacy_world = (Returns tt, w1)
    ∧ Cli.scan_action scanner_env "/home/u/Projects" full_flags w1 = (Returns tt, w2)
    ∧ files w2 !! Store.jsonPath = Some (Doc written)
    ∧ (ProjectInfo.path <$> GlobalContext.projects written)
      = ["/home/u/Projects/b"; "/home/u/Projects/c"]
    ∧ GlobalContext.excluded written = [].
Proof.
  destruct (exclusion_is_forgotten_below_schema_1 sample_workspace scanner_env
              "/home/u/Projects" full_flags legacy_world legacy_context
              "/home/u/Projects/c" eq_refl eq_refl eq_refl eq_refl)
    as (w1 & w2 & written & Hadd & Hscan & Hfile & Hpaths & Hexcluded);
    [reflexivity | reflexivity | vm_compute; discriminate |].
  exists w1, w2, written. do 3 (split; [assumption|]).
  split; [rewrite Hpaths; vm_compute; reflexivity | exact Hexcluded].
Defined.

Lemma quick_scan_keeps_the_set_of_projects_witness :
  ∃ w' written,
    Cli.scan_action scanner_env "/home/u/Projects" quick_flags sample_world = (Returns tt, w')
    ∧ files w' !! Store.jsonPath = Some (Doc written)
    ∧ length (GlobalContext.projects written) = 3%nat.
Proof.
  destruct (quick_scan_keeps_the_set_of_projects sample_workspace scanner_env
              "/home/u/Projects" quick_flags sample_world sample_context stale_b_by_age
              eq_refl eq_refl eq_refl eq_refl)
    as (w' & written & Hrun & Hfile & _ & Hunique & _);
    [vm_compute; constructor | reflexivity |].
  exists w', written. split; [exact Hrun|]. split; [exact Hfile|].
  destruct Hunique as [_ Hlength]; [|exact Hlength].
  apply (bool_decide_unpack _). vm_compute. exact I.
Defined.

(** Project b is excluded and stale: the quick scan analyses it again and
    keeps it. *)
Lemma quick_scan_rescans_excluded_projects_witness :
  ∃ w' written,
    Cli.scan_action scanner_env "/home/u/Projects" quick_flags b_excluded_world
    = (Returns tt, w')
    ∧ files w' !! Store.jsonPath = Some (Doc written)
    ∧ Scan.analyzeProject sample_clock workspace_probe sample_workspace "/home/u/Projects/b"
        ∈ GlobalContext.projects written
    ∧ "/home/u/Projects/b" ∈ GlobalContext.excluded written.
Proof.
  apply (quick_scan_rescans_excluded_projects sample_workspace scanner_env
           "/home/u/Projects" quick_flags b_excluded_world b_excluded_context
           stale_b_by_age eq_refl eq_refl eq_refl eq_refl);
    [vm_compute; constructor | reflexivity | vm_compute; constructor].
Defined.

(** In ~/Projects/b/src the server names project b, and the staleness check
    examines a project as well. *)
Lemma staleness_check_covers_known_projects_witness :
  CurrentDirectoryStatus.projectName
    (Mcp.detectCurrentDirectoryStatus "/home/u/Projects/b/src" (Some sample_context)
       sample_config File) = Some "b"
  ∧ ∃ examined,
      CurrentStaleness.project
        (Current.checkCurrentProjectStaleness sample_clock quiet_probe sample_context
           "/home/u/Projects/b/src") = Some examined
      ∧ examined ∈ GlobalContext.projects sample_context.
Proof.
  destruct (staleness_check_covers_known_projects sample_clock quiet_probe sample_context
              "/home/u/Projects/b/src" sample_config File eq_refl)
    as (known & examined & _ & _ & Hname & Hexamined & Hin & _).
  split; [reflexivity|]. exists examined. by split.
Defined.

Lemma recorded_insight_outlives_rescans_witness :
  ∃ reply w' recorded,
    Mcp.handleRecordInsight sample_clock faithful_disk (fun s _ _ => s)
      "b vendors its parser" (Some ["b"]) sample_world = (Returns reply, w')
    ∧ files w' !! Store.jsonPath = Some (Doc recorded)
    ∧ length (GlobalContext.insights recorded) = 2%nat
    ∧ GlobalContext.lastUpdated recorded = GlobalContext.lastUpdated sample_context
    ∧ length (GlobalContext.insights
                (Store.generateGlobalContext sample_clock w' [project_b_rescanned]))
      = 2%nat.
Proof.
  destruct (recorded_insight_outlives_rescans sample_clock (fun s _ _ => s)
              "b vendors its parser" (Some ["b"]) sample_world sample_context eq_refl)
    as (reply & w' & Hrun & Hfiles & _ & _ & Hlater).
  exists reply, w'. eexists. split; [exact Hrun|].
  split; [rewrite Hfiles; apply lookup_insert_eq|].
  split; [reflexivity|]. split; [reflexivity|].
  destruct (Hlater sample_clock [project_b_rescanned]) as [-> _]. reflexivity.
Defined.

(** A directory with requirements.txt as its only marker looks like a
    project to the server and is no root for the scanner. *)
Lemma requirements_only_directory_is_offered_but_not_scanned_witness :
  Mcp.looksLikeProject scripts_tree = true
  ∧ Scanner.findProjectRoots scripts_tree "/home/u/scripts" 2 Scan.ignore = [].
Proof.
  destruct (requirements_only_directory_is_offered_but_not_scanned scripts_tree
              "/home/u/scripts" 2 Scan.ignore ltac:(lia)) as [_ Honly].
  destruct (proj2 Honly) as [Hlooks _]; [|split; [exact Hlooks|reflexivity]].
  eexists. split; [reflexivity|]. split; [|reflexivity].
  apply (bool_decide_unpack _). vm_compute. exact I.
Defined.

